(** * Multi-source dataset loader: shallow embedding and verified properties

    This development embeds [utils/multi_source_loader.py] (the class
    [MultiSourceDataLoader] and the functions [shuffle_dataset],
    [load_combined_dataset] and [get_data_splits]) and proves properties of
    the corpus-assembly pipeline.

    Conventions of the embedding:
    - a Python exception is the [Raise] constructor of [result];
    - the process-global NumPy generator is threaded as explicit state
      through the monad [M];
    - the libraries the loader calls (the NumPy generator, scikit-learn's
      stratified splitter, the file system, the OpenCV decoder and the MNIST
      download) are interfaces: classes carrying the part of their
      documented contract that the loader relies on;
    - a Python float that the loader computes with (a source weight,
      [TRAINING_PERCENTAGE]) is the rational [Q] it denotes, and the
      product of a length and a float is rounded to binary64 as IEEE 754
      multiplication rounds it ([Binary64.round]); floats are taken finite
      and so are those products, so [inf] and [nan] are outside the model;
    - the fractions handed to scikit-learn ([test_size]) are rationals that
      the splitter interface receives as they are written. *)

From Stdlib Require Import ZArith QArith Qround Lia Ascii String DecimalString.
From Stdlib Require Import SpecFloat.
From stdpp Require Import base list gmap strings.

Close Scope Q_scope.
Close Scope Z_scope.

(** ** Exceptions and the two monads *)

Inductive exn := ValueError | IndexError | OSError.

Inductive result (A : Type) :=
  | Ok (a : A)
  | Raise (e : exn).
Arguments Ok {A} a.
Arguments Raise {A} e.

#[global] Instance result_ret : MRet result := @Ok.
#[global] Instance result_bind : MBind result :=
  λ A B f m, match m with Ok a => f a | Raise e => Raise e end.

(** [M S A]: a computation that reads and writes a global state [S] and may
    raise. *)
Definition M (S A : Type) : Type := S → result (A * S).

#[global] Instance M_ret S : MRet (M S) := λ A a st, Ok (a, st).
#[global] Instance M_bind S : MBind (M S) :=
  λ A B f m st, match m st with Ok (a, st') => f a st' | Raise e => Raise e end.

Definition lift {S A} (r : result A) : M S A :=
  λ st, match r with Ok a => Ok (a, st) | Raise e => Raise e end.

Definition of_option {A} (e : exn) (o : option A) : result A :=
  match o with Some a => Ok a | None => Raise e end.

(** ** Binary64 rounding

    [round q] is the binary64 number nearest to the rational [q], a tie
    going to the one with an even significand: 53 bits of significand,
    subnormals down to [2^-1074], and no overflow (the values rounded here
    stay finite).  It is what an IEEE 754 operation returns for the exact
    result [q]. *)

Module Binary64.

Definition prec : Z := 53.
Definition emin : Z := -1074.
Definition emax : Z := 1024.

(** [⌊log2 (a / b)⌋] for positive [a] and [b]. *)
Definition ilog2 (a b : Z) : Z :=
  let l := (Z.log2 a - Z.log2 b)%Z in
  if (b * 2 ^ Z.max 0 l <=? a * 2 ^ Z.max 0 (- l))%Z then l else (l - 1)%Z.

(** The integer nearest to [c / d], a tie going to the even one ([d > 0]). *)
Definition round_half_even (c d : Z) : Z :=
  let f := (c / d)%Z in
  match (2 * (c mod d) ?= d)%Z with
  | Lt => f
  | Gt => (f + 1)%Z
  | Eq => if Z.even f then f else (f + 1)%Z
  end.

(** The exponent of the unit in the last place of [a / b]. *)
Definition ulp_exponent (a b : Z) : Z := Z.max (ilog2 a b - (prec - 1)) emin.

(** The significand of the binary64 number nearest to [a / b]. *)
Definition significand (a b : Z) : Z :=
  let e := ulp_exponent a b in
  round_half_even (a * 2 ^ Z.max 0 (- e)) (b * 2 ^ Z.max 0 e).

(** [m · 2^e] *)
Definition scale (m e : Z) : Q :=
  Qmake (m * 2 ^ Z.max 0 e) (Z.to_pos (2 ^ Z.max 0 (- e))).

Definition round_pos (a b : positive) : Q :=
  scale (significand (Z.pos a) (Z.pos b)) (ulp_exponent (Z.pos a) (Z.pos b)).

Definition round (q : Q) : Q :=
  match Qnum q with
  | Z0 => 0%Q
  | Z.pos a => round_pos a (Qden q)
  | Z.neg a => Qopp (round_pos a (Qden q))
  end.

(** The rationals that are binary64 numbers. *)
Definition representable (q : Q) : bool := Qeq_bool (round q) q.

(** The value of a finite number of the Standard Library's specification
    of IEEE 754 arithmetic, and the product [n * m·2^e] as that
    specification computes it; [round] is compared with it below. *)
Definition of_spec_float (f : spec_float) : option Q :=
  match f with
  | S754_zero _ => Some 0%Q
  | S754_finite s m e => Some (if s then Qopp (scale (Z.pos m) e) else scale (Z.pos m) e)
  | _ => None
  end.

Definition spec_product (n : Z) (m : positive) (e : Z) : option Q :=
  of_spec_float (SFmul prec emax (binary_normalize prec emax n 0 false)
                       (S754_finite false m e)).

End Binary64.

(** ** Python strings and numbers *)

Module Py.

(** Strings are byte strings read as ASCII text: the manifests and file
    names of the corpus are taken to be ASCII ([is_ascii] below), where
    [is_space] is [str.isspace] and [int] reads what Python's [int]
    reads. *)
Definition is_space (c : ascii) : bool :=
  let n := nat_of_ascii c in
  ((9 <=? n) && (n <=? 13)) || ((28 <=? n) && (n <=? 32)).

(** [str.split()] with no argument: maximal runs of non-whitespace. *)
Fixpoint split_ws (cur : list ascii) (s : list ascii) : list (list ascii) :=
  match s with
  | [] => match cur with [] => [] | _ => [rev cur] end
  | c :: s' =>
      if is_space c
      then match cur with [] => split_ws [] s' | _ => rev cur :: split_ws [] s' end
      else split_ws (c :: cur) s'
  end.

Fixpoint lstrip (s : list ascii) : list ascii :=
  match s with
  | c :: s' => if is_space c then lstrip s' else s
  | [] => []
  end.

Definition strip (s : list ascii) : list ascii := rev (lstrip (rev (lstrip s))).

(** [line.strip().split()] on a line of the manifest. *)
Definition tokens (line : string) : list string :=
  string_of_list_ascii <$> split_ws [] (strip (list_ascii_of_string line)).

Definition digit_of (c : ascii) : option Z :=
  let n := nat_of_ascii c in
  if (48 <=? n) && (n <=? 57) then Some (Z.of_nat (n - 48)) else None.

(** Decimal digits, with single underscores allowed between two digits. *)
Fixpoint parse_digits (acc : Z) (after_digit : bool) (s : list ascii) : option Z :=
  match s with
  | [] => if after_digit then Some acc else None
  | c :: s' =>
      match digit_of c with
      | Some d => parse_digits (10 * acc + d)%Z true s'
      | None =>
          if Ascii.eqb c "_" && after_digit then parse_digits acc false s' else None
      end
  end.

(** [int(s)] on a token that holds no whitespace: an optional sign and a
    decimal literal; anything else is a [ValueError].  (Literals are taken
    shorter than the 4300 digits past which recent Pythons refuse them.) *)
Definition int (s : string) : result Z :=
  of_option ValueError
    match list_ascii_of_string s with
    | "+"%char :: r => parse_digits 0 false r
    | "-"%char :: r => Z.opp <$> parse_digits 0 false r
    | r => parse_digits 0 false r
    end.

Definition lower_char (c : ascii) : ascii :=
  let n := nat_of_ascii c in
  if (65 <=? n) && (n <=? 90) then ascii_of_nat (n + 32) else c.

Definition lower (s : string) : string :=
  string_of_list_ascii (lower_char <$> list_ascii_of_string s).

Definition endswith (s suffix : string) : bool :=
  let n := String.length s in
  let k := String.length suffix in
  (k <=? n) && String.eqb (String.substring (n - k) k s) suffix.

Definition startswith (s pre : string) : bool := String.prefix pre s.

(** [str(n)] for a non-negative integer. *)
Definition str (n : nat) : string := NilEmpty.string_of_uint (Nat.to_uint n).

(** [os.path.join(a, b)] on POSIX paths. *)
Definition path_join (a b : string) : string :=
  if startswith b "/" then b
  else if String.eqb a "" || endswith a "/" then a +:+ b
  else a +:+ "/" +:+ b.

(** [int(x)] on a finite float: truncation toward zero. *)
Definition int_of_float (x : Q) : Z := Z.quot (Qnum x) (Z.pos (Qden x)).

(** [n * w] for a length [n] and a float [w]: Python converts the length to
    binary64 and multiplies in binary64.  The conversion is exact up to
    [2^53], and an array of more items than that fits no memory; so the
    result is the exact product rounded once.  (Past [2^53], where it no
    longer describes a run, the model keeps the exact product.) *)
Definition mul_int_float (n : Z) (w : Q) : Q :=
  let product := (inject_Z n * w)%Q in
  if (n <=? 2 ^ 53)%Z then Binary64.round product else product.

(** [int(n * w)]: the sample size of a weighted source, and the number of
    samples [TRAINING_PERCENTAGE] keeps. *)
Definition int_of_product (n : nat) (w : Q) : Z :=
  int_of_float (mul_int_float (Z.of_nat n) w).

(** The characters of a string are ASCII. *)
Definition is_ascii (s : string) : bool :=
  forallb (λ c, nat_of_ascii c <? 128) (list_ascii_of_string s).

Definition Qltb (x y : Q) : bool := negb (Qle_bool y x).

End Py.

(** ** NumPy arrays

    An array whose first axis is the sample axis: [items] are the samples,
    [item_shape] the remaining axes.  [np.array([])] has shape [(0,)] and
    dtype float64; a batch of [n] images of [h×w×c] has shape [(n,h,w,c)]. *)

Inductive dtype := UInt8 | Int64 | Float64.

#[global] Instance dtype_eq_dec : EqDecision dtype.
Proof. solve_decision. Defined.

Definition promote (a b : dtype) : dtype :=
  match a, b with
  | Float64, _ | _, Float64 => Float64
  | Int64, _ | _, Int64 => Int64
  | UInt8, UInt8 => UInt8
  end.

Record ndarray (A : Type) := Ndarray {
  item_shape : list nat;
  dtype_of : dtype;
  items : list A;
}.
Arguments Ndarray {A} _ _ _.
Arguments item_shape {A} _.
Arguments dtype_of {A} _.
Arguments items {A} _.

(** Pixel data of one image, row-major. *)
Abbreviation pixels := (list Z).

(** What [cv2.imread] returns for a decodable file: 8-bit samples. *)
Record image := Image {
  im_shape : list nat;
  im_data : pixels;
}.

Module np.

Definition len {A} (a : ndarray A) : nat := length (items a).

(** [np.array([])] *)
Definition empty {A} : ndarray A := Ndarray [] Float64 [].

(** [np.array(labels)] on a list of Python ints, taken to fit 64 bits
    ([int64] below), where the array holds them unchanged. *)
Definition array_of_ints (l : list Z) : ndarray Z :=
  match l with
  | [] => empty
  | _ => Ndarray [] Int64 l
  end.

Definition int64 (z : Z) : Prop := (- 2 ^ 63 ≤ z < 2 ^ 63)%Z.

(** [np.array(images)] on a list of decoded images: images of one shape
    stack into a batch; a ragged list is a [ValueError]. *)
Definition array_of_images (l : list image) : result (ndarray pixels) :=
  match l with
  | [] => Ok empty
  | im :: _ =>
      if forallb (λ x, bool_decide (im_shape x = im_shape im)) l
      then Ok (Ndarray (im_shape im) UInt8 (im_data <$> l))
      else Raise ValueError
  end.

(** [np.concatenate(arrays, axis=0)] *)
Definition concatenate {A} (arrays : list (ndarray A)) : result (ndarray A) :=
  match arrays with
  | [] => Raise ValueError
  | a :: rest =>
      if forallb (λ b, bool_decide (item_shape b = item_shape a)) rest
      then Ok (Ndarray (item_shape a)
                       (foldl promote (dtype_of a) (dtype_of <$> rest))
                       (mjoin (items <$> arrays)))
      else Raise ValueError
  end.

(** [a[indices]] with an array of non-negative indices. *)
Definition take {A} (a : ndarray A) (indices : list nat) : result (ndarray A) :=
  sel ← of_option IndexError (mapM (λ i, items a !! i) indices);
  Ok (Ndarray (item_shape a) (dtype_of a) sel).

(** Python's bound of the slice [[:k]] on a sequence of length [n]. *)
Definition slice_stop (n : nat) (k : Z) : nat :=
  Z.to_nat (if (k <? 0)%Z then Z.max 0 (k + Z.of_nat n) else Z.min k (Z.of_nat n)).

(** [a[:k]] *)
Definition slice_to {A} (a : ndarray A) (k : Z) : ndarray A :=
  Ndarray (item_shape a) (dtype_of a) (list.take (slice_stop (len a) k) (items a)).

(** [np.stack([a] * 3, axis=-1)]: every sample value is repeated three times
    along a new last axis. *)
Definition stack3 (a : ndarray pixels) : ndarray pixels :=
  Ndarray (item_shape a ++ [3]) (dtype_of a)
          ((λ px, px ≫= λ v, [v; v; v]) <$> items a).

(** [np.expand_dims(a, axis=-1)] *)
Definition expand_dims (a : ndarray pixels) : ndarray pixels :=
  Ndarray (item_shape a ++ [1]) (dtype_of a) (items a).

(** [np.sum(labels == i)] *)
Definition count_eq (labels : ndarray Z) (i : nat) : nat :=
  length (filter (λ l, l = Z.of_nat i) (items labels)).

End np.

(** ** The libraries as interfaces *)

(** The legacy global generator of [numpy.random].  [seed] rejects what
    NumPy rejects ([None] stands for its [ValueError]); [draw_permutation n]
    is [np.random.permutation(n)]; [draw_choice n k] is
    [np.random.choice(n, k, replace=False)] for [k ≤ n]. *)
Class NumpyRandom := {
  RandomState : Type;
  seed_state : Z → option RandomState;
  draw_permutation : nat → RandomState → list nat * RandomState;
  draw_choice : nat → nat → RandomState → list nat * RandomState;
  draw_permutation_perm n st : (draw_permutation n st).1 ≡ₚ seq 0 n;
  draw_choice_length n k st : k ≤ n → length (draw_choice n k st).1 = k;
  draw_choice_NoDup n k st : k ≤ n → NoDup (draw_choice n k st).1;
  draw_choice_range n k st : k ≤ n → Forall (λ i, i < n) (draw_choice n k st).1;
}.

(** Some label of [y] occurs only once: the least populated class has fewer
    than the two members a two-way stratified split needs. *)
Definition under_populated (y : list Z) : bool :=
  existsb (λ c, length (filter (λ l, l = c) y) <? 2) y.

(** scikit-learn's [StratifiedShuffleSplit]: the train and test index arrays
    drawn for [n] samples stratified by [y], for a test fraction and an
    integer [random_state].  It owns its generator, so the global one is
    untouched.  A successful draw partitions [range(n)]; an under-populated
    class is a [ValueError]. *)
Class Sklearn := {
  stratified_shuffle_split : nat → list Z → Q → Z → result (list nat * list nat);
  stratified_partition n y ts rs train test :
    stratified_shuffle_split n y ts rs = Ok (train, test) →
    train ++ test ≡ₚ seq 0 n;
  stratified_under_populated n y ts rs :
    under_populated y = true →
    stratified_shuffle_split n y ts rs = Raise ValueError;
}.

(** The file system, the image decoder and the dataset download. *)
Class World := {
  os_path_exists : string → bool;
  os_listdir : string → result (list string);
  readlines : string → result (list string);
  cv2_imread : string → option image;
  mnist_load_data : result ((ndarray pixels * ndarray Z) * (ndarray pixels * ndarray Z));
  (* with its default flag, [cv2.imread] decodes to three channels *)
  cv2_imread_color path im :
    cv2_imread path = Some im → ∃ h w, im_shape im = [h; w; 3];
  (* the MNIST arrays: 28×28 8-bit images, one label per image *)
  mnist_paired x_train y_train x_test y_test :
    mnist_load_data = Ok ((x_train, y_train), (x_test, y_test)) →
    np.len x_train = np.len y_train ∧ np.len x_test = np.len y_test;
  mnist_shape x_train y_train x_test y_test :
    mnist_load_data = Ok ((x_train, y_train), (x_test, y_test)) →
    item_shape x_train = [28; 28] ∧ item_shape x_test = [28; 28] ∧
    dtype_of x_train = UInt8 ∧ dtype_of x_test = UInt8 ∧
    item_shape y_train = [] ∧ item_shape y_test = [];
}.

(** ** Configuration ([parameters.py]) *)

Record SourceConfig := {
  name : string;
  type : string;
  path : string;
  weight : option Q;   (* [None]: the key is absent *)
}.

Record Params := {
  DATA_SOURCES : list SourceConfig;
  NB_CLASSES : nat;
  USE_GRAYSCALE : bool;
  SHUFFLE_SEED : Z;
  TRAINING_PERCENTAGE : Q;
  VALIDATION_SPLIT : Q;
}.

(** ** Calls into the libraries *)

Section numpy_random.
Context `{NumpyRandom}.

(** [np.random.seed(seed)]: replaces the global state. *)
Definition np_random_seed (seed : Z) : M RandomState () :=
  λ _, match seed_state seed with
       | Some st => Ok ((), st)
       | None => Raise ValueError
       end.

(** [np.random.permutation(n)] *)
Definition np_random_permutation (n : nat) : M RandomState (list nat) :=
  λ st, Ok (draw_permutation n st).

(** [np.random.choice(n, size, replace=False)]: a negative size, or one
    larger than the population, is a [ValueError]. *)
Definition np_random_choice (n : nat) (size : Z) : M RandomState (list nat) :=
  λ st, if (size <? 0)%Z || (Z.of_nat n <? size)%Z then Raise ValueError
        else Ok (draw_choice n (Z.to_nat size) st).
End numpy_random.

(** [train_test_split(X, y, test_size=…, random_state=…, shuffle=True,
    stratify=…)]: arrays of unequal length are a [ValueError]; one pair of
    index arrays is drawn and applied to both [X] and [y]. *)
Definition train_test_split `{Sklearn} {A} (X : ndarray A) (y : ndarray Z)
    (test_size : Q) (random_state : Z) (stratify : ndarray Z)
    : result (ndarray A * ndarray A * ndarray Z * ndarray Z) :=
  if negb ((np.len X =? np.len y) && (np.len X =? np.len stratify))
  then Raise ValueError
  else
    '(train, test) ← stratified_shuffle_split (np.len X) (items stratify)
                                              test_size random_state;
    X_train ← np.take X train;
    X_test ← np.take X test;
    y_train ← np.take y train;
    y_test ← np.take y test;
    Ok (X_train, X_test, y_train, y_test).

(** A [for] loop whose body may raise. *)
Fixpoint for_each {A S} (body : S → A → result S) (l : list A) (s : S) : result S :=
  match l with
  | [] => Ok s
  | x :: l' => s' ← body s x; for_each body l' s'
  end.

Fixpoint for_each_M {A S G} (body : S → A → M G S) (l : list A) (s : S) : M G S :=
  match l with
  | [] => mret s
  | x :: l' => s' ← body s x; for_each_M body l' s'
  end.

(** ** [utils/multi_source_loader.py] *)

Record Stats := MkStats {
  count : nat;
  class_distribution : gmap nat nat;
}.

(** The attributes of a [MultiSourceDataLoader] object. *)
Record MultiSourceDataLoader := Loader {
  all_images : list (ndarray pixels);
  all_labels : list (ndarray Z);
  source_stats : gmap string Stats;
}.

(** [__init__] *)
Definition init : MultiSourceDataLoader := Loader [] [] ∅.

Abbreviation batch := (ndarray pixels * ndarray Z)%type.

Definition image_extensions : list string := [".jpg"; ".jpeg"; ".png"; ".bmp"].

Section loader.
Context `{NumpyRandom} `{Sklearn} `{World} (params : Params).

Definition get_class_distribution (labels : ndarray Z) : gmap nat nat :=
  foldl (λ distribution i,
           let count := np.count_eq labels i in
           if 0 <? count then <[i := count]> distribution else distribution)
        ∅ (seq 0 (NB_CLASSES params)).

Definition load_builtin_dataset (dataset_name : string) : result batch :=
  if String.eqb (Py.lower dataset_name) "mnist" then
    '((x_train, y_train), (x_test, y_test)) ← mnist_load_data;
    images ← np.concatenate [x_train; x_test];
    labels ← np.concatenate [y_train; y_test];
    let images :=
      if negb (USE_GRAYSCALE params) then np.stack3 images
      else np.expand_dims images in
    Ok (images, labels)
  else Ok (np.empty, np.empty).

(** The inner loop of [load_folder_structure]: the files of one class
    directory. *)
Definition load_class_files (class_dir : string) (class_label : nat)
    (filenames : list string) (acc : list image * list Z) : list image * list Z :=
  foldl (λ '(images, labels) filename,
           if existsb (λ ext, Py.endswith (Py.lower filename) ext) image_extensions
           then
             let image_path := Py.path_join class_dir filename in
             match cv2_imread image_path with
             | None => (images, labels)
             | Some image => (images ++ [image], labels ++ [Z.of_nat class_label])
             end
           else (images, labels))
        acc filenames.

Definition load_folder_structure (dataset_path : string) : result batch :=
  if negb (os_path_exists dataset_path) then Ok (np.empty, np.empty)
  else
    '(images, labels) ←
      for_each (λ acc class_label,
                  let class_dir := Py.path_join dataset_path (Py.str class_label) in
                  if negb (os_path_exists class_dir) then Ok acc
                  else
                    filenames ← os_listdir class_dir;
                    Ok (load_class_files class_dir class_label filenames acc))
               (seq 0 (NB_CLASSES params)) ([], []);
    images ← np.array_of_images images;
    Ok (images, np.array_of_ints labels).

(** The body of the loop over the manifest lines. *)
Definition load_label_line (images_dir : string) (acc : list image * list Z)
    (line : string) : result (list image * list Z) :=
  let '(images, labels) := acc in
  match Py.tokens line with
  | filename :: token :: _ =>
      label ← Py.int token;
      let image_path := Py.path_join images_dir filename in
      if os_path_exists image_path then
        match cv2_imread image_path with
        | Some image => Ok (images ++ [image], labels ++ [label])
        | None => Ok (images, labels)
        end
      else Ok (images, labels)
  | _ => Ok (images, labels)
  end.

Definition load_label_file_dataset (dataset_path : string) : result batch :=
  let label_file_path := Py.path_join dataset_path "labels.txt" in
  let images_dir := Py.path_join dataset_path "images" in
  if negb (os_path_exists label_file_path) || negb (os_path_exists images_dir)
  then Ok (np.empty, np.empty)
  else
    lines ← readlines label_file_path;
    '(images, labels) ← for_each (load_label_line images_dir) lines ([], []);
    images ← np.array_of_images images;
    Ok (images, np.array_of_ints labels).

Definition load_mnist_fallback : result batch := load_builtin_dataset "mnist".

(** The dispatch on [source_type]; [None] is the [else] branch (unknown
    type, the source is skipped). *)
Definition read_source (source_config : SourceConfig) : option (result batch) :=
  let source_type := type source_config in
  if String.eqb source_type "builtin"
  then Some (load_builtin_dataset (name source_config))
  else if String.eqb source_type "folder_structure"
  then Some (load_folder_structure (path source_config))
  else if String.eqb source_type "label_file"
  then Some (load_label_file_dataset (path source_config))
  else None.

(** The sampling step: undersample if [weight < 1.0]. *)
Definition apply_weight (source_weight : Q) (b : batch) : M RandomState batch :=
  let '(images, labels) := b in
  if Py.Qltb source_weight 1 && (0 <? np.len images) then
    let sample_size := Py.int_of_product (np.len images) source_weight in
    indices ← np_random_choice (np.len images) sample_size;
    images ← lift (np.take images indices);
    labels ← lift (np.take labels indices);
    mret (images, labels)
  else mret (images, labels).

(** One iteration of the loop over [params.DATA_SOURCES]. *)
Definition load_source (self : MultiSourceDataLoader) (source_config : SourceConfig)
    : M RandomState MultiSourceDataLoader :=
  let source_name := name source_config in
  let source_weight := default 1%Q (weight source_config) in
  match read_source source_config with
  | None => mret self
  | Some reader =>
      '(images, labels) ← lift reader;
      if np.len images =? 0 then mret self
      else
        '(images, labels) ← apply_weight source_weight (images, labels);
        mret (Loader (all_images self ++ [images])
                     (all_labels self ++ [labels])
                     (<[source_name :=
                          MkStats (np.len images) (get_class_distribution labels)]>
                        (source_stats self)))
  end.

Definition load_all_sources (self : MultiSourceDataLoader)
    : M RandomState (MultiSourceDataLoader * batch) :=
  self ← for_each_M load_source (DATA_SOURCES params) self;
  if length (all_images self) =? 0 then
    b ← lift load_mnist_fallback;
    mret (self, b)
  else
    combined_images ← lift (np.concatenate (all_images self));
    combined_labels ← lift (np.concatenate (all_labels self));
    mret (self, (combined_images, combined_labels)).

Definition shuffle_dataset {A B} (images : ndarray A) (labels : ndarray B) (seed : Z)
    : M RandomState (ndarray A * ndarray B) :=
  np_random_seed seed;;
  indices ← np_random_permutation (np.len images);
  images' ← lift (np.take images indices);
  labels' ← lift (np.take labels indices);
  mret (images', labels').

(** [loader.print_detailed_stats()] only prints (it concatenates the
    accumulated batches once more, which [load_all_sources] has already
    done without raising); the seed is the default argument
    [params.SHUFFLE_SEED]. *)
Definition load_combined_dataset : M RandomState batch :=
  '(loader, (images, labels)) ← load_all_sources init;
  shuffle_dataset images labels (SHUFFLE_SEED params).

Definition get_data_splits : M RandomState (batch * batch * batch) :=
  '(images, labels) ← load_combined_dataset;
  let total_samples := np.len images in
  let training_samples := Py.int_of_product total_samples (TRAINING_PERCENTAGE params) in
  let images := np.slice_to images training_samples in
  let labels := np.slice_to labels training_samples in
  '(x_train_val, x_test, y_train_val, y_test) ←
    lift (train_test_split images labels (2 # 10)%Q (SHUFFLE_SEED params) labels);
  '(x_train, x_val, y_train, y_val) ←
    lift (train_test_split x_train_val y_train_val (VALIDATION_SPLIT params)
                           (SHUFFLE_SEED params) y_train_val);
  mret ((x_train, y_train), (x_val, y_val), (x_test, y_test)).

End loader.

(** ** Vocabulary of the statements *)

(** [paired_selection] relates a batch to the batch it was selected from:
    one index array picks both the images and the labels. *)
Definition paired_selection {A B} (images : ndarray A) (labels : ndarray B)
    (indices : list nat) (images' : ndarray A) (labels' : ndarray B) : Prop :=
  np.take images indices = Ok images' ∧ np.take labels indices = Ok labels'.

(** A batch is paired when it holds as many labels as images. *)
Definition same_len {A B} (a : ndarray A) (b : ndarray B) : Prop := np.len a = np.len b.

(** A source the loop skips: its type is unknown, or its reader returned an
    empty batch. *)
Definition skipped `{World} (params : Params) (source_config : SourceConfig) : Prop :=
  read_source params source_config = None
  ∨ ∃ images labels, read_source params source_config = Some (Ok (images, labels))
                     ∧ np.len images = 0.

(** The two accumulation lists are aligned: as many label batches as image
    batches, each pair of equal length. *)
Definition aligned (self : MultiSourceDataLoader) : Prop :=
  Forall2 same_len (all_images self) (all_labels self).



(** A manifest line that yields the pair [(image, label)]: at least two
    tokens, the second one an integer literal, and the file named by the
    first exists under [images_dir] and decodes. *)
Definition well_formed_line `{World} (images_dir line : string)
    (image : image) (label : Z) : Prop :=
  ∃ filename token rest,
    Py.tokens line = filename :: token :: rest
    ∧ Py.int token = Ok label
    ∧ os_path_exists (Py.path_join images_dir filename) = true
    ∧ cv2_imread (Py.path_join images_dir filename) = Some image.

(** A decoded colour image: height × width × 3. *)
Definition three_channels (im : image) : Prop := ∃ h w, im_shape im = [h; w; 3].

(** ** Vocabulary of the further properties *)

(** [any(filename.lower().endswith(ext) for ext in [...])] *)
Definition has_image_extension (filename : string) : bool :=
  existsb (λ ext, Py.endswith (Py.lower filename) ext) image_extensions.

(** The image [im] is what a file of the directory of class [c] decodes to:
    the directory exists and lists a file with an image extension that
    [cv2.imread] decodes to [im]. *)
Definition from_class_file `{World} (dataset_path : string) (c : nat) (im : image) : Prop :=
  let class_dir := Py.path_join dataset_path (Py.str c) in
  ∃ filenames filename,
    os_path_exists class_dir = true
    ∧ os_listdir class_dir = Ok filenames
    ∧ filename ∈ filenames
    ∧ has_image_extension filename = true
    ∧ cv2_imread (Py.path_join class_dir filename) = Some im.

(** The images the files of one listing decode to, in listing order. *)
Definition decoded_files `{World} (class_dir : string) (filenames : list string)
    : list image :=
  omap (λ filename,
          if has_image_extension filename
          then cv2_imread (Py.path_join class_dir filename) else None)
       filenames.

(** The images of one class directory; none when the directory is missing. *)
Definition class_images `{World} (dataset_path : string) (c : nat) : list image :=
  let class_dir := Py.path_join dataset_path (Py.str c) in
  if os_path_exists class_dir then
    match os_listdir class_dir with
    | Ok filenames => decoded_files class_dir filenames
    | Raise _ => []
    end
  else [].

(** The pair a manifest line yields, if any (the line is assumed not to make
    [int] raise: a line with fewer than two tokens, a non-integer second
    token, a missing file or an undecodable file yields none). *)
Definition line_pair `{World} (images_dir line : string) : option (image * Z) :=
  match Py.tokens line with
  | filename :: token :: _ =>
      match Py.int token with
      | Ok label =>
          if os_path_exists (Py.path_join images_dir filename)
          then (λ im, (im, label)) <$> cv2_imread (Py.path_join images_dir filename)
          else None
      | Raise _ => None
      end
  | _ => None
  end.

(** A source that is not subsampled: no weight, or a weight of at least
    one. *)
Definition unweighted (source_config : SourceConfig) : Prop :=
  ∀ w, weight source_config = Some w → (1 <= w)%Q.

(** What the reader of a source returns, unless the source is skipped
    (unknown type or empty batch) or its reader raises. *)
Definition reader_batch `{World} (params : Params) (source_config : SourceConfig)
    : option batch :=
  match read_source params source_config with
  | Some (Ok (images, labels)) =>
      if np.len images =? 0 then None else Some (images, labels)
  | _ => None
  end.

(** Every entry of the statistics gives the length and the class
    distribution of an accumulated batch. *)
Definition stats_describe_batches (params : Params) (self : MultiSourceDataLoader)
    : Prop :=
  ∀ nm s, source_stats self !! nm = Some s →
    ∃ k images labels,
      all_images self !! k = Some images
      ∧ all_labels self !! k = Some labels
      ∧ count s = np.len images
      ∧ class_distribution s = get_class_distribution params labels.


(** The (image, label) pairs of a batch. *)
Definition pairs_of {A B} (b : ndarray A * ndarray B) : list (A * B) :=
  zip (items b.1) (items b.2).

(** ** [convert.py] *)

(** [a[i:j]] for non-negative bounds. *)
Definition np_slice {A} (a : ndarray A) (i j : nat) : ndarray A :=
  Ndarray (item_shape a) (dtype_of a)
          (take (j `min` np.len a - i) (drop i (items a))).

(** [representative_dataset]: the batches the generator yields, in order.
    [load_digit_dataset] and [preprocess_images] come from [utils.dataset]
    and [utils.preprocess], which are not among the sources: they are
    parameters, each returning its value or raising. *)
Definition representative_dataset {A B L T}
    (load_digit_dataset : result ((ndarray A * L) * T))
    (preprocess_images : ndarray A → result (ndarray B))
    : result (list (list (ndarray B))) :=
  '((x_train, _), _) ← load_digit_dataset;
  x_train ← preprocess_images x_train;
  Ok ((λ i, [np_slice x_train i (i + 1)]) <$> seq 0 (100 `min` np.len x_train)).


(** ** A concrete instance of the interfaces

    A small generator, splitter and file tree on which the loader can be
    run.  They show that the contracts of the interfaces are satisfiable,
    and the examples below evaluate the functions on them. *)

Module Sample.

(** The generator: the state is a counter; a draw of [n] positions is
    [range(n)] rotated by the counter. *)
Definition rotation (n st : nat) : list nat :=
  drop (st `mod` n) (seq 0 n) ++ list.take (st `mod` n) (seq 0 n).

Definition seed_state (seed : Z) : option nat :=
  if (0 <=? seed)%Z && (seed <? 2 ^ 32)%Z then Some (Z.to_nat seed) else None.

Definition draw_permutation (n st : nat) : list nat * nat := (rotation n st, S st).

Definition draw_choice (n k st : nat) : list nat * nat :=
  (list.take k (rotation n st), S st).

(** The splitter: refuses an under-populated class and an empty input,
    otherwise the first [⌈test_size · n⌉] positions are the test set. *)
Definition stratified_shuffle_split (n : nat) (y : list Z) (test_size : Q)
    (random_state : Z) : result (list nat * list nat) :=
  if under_populated y || (n =? 0) then Raise ValueError
  else
    let n_test := n `min` Z.to_nat (Qceiling (inject_Z (Z.of_nat n) * test_size)) in
    Ok (seq n_test (n - n_test), seq 0 n_test).

(** The file tree: a folder-per-class source under [data/a], a manifest
    source under [data/b]; decodable files hold a one-pixel colour image. *)
Definition one_pixel (v : Z) : image := Image [1; 1; 3] [v; v; v].

Definition files : list (string * option Z) :=
  [ ("data/a/0/x.png", Some 10%Z); ("data/a/0/notes.txt", None);
    ("data/a/0/z.jpg", Some 11%Z); ("data/a/0/u.jpeg", Some 12%Z);
    ("data/a/0/v.png", Some 13%Z);
    ("data/a/1/y.PNG", Some 14%Z); ("data/a/1/w.bmp", Some 15%Z);
    ("data/a/1/s.png", Some 16%Z); ("data/a/1/t.png", Some 17%Z);
    ("data/b/labels.txt", None);
    ("data/b/images/p.png", Some 20%Z); ("data/b/images/q.png", Some 21%Z);
    ("data/b/images/broken.png", None);
    ("data/c/labels.txt", None); ("data/c/images/p.png", Some 30%Z) ].

Definition dirs : list (string * list string) :=
  [ ("data/a", ["0"; "1"]);
    ("data/a/0", ["x.png"; "notes.txt"; "z.jpg"; "u.jpeg"; "v.png"]);
    ("data/a/1", ["y.PNG"; "w.bmp"; "s.png"; "t.png"]);
    ("data/b", ["labels.txt"; "images"]);
    ("data/b/images", ["p.png"; "q.png"; "broken.png"]);
    ("data/c", ["labels.txt"; "images"]);
    ("data/c/images", ["p.png"]) ].

Definition manifests : list (string * list string) :=
  [ ("data/b/labels.txt",
     ["p.png 0"; "q.png 1"; ""; "lonely"; "missing.png 1"; "broken.png 0"]);
    ("data/c/labels.txt", ["p.png 0"; "p.png x"]) ].

Definition assoc {V} (k : string) (l : list (string * V)) : option V :=
  snd <$> find (λ kv, String.eqb kv.1 k) l.

Definition os_path_exists (p : string) : bool :=
  bool_decide (is_Some (assoc p files)) || bool_decide (is_Some (assoc p dirs)).

Definition os_listdir (p : string) : result (list string) :=
  of_option OSError (assoc p dirs).

Definition readlines (p : string) : result (list string) :=
  of_option OSError (assoc p manifests).

Definition cv2_imread (p : string) : option image :=
  one_pixel <$> mjoin (assoc p files).

Definition digit (v : Z) : pixels := replicate 784 v.

Definition mnist_load_data
    : result ((ndarray pixels * ndarray Z) * (ndarray pixels * ndarray Z)) :=
  Ok ((Ndarray [28; 28] UInt8 [digit 1; digit 2], Ndarray [] UInt8 [5; 0]%Z),
      (Ndarray [28; 28] UInt8 [digit 3], Ndarray [] UInt8 [4]%Z)).

(** Configurations over that file tree. *)
Definition src_a : SourceConfig :=
  {| name := "a"; type := "folder_structure"; path := "data/a"; weight := None |}.

Definition src_b (w : option Q) : SourceConfig :=
  {| name := "b"; type := "label_file"; path := "data/b"; weight := w |}.

Definition src_c : SourceConfig :=
  {| name := "c"; type := "label_file"; path := "data/c"; weight := None |}.

Definition src_mnist : SourceConfig :=
  {| name := "MNIST"; type := "builtin"; path := ""; weight := None |}.

Definition src_unknown : SourceConfig :=
  {| name := "sheet"; type := "csv"; path := "data/a"; weight := None |}.

Definition src_missing : SourceConfig :=
  {| name := "gone"; type := "folder_structure"; path := "data/none"; weight := None |}.

Definition config (sources : list SourceConfig) (grayscale : bool) : Params :=
  {| DATA_SOURCES := sources; NB_CLASSES := 3; USE_GRAYSCALE := grayscale;
     SHUFFLE_SEED := 42; TRAINING_PERCENTAGE := 1%Q; VALIDATION_SPLIT := (2 # 10)%Q |}.

(** The builtin source with a weight, a manifest source under [data/d], and
    a configuration with its own number of classes and percentage. *)
Definition src_mnist_weighted (w : Q) : SourceConfig :=
  {| name := "MNIST"; type := "builtin"; path := ""; weight := Some w |}.

Definition src_d : SourceConfig :=
  {| name := "d"; type := "label_file"; path := "data/d"; weight := None |}.

Definition config_with (sources : list SourceConfig) (nb_classes : nat) (percentage : Q)
    : Params :=
  {| DATA_SOURCES := sources; NB_CLASSES := nb_classes; USE_GRAYSCALE := true;
     SHUFFLE_SEED := 42; TRAINING_PERCENTAGE := percentage;
     VALIDATION_SPLIT := (2 # 10)%Q |}.

(** The manifest under [data/d] of the second file tree: eight samples of
    class 0 and two of class 1. *)
Definition manifest_d : list string :=
  replicate 8 "p.png 0" ++ replicate 2 "p.png 1".

(** The float [0.3333333333333333]. *)
Definition third : Q := (6004799503160661 # 18014398509481984)%Q.

(** A corpus of three images. *)
Definition three_images : ndarray pixels :=
  Ndarray [1; 1; 3] UInt8 [[1; 1; 1]; [2; 2; 2]; [3; 3; 3]]%Z.

Definition three_labels : ndarray Z := Ndarray [] Int64 [7; 8; 9]%Z.

End Sample.


(** ** The concrete instance satisfies the contracts *)

Lemma rotation_perm n st : Sample.rotation n st ≡ₚ seq 0 n.
Proof.
  unfold Sample.rotation. rewrite Permutation_app_comm. by rewrite take_drop.
Qed.

Definition sample_random : NumpyRandom.
Proof.
  refine {| RandomState := nat;
            seed_state := Sample.seed_state;
            draw_permutation := Sample.draw_permutation;
            draw_choice := Sample.draw_choice |}.
  - intros n st. apply rotation_perm.
  - intros n k st Hk. simpl. rewrite length_take.
    rewrite (Permutation_length (rotation_perm n st)), length_seq. lia.
  - intros n k st _. simpl. eapply sublist_NoDup; [|apply sublist_take].
    rewrite rotation_perm. apply NoDup_seq.
  - intros n k st _. simpl. apply Forall_forall. intros i Hi.
    eapply elem_of_sublist in Hi; [|apply sublist_take].
    rewrite rotation_perm in Hi. apply elem_of_seq in Hi. lia.
Defined.

Definition sample_sklearn : Sklearn.
Proof.
  refine {| stratified_shuffle_split := Sample.stratified_shuffle_split |}.
  - intros n y ts rs train test. unfold Sample.stratified_shuffle_split.
    destruct (_ || _); [done|]. intros [= <- <-].
    rewrite Permutation_app_comm, <- seq_app. f_equiv. lia.
  - intros n y ts rs Hy. unfold Sample.stratified_shuffle_split. by rewrite Hy.
Defined.

Definition sample_world : World.
Proof.
  refine {| os_path_exists := Sample.os_path_exists;
            os_listdir := Sample.os_listdir;
            readlines := Sample.readlines;
            cv2_imread := Sample.cv2_imread;
            mnist_load_data := Sample.mnist_load_data |}.
  - intros p im. unfold Sample.cv2_imread.
    destruct (mjoin _) as [v|]; simpl; [|done]. intros [= <-]. by exists 1, 1.
  - intros ???? [= <- <- <- <-]. done.
  - intros ???? [= <- <- <- <-]. done.
Defined.

(** ** The sample file tree without a network

    The same file system and decoder as [sample_world]; the download of
    the builtin corpus raises. *)

Definition sample_world_offline : World.
Proof.
  refine {| os_path_exists := Sample.os_path_exists;
            os_listdir := Sample.os_listdir;
            readlines := Sample.readlines;
            cv2_imread := Sample.cv2_imread;
            mnist_load_data := Raise OSError |}.
  - intros p im. unfold Sample.cv2_imread.
    destruct (mjoin _) as [v|]; simpl; [|done]. intros [= <-]. by exists 1, 1.
  - intros ???? [=].
  - intros ???? [=].
Defined.

(** ** A second file tree

    The sample file tree with one more manifest source, [data/d], whose
    ten lines name one image file. *)

Definition sample_world_d : World.
Proof.
  refine {| os_path_exists := λ p,
              (p =? "data/d/labels.txt")%string || (p =? "data/d/images")%string
              || (p =? "data/d/images/p.png")%string || Sample.os_path_exists p;
            os_listdir := Sample.os_listdir;
            readlines := λ p,
              if (p =? "data/d/labels.txt")%string then Ok Sample.manifest_d
              else Sample.readlines p;
            cv2_imread := λ p,
              if (p =? "data/d/images/p.png")%string then Some (Sample.one_pixel 40)
              else Sample.cv2_imread p;
            mnist_load_data := Sample.mnist_load_data |}.
  - intros p im. destruct (p =? "data/d/images/p.png")%string.
    + intros [= <-]. by exists 1, 1.
    + unfold Sample.cv2_imread.
      destruct (mjoin _) as [v|]; simpl; [|done]. intros [= <-]. by exists 1, 1.
  - intros ???? [= <- <- <- <-]. done.
  - intros ???? [= <- <- <- <-]. done.
Defined.


(** * Properties *)

(** ** Fancy indexing *)

Section take_facts.
Context {A : Type}.
Implicit Types (a b : ndarray A) (l : list A) (idx : list nat).

Lemma take_Ok_inv a idx b :
  np.take a idx = Ok b →
  mapM (λ i, items a !! i) idx = Some (items b)
  ∧ item_shape b = item_shape a ∧ dtype_of b = dtype_of a.
Proof.
  unfold np.take. destruct (mapM _ idx) as [sel|] eqn:E; simpl; [|done].
  intros [= <-]. done.
Qed.

Lemma take_len a idx b : np.take a idx = Ok b → np.len b = length idx.
Proof.
  intros (Hm & _)%take_Ok_inv. apply mapM_Some in Hm.
  unfold np.len. symmetry. eapply Forall2_length, Hm.
Qed.

Lemma mapM_lookup_in_range l idx :
  Forall (λ i, i < length l) idx → is_Some (mapM (λ i, l !! i) idx).
Proof.
  induction 1 as [|i idx Hi _ [sel IH]]; [by eexists|].
  destruct (lookup_lt_is_Some_2 l i Hi) as [x Hx].
  exists (x :: sel). apply mapM_Some. constructor; [done|].
  by apply mapM_Some.
Qed.

Lemma take_in_range a idx :
  Forall (λ i, i < np.len a) idx → ∃ b, np.take a idx = Ok b.
Proof.
  intros [sel Hsel]%mapM_lookup_in_range. unfold np.take.
  rewrite Hsel. simpl. by eexists.
Qed.

Lemma mapM_lookup_seq l : mapM (λ i, l !! i) (seq 0 (length l)) = Some l.
Proof.
  apply mapM_Some. induction l as [|x l IH] using rev_ind; [constructor|].
  rewrite length_app, Nat.add_1_r, seq_S. simpl.
  apply Forall2_app.
  - eapply Forall2_impl; [exact IH|]. intros i y Hy. simpl in Hy.
    by apply lookup_app_l_Some.
  - constructor; [|constructor]. by rewrite list_lookup_middle.
Qed.

(** Selecting along a permutation of all positions permutes the list. *)
Lemma mapM_lookup_perm l idx sel :
  idx ≡ₚ seq 0 (length l) → mapM (λ i, l !! i) idx = Some sel → sel ≡ₚ l.
Proof.
  intros Hp Hsel. apply mapM_Some in Hsel.
  destruct (Permutation_Forall2 Hp Hsel) as (l' & Hl' & HF).
  apply mapM_Some in HF. rewrite mapM_lookup_seq in HF.
  injection HF as ->. done.
Qed.
End take_facts.

(** The same indices applied to two sequences select the paired elements:
    position [i] of the image selection and position [i] of the label
    selection come from one position of the inputs. *)
Lemma mapM_lookup_zip {A B} (l : list A) (k : list B) idx sl sk :
  mapM (λ i, l !! i) idx = Some sl → mapM (λ i, k !! i) idx = Some sk →
  mapM (λ i, zip l k !! i) idx = Some (zip sl sk).
Proof.
  revert sl sk. induction idx as [|i idx IH]; intros sl sk Hl Hk.
  - by injection Hl as <-; injection Hk as <-.
  - apply mapM_Some in Hl, Hk.
    destruct sl as [|x sl]; [by inversion Hl|].
    destruct sk as [|y sk]; [by inversion Hk|].
    apply Forall2_cons in Hl as [Hx Hl], Hk as [Hy Hk].
    apply mapM_Some. simpl. constructor.
    + rewrite lookup_zip_with, Hx, Hy. done.
    + apply mapM_Some, IH; by apply mapM_Some.
Qed.

Lemma paired_selection_len {A B} (images : ndarray A) (labels : ndarray B) idx i' l' :
  paired_selection images labels idx i' l' → np.len i' = np.len l'.
Proof. intros [Hi Hl]. by rewrite (take_len _ _ _ Hi), (take_len _ _ _ Hl). Qed.

Lemma paired_selection_zip {A B} (images : ndarray A) (labels : ndarray B) idx i' l' :
  paired_selection images labels idx i' l' →
  mapM (λ i, zip (items images) (items labels) !! i) idx = Some (zip (items i') (items l')).
Proof.
  intros [(Hi & _)%take_Ok_inv (Hl & _)%take_Ok_inv]. by apply mapM_lookup_zip.
Qed.

(** ** The Shuffler *)

Section shuffle.
Context `{NumpyRandom}.

Lemma shuffle_dataset_run {A B} (images : ndarray A) (labels : ndarray B) seed st0 s :
  seed_state seed = Some s →
  shuffle_dataset images labels seed st0 =
    (let '(indices, st') := draw_permutation (np.len images) s in
     images' ← np.take images indices;
     labels' ← np.take labels indices;
     Ok ((images', labels'), st')).
Proof.
  intros Hs. unfold shuffle_dataset, np_random_seed, np_random_permutation, mbind, M_bind.
  rewrite Hs. destruct (draw_permutation _ s) as [indices st'].
  unfold lift. destruct (np.take images indices); simpl; [|done].
  destruct (np.take labels indices); done.
Qed.

Lemma shuffle_dataset_bad_seed {A B} (images : ndarray A) (labels : ndarray B) seed st0 :
  seed_state seed = None → shuffle_dataset images labels seed st0 = Raise ValueError.
Proof.
  intros Hs. unfold shuffle_dataset, np_random_seed, mbind, M_bind. by rewrite Hs.
Qed.

Lemma draw_permutation_range n st : Forall (λ i, i < n) (draw_permutation n st).1.
Proof.
  apply Forall_forall. intros i Hi.
  rewrite (draw_permutation_perm n st) in Hi.
  apply elem_of_seq in Hi. lia.
Qed.

(** C2.  For a corpus (as many labels as images) and a seed the generator
    accepts, [shuffle_dataset] returns; one permutation of the positions
    is applied to both sequences; the (image, label) pairs of the result
    are a permutation of the pairs of the input; and the result does not
    depend on the state the generator was in before the call, so two calls
    with the same input and seed return the same corpus. *)
Theorem shuffle_dataset_bijection {A B} (images : ndarray A) (labels : ndarray B)
    (seed : Z) (st0 : RandomState) :
  np.len images = np.len labels →
  is_Some (seed_state seed) →
  ∃ indices images' labels' st',
    shuffle_dataset images labels seed st0 = Ok ((images', labels'), st')
    ∧ indices ≡ₚ seq 0 (np.len images)
    ∧ paired_selection images labels indices images' labels'
    ∧ zip (items images') (items labels') ≡ₚ zip (items images) (items labels)
    ∧ ∀ st1, shuffle_dataset images labels seed st1
             = shuffle_dataset images labels seed st0.
Proof.
  intros Hlen [s Hs].
  pose proof (draw_permutation_perm (np.len images) s) as Hperm.
  pose proof (draw_permutation_range (np.len images) s) as Hrange.
  destruct (take_in_range images _ Hrange) as [images' Hi].
  destruct (take_in_range labels (draw_permutation (np.len images) s).1)
    as [labels' Hl]; [by rewrite <- Hlen|].
  exists (draw_permutation (np.len images) s).1, images', labels',
         (draw_permutation (np.len images) s).2.
  split_and!.
  - rewrite (shuffle_dataset_run _ _ _ _ s Hs).
    destruct (draw_permutation _ s) as [indices st']. simpl in *.
    rewrite Hi. simpl. rewrite Hl. done.
  - done.
  - done.
  - eapply mapM_lookup_perm; [|apply paired_selection_zip; by split].
    rewrite length_zip_with. unfold np.len in *. rewrite <- Hlen, Nat.min_id. done.
  - intros st1. by rewrite !(shuffle_dataset_run _ _ _ _ s Hs).
Qed.

(** A call that returns has replaced the generator state by the one
    reached from the freshly seeded state, whatever the state was before;
    hence what runs after the call does not depend on the prior state. *)
Lemma shuffle_dataset_post_state {A B} (images : ndarray A) (labels : ndarray B)
    (seed : Z) (st0 : RandomState) r st' :
  shuffle_dataset images labels seed st0 = Ok (r, st') →
  ∃ s, seed_state seed = Some s
    ∧ st' = (draw_permutation (np.len images) s).2
    ∧ ∀ st1 (C : Type) (later : M RandomState C),
        (shuffle_dataset images labels seed ≫= λ _, later) st1
        = (shuffle_dataset images labels seed ≫= λ _, later) st0.
Proof.
  intros Hrun. destruct (seed_state seed) as [s|] eqn:Hs.
  - exists s. split; [done|]. split.
    + rewrite (shuffle_dataset_run _ _ _ _ s Hs) in Hrun.
      destruct (draw_permutation _ s) as [indices st'']. simpl.
      destruct (np.take images indices); simpl in Hrun; [|done].
      destruct (np.take labels indices); simpl in Hrun; [|done].
      by injection Hrun as _ ->.
    + intros st1 C later. unfold mbind, M_bind.
      by rewrite !(shuffle_dataset_run _ _ _ _ s Hs).
  - by rewrite shuffle_dataset_bad_seed in Hrun.
Qed.
End shuffle.

(** ** Running the monads *)

Lemma bind_Ok_inv {A B} (m : result A) (f : A → result B) b :
  m ≫= f = Ok b → ∃ a, m = Ok a ∧ f a = Ok b.
Proof. destruct m as [a|e]; [by exists a|done]. Qed.

Lemma M_bind_Ok_inv {S A B} (m : M S A) (f : A → M S B) st b st' :
  (m ≫= f) st = Ok (b, st') → ∃ a st1, m st = Ok (a, st1) ∧ f a st1 = Ok (b, st').
Proof.
  unfold mbind, M_bind. destruct (m st) as [[a st1]|e]; [|done].
  by exists a, st1.
Qed.

Lemma M_bind_Raise {S A B} (m : M S A) (f : A → M S B) st e :
  m st = Raise e → (m ≫= f) st = Raise e.
Proof. unfold mbind, M_bind. by intros ->. Qed.

Lemma M_bind_Ok {S A B} (m : M S A) (f : A → M S B) st a st1 :
  m st = Ok (a, st1) → (m ≫= f) st = f a st1.
Proof. unfold mbind, M_bind. by intros ->. Qed.

Lemma M_bind_lift_Ok {S A B} (a : A) (f : A → M S B) st :
  (lift (Ok a) ≫= f) st = f a st.
Proof. done. Qed.

Lemma lift_Ok_inv {S A} (r : result A) (st st' : S) a :
  lift r st = Ok (a, st') → r = Ok a ∧ st' = st.
Proof. destruct r; simpl; [by intros [= -> ->]|done]. Qed.

Lemma M_ret_inv {S A} (a b : A) (st st' : S) :
  mret (M := M S) a st = Ok (b, st') → b = a ∧ st' = st.
Proof. by intros [= -> ->]. Qed.

Ltac inv_run :=
  repeat match goal with
    | H : (_ ≫= _) _ = Ok (_, _) |- _ =>
        let a := fresh "a" in let st := fresh "st" in let H1 := fresh "Hrun" in
        apply M_bind_Ok_inv in H as (a & st & H1 & H)
    | H : _ ≫= _ = Ok _ |- _ =>
        let a := fresh "a" in let H1 := fresh "Hres" in
        apply bind_Ok_inv in H as (a & H1 & H)
    | H : lift _ _ = Ok (_, _) |- _ => apply lift_Ok_inv in H as [H ->]
    | H : mret _ _ = Ok (_, _) |- _ => apply M_ret_inv in H as [? ?]; simplify_eq
    end.

Lemma for_each_invariant {A S} (P : S → Prop) (body : S → A → result S) l s s' :
  (∀ s x s', P s → body s x = Ok s' → P s') →
  P s → for_each body l s = Ok s' → P s'.
Proof.
  intros Hbody. revert s. induction l as [|x l IH]; simpl; intros s Hs Hrun.
  - by injection Hrun as <-.
  - apply bind_Ok_inv in Hrun as (s1 & H1 & Hrun). eauto.
Qed.

Lemma for_each_M_invariant {A S G} (P : S → Prop) (body : S → A → M G S) l s st s' st' :
  (∀ s x st s' st', P s → body s x st = Ok (s', st') → P s') →
  P s → for_each_M body l s st = Ok (s', st') → P s'.
Proof.
  intros Hbody. revert s st. induction l as [|x l IH]; simpl; intros s st Hs Hrun.
  - by injection Hrun as <- _.
  - apply M_bind_Ok_inv in Hrun as (s1 & st1 & H1 & Hrun). eauto.
Qed.

(** ** Arrays: lengths *)

Lemma array_of_images_len l a : np.array_of_images l = Ok a → np.len a = length l.
Proof.
  destruct l as [|im l]; simpl.
  - by intros [= <-].
  - case_match; [|done]. intros [= <-]. unfold np.len. simpl. by rewrite length_fmap.
Qed.

Lemma array_of_ints_len l : np.len (np.array_of_ints l) = length l.
Proof. by destruct l. Qed.

Lemma concatenate_items {A} (arrays : list (ndarray A)) a :
  np.concatenate arrays = Ok a → items a = mjoin (items <$> arrays).
Proof.
  destruct arrays as [|b rest]; simpl; [done|]. case_match; [|done]. by intros [= <-].
Qed.

Lemma zip_join {A B} (xs : list (list A)) (ys : list (list B)) :
  Forall2 (λ x y, length x = length y) xs ys →
  zip (mjoin xs) (mjoin ys) = mjoin (zip_with zip xs ys).
Proof.
  induction 1 as [|x y xs ys Hxy _ IH]; [done|]. simpl.
  rewrite zip_with_app by done. by rewrite IH.
Qed.

Lemma join_length_eq {A B} (xs : list (list A)) (ys : list (list B)) :
  Forall2 (λ x y, length x = length y) xs ys →
  length (mjoin xs) = length (mjoin ys).
Proof.
  induction 1 as [|x y xs ys Hxy _ IH]; [done|]. simpl.
  rewrite !length_app. lia.
Qed.

Lemma concatenate_same_len {A B} (xs : list (ndarray A)) (ys : list (ndarray B)) a b :
  Forall2 same_len xs ys →
  np.concatenate xs = Ok a → np.concatenate ys = Ok b →
  same_len a b
  ∧ zip (items a) (items b)
    = mjoin (zip_with (λ x y, zip (items x) (items y)) xs ys).
Proof.
  intros HF Ha%concatenate_items Hb%concatenate_items.
  assert (Forall2 (λ x y, length x = length y) (items <$> xs) (items <$> ys)) as HF'.
  { apply Forall2_fmap. eapply Forall2_impl; [exact HF|]. done. }
  unfold same_len, np.len. rewrite Ha, Hb. split.
  - by apply join_length_eq.
  - rewrite zip_join by done. f_equal.
    clear -HF. induction HF; simpl; [done|]. by f_equal.
Qed.

(** Arrays that agree on the item shape concatenate. *)
Lemma concatenate_same_shape {A} (arrays : list (ndarray A)) shape :
  arrays ≠ [] → Forall (λ a, item_shape a = shape) arrays →
  ∃ c, np.concatenate arrays = Ok c ∧ item_shape c = shape
       ∧ items c = mjoin (items <$> arrays).
Proof.
  destruct arrays as [|a rest]; [done|]. intros _ [Ha Hrest]%Forall_cons.
  unfold np.concatenate.
  assert (forallb (λ b, bool_decide (item_shape b = item_shape a)) rest = true) as ->.
  { apply forallb_forall. intros b Hb%list_elem_of_In.
    apply bool_decide_eq_true. rewrite Ha. by eapply Forall_forall in Hrest. }
  eexists. split; [done|]. by split.
Qed.


(** ** The Source Readers return paired batches *)

Section readers.
Context `{World} (params : Params).

Lemma load_class_files_lengths class_dir class_label filenames acc :
  length acc.1 = length acc.2 →
  let r := load_class_files class_dir class_label filenames acc in
  length r.1 = length r.2.
Proof.
  revert acc. induction filenames as [|f fs IH]; intros [images labels] Hacc; [done|].
  simpl. apply IH. case_match; [|done]. case_match; [|done].
  simpl in *. rewrite !length_app. simpl. lia.
Qed.

Lemma load_label_line_lengths images_dir acc line acc' :
  length acc.1 = length acc.2 →
  load_label_line images_dir acc line = Ok acc' →
  length acc'.1 = length acc'.2.
Proof.
  destruct acc as [images labels]. unfold load_label_line. simpl. intros Hacc.
  destruct (Py.tokens line) as [|filename [|token rest]]; try by intros [= <-].
  destruct (Py.int token) as [label|]; simpl; [|done].
  repeat case_match; intros [= <-]; simpl; rewrite ?length_app; simpl; lia.
Qed.

Lemma stacked_paired (lists : list image * list Z) images :
  length lists.1 = length lists.2 →
  np.array_of_images lists.1 = Ok images →
  same_len images (np.array_of_ints lists.2).
Proof.
  intros Hl Ha. unfold same_len.
  by rewrite (array_of_images_len _ _ Ha), array_of_ints_len.
Qed.

Lemma load_folder_structure_paired dataset_path images labels :
  load_folder_structure params dataset_path = Ok (images, labels) →
  same_len images labels.
Proof.
  unfold load_folder_structure. case_match; [by intros [= <- <-]|].
  intros Hrun. apply bind_Ok_inv in Hrun as ([imgs lbls] & Hloop & Hrun).
  apply bind_Ok_inv in Hrun as (a & Harr & [= <- <-]).
  apply (stacked_paired (imgs, lbls)); [|done].
  refine (for_each_invariant (λ acc, length acc.1 = length acc.2) _ _ _ _ _ _ Hloop);
    [|done].
  intros acc class_label acc' Hacc. case_match; [by intros [= <-]|].
  intros (filenames & _ & [= <-])%bind_Ok_inv.
  by apply load_class_files_lengths.
Qed.

Lemma load_label_file_dataset_paired dataset_path images labels :
  load_label_file_dataset dataset_path = Ok (images, labels) →
  same_len images labels.
Proof.
  unfold load_label_file_dataset. case_match; [by intros [= <- <-]|].
  intros Hrun. apply bind_Ok_inv in Hrun as (lines & _ & Hrun).
  apply bind_Ok_inv in Hrun as ([imgs lbls] & Hloop & Hrun).
  apply bind_Ok_inv in Hrun as (a & Harr & [= <- <-]).
  apply (stacked_paired (imgs, lbls)); [|done].
  refine (for_each_invariant (λ acc, length acc.1 = length acc.2) _ _ _ _ _ _ Hloop);
    [|done].
  intros acc line acc'. apply load_label_line_lengths.
Qed.

Lemma concatenate_pair_len {A} (a b c : ndarray A) :
  np.concatenate [a; b] = Ok c → np.len c = np.len a + np.len b.
Proof.
  intros Hc%concatenate_items. unfold np.len. rewrite Hc. simpl.
  rewrite length_app, app_nil_r. done.
Qed.

Lemma load_builtin_dataset_paired dataset_name images labels :
  load_builtin_dataset params dataset_name = Ok (images, labels) →
  same_len images labels.
Proof.
  unfold load_builtin_dataset. case_match; [|by intros [= <- <-]].
  intros Hrun.
  apply bind_Ok_inv in Hrun as ([[x_train y_train] [x_test y_test]] & Hdata & Hrun).
  apply bind_Ok_inv in Hrun as (imgs & Himgs & Hrun).
  apply bind_Ok_inv in Hrun as (lbls & Hlbls & [= <- <-]).
  destruct (mnist_paired _ _ _ _ Hdata) as [Htrain Htest].
  apply concatenate_pair_len in Himgs, Hlbls.
  unfold same_len. rewrite Hlbls, <- Htrain, <- Htest, <- Himgs.
  destruct (negb _); unfold np.len; simpl; by rewrite ?length_fmap.
Qed.

Lemma read_source_paired source_config images labels :
  read_source params source_config = Some (Ok (images, labels)) →
  same_len images labels.
Proof.
  unfold read_source. repeat case_match; intros [= Hr]; [| |].
  - by eapply load_builtin_dataset_paired.
  - by eapply load_folder_structure_paired.
  - by eapply load_label_file_dataset_paired.
Qed.
(** Label arrays are one-dimensional. *)
Lemma read_source_label_shape source_config images labels :
  read_source params source_config = Some (Ok (images, labels)) →
  item_shape labels = [].
Proof.
  unfold read_source. repeat case_match; intros [= Hr]; [| |].
  - unfold load_builtin_dataset in Hr. case_match; [|by injection Hr as <- <-].
    apply bind_Ok_inv in Hr as ([[x_train y_train] [x_test y_test]] & Hdata & Hr).
    apply bind_Ok_inv in Hr as (imgs & _ & Hr).
    apply bind_Ok_inv in Hr as (lbls & Hlbls & [= <- <-]).
    destruct (mnist_shape _ _ _ _ Hdata) as (_ & _ & _ & _ & Hy & _).
    simpl in Hlbls. case_match; [|done]. by injection Hlbls as <-.
  - unfold load_folder_structure in Hr. case_match; [by injection Hr as <- <-|].
    apply bind_Ok_inv in Hr as ([imgs lbls] & _ & Hr).
    apply bind_Ok_inv in Hr as (a & _ & [= <- <-]). by destruct lbls.
  - unfold load_label_file_dataset in Hr. case_match; [by injection Hr as <- <-|].
    apply bind_Ok_inv in Hr as (lines & _ & Hr).
    apply bind_Ok_inv in Hr as ([imgs lbls] & _ & Hr).
    apply bind_Ok_inv in Hr as (a & _ & [= <- <-]). by destruct lbls.
Qed.
End readers.

(** ** Weights and sample sizes *)

Lemma Qltb_lt (x y : Q) : Py.Qltb x y = true ↔ (x < y)%Q.
Proof.
  unfold Py.Qltb. rewrite negb_true_iff, <- not_true_iff_false, Qle_bool_iff.
  split; [apply Qnot_le_lt | apply Qlt_not_le].
Qed.

(** ** Rounding to binary64 against integers *)

Lemma ilog2_lower (a b : Z) :
  (0 < a)%Z → (0 < b)%Z → (0 < Binary64.ilog2 a b)%Z →
  (b * 2 ^ Binary64.ilog2 a b ≤ a)%Z.
Proof.
  intros Ha Hb. unfold Binary64.ilog2.
  set (l := (Z.log2 a - Z.log2 b)%Z).
  destruct (Z.leb_spec (b * 2 ^ Z.max 0 l) (a * 2 ^ Z.max 0 (- l))) as [Hle|_]; intros Hl.
  - rewrite Z.max_r in Hle by lia. rewrite Z.max_l in Hle by lia.
    rewrite Z.pow_0_r in Hle. lia.
  - destruct (Z.log2_spec a Ha) as [Ha1 _]. destruct (Z.log2_spec b Hb) as [_ Hb2].
    pose proof (Z.log2_nonneg b) as Hlb.
    assert (2 ^ Z.log2 a = 2 ^ Z.succ (Z.log2 b) * 2 ^ (l - 1))%Z as Hpow.
    { rewrite <- Z.pow_add_r by lia. f_equal. lia. }
    assert (0 < 2 ^ (l - 1))%Z by (apply Z.pow_pos_nonneg; lia).
    nia.
Qed.

Lemma round_half_even_lower (c d : Z) :
  (0 < d)%Z → (c / d ≤ Binary64.round_half_even c d)%Z.
Proof.
  intros Hd. unfold Binary64.round_half_even.
  destruct (2 * (c mod d) ?= d)%Z; [destruct (Z.even _)|..]; lia.
Qed.

Lemma round_half_even_upper (c d K : Z) :
  (0 < d)%Z → (c ≤ K * d)%Z → (Binary64.round_half_even c d ≤ K)%Z.
Proof.
  intros Hd Hc. unfold Binary64.round_half_even.
  pose proof (Z.div_mod c d ltac:(lia)) as Hdiv.
  pose proof (Z.mod_pos_bound c d Hd) as Hmod.
  assert (c / d ≤ K)%Z as Hf by nia.
  destruct (Z.eq_dec (c / d)%Z K) as [Heq|Hne].
  - assert (c mod d = 0)%Z as -> by nia.
    destruct (Z.compare_spec (2 * 0) d); lia.
  - destruct (2 * (c mod d) ?= d)%Z; [destruct (Z.even _)|..]; lia.
Qed.

Lemma scale_lower (m e k : Z) :
  (k * 2 ^ Z.max 0 (- e) ≤ m * 2 ^ Z.max 0 e)%Z →
  (inject_Z k <= Binary64.scale m e)%Q.
Proof.
  intros Hk. unfold Binary64.scale, Qle. cbn [Qnum Qden inject_Z].
  rewrite Z2Pos.id by (apply Z.pow_pos_nonneg; lia). lia.
Qed.

Lemma scale_upper (m e k : Z) :
  (m * 2 ^ Z.max 0 e ≤ k * 2 ^ Z.max 0 (- e))%Z →
  (Binary64.scale m e <= inject_Z k)%Q.
Proof.
  intros Hk. unfold Binary64.scale, Qle. cbn [Qnum Qden inject_Z].
  rewrite Z2Pos.id by (apply Z.pow_pos_nonneg; lia). lia.
Qed.

(** Rounding does not cross an integer that binary64 holds exactly: a
    value at or above such an integer rounds to one at or above it. *)
Lemma round_pos_lower (a b : positive) (k : Z) :
  (0 ≤ k ≤ 2 ^ 53)%Z → (k * Z.pos b ≤ Z.pos a)%Z →
  (inject_Z k <= Binary64.round_pos a b)%Q.
Proof.
  intros Hk Hab. unfold Binary64.round_pos, Binary64.significand.
  set (e := Binary64.ulp_exponent (Z.pos a) (Z.pos b)).
  apply scale_lower.
  destruct (Z.le_gt_cases e 0) as [He|He].
  - rewrite (Z.max_r 0 (- e)), (Z.max_l 0 e) by lia. rewrite Z.pow_0_r, !Z.mul_1_r.
    etransitivity; [|apply round_half_even_lower; lia].
    assert (0 < 2 ^ (- e))%Z by (apply Z.pow_pos_nonneg; lia).
    apply Z.div_le_lower_bound; [lia|]. nia.
  - rewrite (Z.max_l 0 (- e)), (Z.max_r 0 e) by lia. rewrite Z.pow_0_r, !Z.mul_1_r.
    assert (e = Binary64.ilog2 (Z.pos a) (Z.pos b) - 52)%Z as He'.
    { subst e. unfold Binary64.ulp_exponent, Binary64.prec, Binary64.emin in *. lia. }
    pose proof (ilog2_lower (Z.pos a) (Z.pos b) ltac:(lia) ltac:(lia) ltac:(lia)) as Hlog.
    replace (Binary64.ilog2 (Z.pos a) (Z.pos b)) with (52 + e)%Z in Hlog by lia.
    rewrite Z.pow_add_r in Hlog by lia.
    assert (0 < 2 ^ e)%Z as Hpe by (apply Z.pow_pos_nonneg; lia).
    assert (2 ^ 52 ≤ Binary64.round_half_even (Z.pos a) (Z.pos b * 2 ^ e))%Z as Hm.
    { etransitivity; [|apply round_half_even_lower; lia].
      apply Z.div_le_lower_bound; [lia|]. nia. }
    assert (2 ≤ 2 ^ e)%Z as H2e.
    { change 2%Z with (2 ^ 1)%Z at 1. apply Z.pow_le_mono_r; lia. }
    change (2 ^ 53)%Z with (2 ^ 52 * 2)%Z in Hk.
    assert (0 < 2 ^ 52)%Z by done. nia.
Qed.

Lemma round_pos_upper (a b : positive) (k : Z) :
  (0 ≤ k ≤ 2 ^ 53)%Z → (Z.pos a ≤ k * Z.pos b)%Z →
  (Binary64.round_pos a b <= inject_Z k)%Q.
Proof.
  intros Hk Hab. unfold Binary64.round_pos, Binary64.significand.
  set (e := Binary64.ulp_exponent (Z.pos a) (Z.pos b)).
  apply scale_upper.
  destruct (Z.le_gt_cases e 0) as [He|He].
  - rewrite (Z.max_r 0 (- e)), (Z.max_l 0 e) by lia. rewrite Z.pow_0_r, !Z.mul_1_r.
    assert (0 < 2 ^ (- e))%Z by (apply Z.pow_pos_nonneg; lia).
    apply round_half_even_upper; [lia|]. nia.
  - rewrite (Z.max_l 0 (- e)), (Z.max_r 0 e) by lia. rewrite Z.pow_0_r, !Z.mul_1_r.
    assert (e = Binary64.ilog2 (Z.pos a) (Z.pos b) - 52)%Z as He'.
    { subst e. unfold Binary64.ulp_exponent, Binary64.prec, Binary64.emin in *. lia. }
    pose proof (ilog2_lower (Z.pos a) (Z.pos b) ltac:(lia) ltac:(lia) ltac:(lia)) as Hlog.
    replace (Binary64.ilog2 (Z.pos a) (Z.pos b)) with (52 + e)%Z in Hlog by lia.
    rewrite Z.pow_add_r in Hlog by lia.
    assert (0 < 2 ^ e)%Z as Hpe by (apply Z.pow_pos_nonneg; lia).
    assert (2 ≤ 2 ^ e)%Z as H2e.
    { change 2%Z with (2 ^ 1)%Z at 1. apply Z.pow_le_mono_r; lia. }
    change (2 ^ 53)%Z with (2 ^ 52 * 2)%Z in Hk.
    assert (0 < 2 ^ 52)%Z as H52 by done.
    assert (Binary64.round_half_even (Z.pos a) (Z.pos b * 2 ^ e) ≤ 2 ^ 52)%Z as Hm.
    { apply round_half_even_upper; [lia|]. nia. }
    assert (k = 2 ^ 52 * 2 ∧ 2 ^ e = 2)%Z as [-> He2] by nia.
    rewrite He2 in *. lia.
Qed.

Lemma round_pos_nonneg (a b : positive) : (0 <= Binary64.round_pos a b)%Q.
Proof. apply (round_pos_lower a b 0); lia. Qed.

Lemma round_lower (q : Q) (k : Z) :
  (- 2 ^ 53 ≤ k ≤ 2 ^ 53)%Z → (inject_Z k <= q)%Q → (inject_Z k <= Binary64.round q)%Q.
Proof.
  intros Hk Hq. destruct q as [[|a|a] b]; unfold Binary64.round; cbn [Qnum Qden].
  - unfold Qle in *. simpl in *. lia.
  - destruct (Z.le_gt_cases 0 k) as [Hk0|Hk0].
    + apply round_pos_lower; [lia|]. unfold Qle in Hq. simpl in Hq. lia.
    + apply Qle_trans with 0%Q; [|apply round_pos_nonneg]. unfold Qle. simpl. lia.
  - assert (k < 0)%Z as Hk0 by (unfold Qle in Hq; simpl in Hq; lia).
    assert (Binary64.round_pos a b <= inject_Z (- k))%Q as Hle.
    { apply round_pos_upper; [lia|]. unfold Qle in Hq. simpl in Hq. lia. }
    apply Qopp_le_compat in Hle. unfold Qle in *. simpl in *. lia.
Qed.

Lemma round_upper (q : Q) (k : Z) :
  (- 2 ^ 53 ≤ k ≤ 2 ^ 53)%Z → (q <= inject_Z k)%Q → (Binary64.round q <= inject_Z k)%Q.
Proof.
  intros Hk Hq. destruct q as [[|a|a] b]; unfold Binary64.round; cbn [Qnum Qden].
  - unfold Qle in *. simpl in *. lia.
  - apply round_pos_upper; unfold Qle in Hq; simpl in Hq; lia.
  - destruct (Z.le_gt_cases k 0) as [Hk0|Hk0].
    + assert (inject_Z (- k) <= Binary64.round_pos a b)%Q as Hle.
      { apply round_pos_lower; [lia|]. unfold Qle in Hq. simpl in Hq. lia. }
      apply Qopp_le_compat in Hle. unfold Qle in *. simpl in *. lia.
    + pose proof (round_pos_nonneg a b) as Hle. apply Qopp_le_compat in Hle.
      unfold Qle in *. simpl in *. lia.
Qed.

(** [int] truncates toward zero, so it does not cross an integer either. *)
Lemma int_of_float_lower (x : Q) (k : Z) :
  (inject_Z k <= x)%Q → (k ≤ Py.int_of_float x)%Z.
Proof.
  destruct x as [p q]. unfold Qle, Py.int_of_float. cbn [Qnum Qden inject_Z].
  intros Hk. destruct (Z.le_gt_cases 0 p) as [Hp|Hp].
  - rewrite Z.quot_div_nonneg by lia. apply Z.div_le_lower_bound; lia.
  - rewrite <- (Z.opp_involutive p), Z.quot_opp_l, Z.quot_div_nonneg by lia.
    assert ((- p) / Z.pos q ≤ - k)%Z; [|lia].
    apply Z.div_le_upper_bound; lia.
Qed.

Lemma int_of_float_upper (x : Q) (k : Z) :
  (x <= inject_Z k)%Q → (Py.int_of_float x ≤ k)%Z.
Proof.
  destruct x as [p q]. unfold Qle, Py.int_of_float. cbn [Qnum Qden inject_Z].
  intros Hk. destruct (Z.le_gt_cases 0 p) as [Hp|Hp].
  - rewrite Z.quot_div_nonneg by lia. apply Z.div_le_upper_bound; lia.
  - rewrite <- (Z.opp_involutive p), Z.quot_opp_l, Z.quot_div_nonneg by lia.
    assert (- k ≤ (- p) / Z.pos q)%Z; [|lia].
    apply Z.div_le_lower_bound; lia.
Qed.

(** The sample size [int(n * w)] does not cross an integer that the
    exact product does not cross. *)
Lemma int_of_product_lower (n : nat) (w : Q) (k : Z) :
  (- 2 ^ 53 ≤ k ≤ 2 ^ 53)%Z ∨ (2 ^ 53 < Z.of_nat n)%Z →
  (inject_Z k <= inject_Z (Z.of_nat n) * w)%Q → (k ≤ Py.int_of_product n w)%Z.
Proof.
  intros Hk Hq. apply int_of_float_lower. unfold Py.mul_int_float.
  destruct (Z.leb_spec (Z.of_nat n) (2 ^ 53)); [|done].
  apply round_lower; [|done]. destruct Hk; lia.
Qed.

Lemma int_of_product_upper (n : nat) (w : Q) (k : Z) :
  (- 2 ^ 53 ≤ k ≤ 2 ^ 53)%Z ∨ (2 ^ 53 < Z.of_nat n)%Z →
  (inject_Z (Z.of_nat n) * w <= inject_Z k)%Q → (Py.int_of_product n w ≤ k)%Z.
Proof.
  intros Hk Hq. apply int_of_float_upper. unfold Py.mul_int_float.
  destruct (Z.leb_spec (Z.of_nat n) (2 ^ 53)); [|done].
  apply round_upper; [|done]. destruct Hk; lia.
Qed.

Lemma length_bound_cases (n : nat) :
  (- 2 ^ 53 ≤ Z.of_nat n ≤ 2 ^ 53)%Z ∨ (2 ^ 53 < Z.of_nat n)%Z.
Proof. lia. Qed.

Lemma int_of_product_bounds (n : nat) (w : Q) :
  (0 <= w)%Q → (w <= 1)%Q → (0 ≤ Py.int_of_product n w ≤ Z.of_nat n)%Z.
Proof.
  intros Hw0 Hw1. destruct w as [p q]. unfold Qle in *. simpl in *. split.
  - apply int_of_product_lower; [left; lia|]. unfold Qle. simpl. nia.
  - apply int_of_product_upper; [apply length_bound_cases|]. unfold Qle. simpl. nia.
Qed.

Lemma int_of_product_at_least (n : nat) (p : Q) :
  (1 <= p)%Q → (Z.of_nat n ≤ Py.int_of_product n p)%Z.
Proof.
  intros Hp. apply int_of_product_lower; [apply length_bound_cases|].
  destruct p as [a b]. unfold Qle in *. simpl in *. nia.
Qed.


(** The sample size is [⌊n·w⌋], or one more when the binary64 product is
    the integer above the exact product. *)
Lemma int_of_product_between (n : nat) (w : Q) :
  (0 <= w)%Q → (w <= 1)%Q →
  (Qfloor (inject_Z (Z.of_nat n) * w) ≤ Py.int_of_product n w
   ≤ Qceiling (inject_Z (Z.of_nat n) * w))%Z.
Proof.
  intros Hw0 Hw1.
  set (q := (inject_Z (Z.of_nat n) * w)%Q).
  assert (0 <= q)%Q as Hq0.
  { subst q. destruct w as [a b]. unfold Qle in *. simpl in *. nia. }
  assert (q <= inject_Z (Z.of_nat n))%Q as Hqn.
  { subst q. destruct w as [a b]. unfold Qle in *. simpl in *. nia. }
  assert (0 ≤ Qfloor q)%Z as Hf0.
  { change 0%Z with (Qfloor 0). by apply Qfloor_resp_le. }
  assert (Qceiling q ≤ Z.of_nat n)%Z as Hcn.
  { rewrite <- (Qceiling_Z (Z.of_nat n)). by apply Qceiling_resp_le. }
  pose proof (Qfloor_le q) as Hfl. pose proof (Qle_ceiling q) as Hce.
  assert (Qfloor q ≤ Qceiling q)%Z as Hfc.
  { rewrite Zle_Qle. by apply Qle_trans with q. }
  split.
  - apply int_of_product_lower; [|done].
    destruct (length_bound_cases n); [left; lia|by right].
  - apply int_of_product_upper; [|done].
    destruct (length_bound_cases n); [left; lia|by right].
Qed.

(** ** The Source Aggregator *)

Section aggregator.
Context `{NumpyRandom} `{World} (params : Params).

Lemma np_random_choice_run (n : nat) (size : Z) st :
  (0 ≤ size ≤ Z.of_nat n)%Z →
  np_random_choice n size st = Ok (draw_choice n (Z.to_nat size) st).
Proof.
  intros Hs. unfold np_random_choice.
  destruct (Z.ltb_spec size 0), (Z.ltb_spec (Z.of_nat n) size); simpl; (done || lia).
Qed.

Lemma np_random_choice_inv (n : nat) (size : Z) st indices st' :
  np_random_choice n size st = Ok (indices, st') →
  (0 ≤ size ≤ Z.of_nat n)%Z ∧ (indices, st') = draw_choice n (Z.to_nat size) st.
Proof.
  unfold np_random_choice.
  destruct (Z.ltb_spec size 0), (Z.ltb_spec (Z.of_nat n) size); simpl; try done.
  intros [= <-]. split; [lia|]. by destruct (draw_choice _ _ _).
Qed.

(** The sampling step on a source with weight below one. *)
Lemma apply_weight_below_one (w : Q) images labels st :
  same_len images labels → 0 < np.len images → (0 <= w)%Q → (w < 1)%Q →
  let k := Z.to_nat (Py.int_of_product (np.len images) w) in
  let draw := draw_choice (np.len images) k st in
  ∃ images' labels',
    apply_weight w (images, labels) st = Ok ((images', labels'), draw.2)
    ∧ paired_selection images labels draw.1 images' labels'
    ∧ NoDup draw.1 ∧ np.len images' = k ∧ np.len labels' = k.
Proof.
  intros Hlen Hn Hw0 Hw1 k draw.
  pose proof (int_of_product_bounds (np.len images) w Hw0 (Qlt_le_weak _ _ Hw1)) as Hb.
  assert (k ≤ np.len images) as Hk by (subst k; lia).
  pose proof (draw_choice_range _ _ st Hk) as Hrange. fold draw in Hrange.
  destruct (take_in_range images draw.1 Hrange) as [images' Hi].
  destruct (take_in_range labels draw.1) as [labels' Hl]; [by rewrite <- Hlen|].
  exists images', labels'. split_and!.
  - unfold apply_weight. apply Qltb_lt in Hw1. rewrite Hw1.
    destruct (Nat.ltb_spec 0 (np.len images)); [|lia]. simpl.
    unfold mbind, M_bind. rewrite np_random_choice_run by done.
    fold k draw.
    destruct draw as [indices st']. simpl in *.
    rewrite Hi. simpl. rewrite Hl. done.
  - done.
  - by apply draw_choice_NoDup.
  - rewrite (take_len _ _ _ Hi). by apply draw_choice_length.
  - rewrite (take_len _ _ _ Hl). by apply draw_choice_length.
Qed.

(** The sampling step on a source with weight one or more. *)
Lemma apply_weight_unchanged (w : Q) b st :
  (1 <= w)%Q → apply_weight w b st = Ok (b, st).
Proof.
  intros Hw. destruct b as [images labels]. unfold apply_weight.
  destruct (Py.Qltb w 1) eqn:E; [|done].
  apply Qltb_lt in E. by apply Qlt_not_le in E.
Qed.

(** Whatever the weight, the batch that leaves the sampling step is the
    batch that entered it or a selection of it by one index array. *)
Lemma apply_weight_inv (w : Q) images labels st images' labels' st' :
  apply_weight w (images, labels) st = Ok ((images', labels'), st') →
  (images' = images ∧ labels' = labels ∧ st' = st)
  ∨ ∃ indices, paired_selection images labels indices images' labels'
               ∧ NoDup indices.
Proof.
  unfold apply_weight. destruct (_ && _) eqn:E.
  - intros Hrun. right. inv_run.
    apply np_random_choice_inv in Hrun0 as [Hsize Hdraw].
    exists a. split; [done|].
    replace a with (draw_choice (np.len images)
      (Z.to_nat (Py.int_of_product (np.len images) w)) st).1 by by rewrite <- Hdraw.
    apply draw_choice_NoDup. lia.
  - intros [= -> -> ->]. by left.
Qed.

Lemma apply_weight_same_len (w : Q) images labels st images' labels' st' :
  same_len images labels →
  apply_weight w (images, labels) st = Ok ((images', labels'), st') →
  same_len images' labels'.
Proof.
  intros Hlen [(-> & -> & _)|(indices & Hsel & _)]%apply_weight_inv; [done|].
  by eapply paired_selection_len.
Qed.

(** One iteration on a source whose reader returned a non-empty batch. *)
Lemma load_source_run self source_config images labels st :
  read_source params source_config = Some (Ok (images, labels)) →
  0 < np.len images →
  load_source params self source_config st =
    match apply_weight (default 1%Q (weight source_config)) (images, labels) st with
    | Ok ((images', labels'), st') =>
        Ok (Loader (all_images self ++ [images']) (all_labels self ++ [labels'])
                   (<[name source_config :=
                        MkStats (np.len images') (get_class_distribution params labels')]>
                      (source_stats self)), st')
    | Raise e => Raise e
    end.
Proof.
  intros Hread Hn. unfold load_source. rewrite Hread, M_bind_lift_Ok.
  destruct (Nat.eqb_spec (np.len images) 0); [lia|].
  unfold mbind, M_bind.
  by destruct (apply_weight _ _ st) as [[[??]?]|].
Qed.

Lemma load_source_skipped self source_config st :
  skipped params source_config → load_source params self source_config st = Ok (self, st).
Proof.
  unfold load_source. intros [->|(images & labels & -> & Hn)]; [done|].
  rewrite M_bind_lift_Ok. by rewrite Hn.
Qed.

(** What one iteration that returns has done. *)
Lemma load_source_inv self source_config st self' st' :
  load_source params self source_config st = Ok (self', st') →
  (skipped params source_config ∧ self' = self ∧ st' = st)
  ∨ ∃ images labels images' labels',
      read_source params source_config = Some (Ok (images, labels))
      ∧ 0 < np.len images
      ∧ apply_weight (default 1%Q (weight source_config)) (images, labels) st
        = Ok ((images', labels'), st')
      ∧ self' = Loader (all_images self ++ [images']) (all_labels self ++ [labels'])
                  (<[name source_config :=
                       MkStats (np.len images') (get_class_distribution params labels')]>
                     (source_stats self)).
Proof.
  destruct (read_source params source_config) as [[[images labels]|e]|] eqn:Hread.
  - destruct (Nat.eq_dec (np.len images) 0) as [Hn|Hn].
    + rewrite load_source_skipped by (right; eauto). intros [= <- <-].
      left. split; [right; eauto|done].
    + rewrite (load_source_run _ _ images labels) by (done || lia).
      destruct (apply_weight _ _ st) as [[[images' labels'] st1]|] eqn:Hw; [|done].
      intros [= <- <-]. right. exists images, labels, images', labels'.
      split_and!; (done || lia).
  - unfold load_source. rewrite Hread. done.
  - rewrite load_source_skipped by by left. intros [= <- <-]. left.
    split; [by left|done].
Qed.

Lemma load_source_aligned self source_config st self' st' :
  aligned self → load_source params self source_config st = Ok (self', st') →
  aligned self'.
Proof.
  intros Hal [(_ & -> & _)|(images & labels & images' & labels' & Hread & _ & Hw & ->)]
    %load_source_inv; [done|].
  apply Forall2_app; [done|]. constructor; [|constructor].
  eapply apply_weight_same_len; [|exact Hw]. by eapply read_source_paired.
Qed.

Lemma sources_loop_aligned sources self st self' st' :
  aligned self → for_each_M (load_source params) sources self st = Ok (self', st') →
  aligned self'.
Proof.
  intros Hal Hrun.
  refine (for_each_M_invariant aligned _ _ _ _ _ _ _ Hal Hrun).
  intros. by eapply load_source_aligned.
Qed.
End aggregator.

Section aggregator_claims.
Context `{NumpyRandom} `{World} (params : Params).

(** C5.  A source whose reader returned [n > 0] images and whose weight [w]
    is in [[0, 1)] is subsampled to exactly [int(n * w)] images and
    labels, selected by one index array that holds no index twice.  The
    size is the binary64 product truncated: it is [⌊n·w⌋], or the integer
    above when the product rounds up to it, and never more than [n].  A
    source of weight exactly one is appended unchanged (and draws
    nothing). *)
Theorem weighted_subsampling self source_config images labels (w : Q) st :
  read_source params source_config = Some (Ok (images, labels)) →
  0 < np.len images →
  weight source_config = Some w →
  (0 <= w)%Q →
  ((w < 1)%Q →
     let k := Z.to_nat (Py.int_of_product (np.len images) w) in
     ∃ indices images' labels' self' st',
       load_source params self source_config st = Ok (self', st')
       ∧ all_images self' = all_images self ++ [images']
       ∧ all_labels self' = all_labels self ++ [labels']
       ∧ paired_selection images labels indices images' labels'
       ∧ NoDup indices
       ∧ np.len images' = k ∧ np.len labels' = k
       ∧ (Qfloor (inject_Z (Z.of_nat (np.len images)) * w) ≤ Z.of_nat k
          ≤ Qceiling (inject_Z (Z.of_nat (np.len images)) * w))%Z
       ∧ k ≤ np.len images)
  ∧ ((w == 1)%Q →
     ∃ self',
       load_source params self source_config st = Ok (self', st)
       ∧ all_images self' = all_images self ++ [images]
       ∧ all_labels self' = all_labels self ++ [labels]).
Proof.
  intros Hread Hn Hw Hw0.
  pose proof (read_source_paired _ _ _ _ Hread) as Hlen.
  rewrite (load_source_run _ _ _ images labels) by done.
  rewrite Hw. change (default 1%Q (Some w)) with w. split.
  - intros Hw1.
    destruct (apply_weight_below_one w images labels st Hlen Hn Hw0 Hw1)
      as (images' & labels' & Hrun & Hsel & Hnd & Hki & Hkl).
    rewrite Hrun. eexists _, images', labels', _, _.
    pose proof (int_of_product_between (np.len images) w Hw0 (Qlt_le_weak _ _ Hw1)).
    pose proof (int_of_product_bounds (np.len images) w Hw0 (Qlt_le_weak _ _ Hw1)).
    split_and!; (done || lia).
  - intros Hw1. rewrite apply_weight_unchanged by (rewrite Hw1; apply Qle_refl).
    eexists. split_and!; done.
Qed.



End aggregator_claims.

Section aggregator_runs.
Context `{NumpyRandom} `{World} (params : Params).

(** The loop only appends: the batches it adds are none exactly when every
    source was skipped. *)
Lemma sources_loop_contributions sources self st self' st' :
  for_each_M (load_source params) sources self st = Ok (self', st') →
  ∃ new_images new_labels,
    all_images self' = all_images self ++ new_images
    ∧ all_labels self' = all_labels self ++ new_labels
    ∧ (new_images = [] ↔ Forall (skipped params) sources).
Proof.
  revert self st. induction sources as [|x sources IH]; intros self st Hrun.
  - injection Hrun as <- _. exists [], []. by rewrite !app_nil_r.
  - simpl in Hrun. apply M_bind_Ok_inv in Hrun as (s1 & st1 & Hx & Hrun).
    destruct (IH _ _ Hrun) as (ni & nl & Hi & Hl & Hiff).
    apply load_source_inv in Hx
      as [(Hskip & -> & ->)|(images & labels & i' & l' & Hread & Hn & _ & ->)].
    + exists ni, nl. split_and!; [done..|]. rewrite Hiff.
      split; [by constructor|by inversion 1].
    + exists (i' :: ni), (l' :: nl). simpl in Hi, Hl.
      rewrite Hi, Hl, <- !app_assoc. split_and!; [done..|].
      split; [done|]. inversion 1 as [|?? [Hnone|(i0 & l0 & Hsome & Hz)]]; simplify_eq.
      lia.
Qed.

Lemma load_all_sources_run self st self' st' :
  for_each_M (load_source params) (DATA_SOURCES params) self st = Ok (self', st') →
  load_all_sources params self st =
    if length (all_images self') =? 0 then
      b ← load_mnist_fallback params; Ok ((self', b), st')
    else
      combined_images ← np.concatenate (all_images self');
      combined_labels ← np.concatenate (all_labels self');
      Ok ((self', (combined_images, combined_labels)), st').
Proof.
  intros Hloop. unfold load_all_sources. rewrite (M_bind_Ok _ _ _ _ _ Hloop).
  destruct (_ =? 0).
  - unfold mbind, M_bind. by destruct (load_mnist_fallback params).
  - unfold mbind, M_bind. destruct (np.concatenate (all_images self')); [|done].
    simpl. by destruct (np.concatenate (all_labels self')).
Qed.

Lemma load_all_sources_loop_Raise self st e :
  for_each_M (load_source params) (DATA_SOURCES params) self st = Raise e →
  load_all_sources params self st = Raise e.
Proof. intros Hloop. unfold load_all_sources. by rewrite (M_bind_Raise _ _ _ _ Hloop). Qed.

(** The fallback corpus: the downloaded training samples followed by the
    test samples, in the configured channel depth. *)
Lemma load_mnist_fallback_content x_train y_train x_test y_test :
  mnist_load_data = Ok ((x_train, y_train), (x_test, y_test)) →
  ∃ images labels,
    load_mnist_fallback params = Ok (images, labels)
    ∧ items images
      = (if USE_GRAYSCALE params then items x_train ++ items x_test
         else (λ px, px ≫= λ v, [v; v; v]) <$> (items x_train ++ items x_test))
    ∧ items labels = items y_train ++ items y_test
    ∧ item_shape images = [28; 28; if USE_GRAYSCALE params then 1 else 3].
Proof.
  intros Hdata.
  destruct (mnist_shape _ _ _ _ Hdata) as (Hx1 & Hx2 & _ & _ & Hy1 & Hy2).
  unfold load_mnist_fallback, load_builtin_dataset.
  change (Py.lower "mnist" =? "mnist")%string with true. cbv iota.
  rewrite Hdata. simpl. rewrite Hx1, Hx2, Hy1, Hy2. simpl.
  eexists _, _. split; [done|].
  destruct (USE_GRAYSCALE params); simpl; by rewrite ?app_nil_r.
Qed.

(** C8.  When the loop over the configured sources has ended with an empty
    accumulation list, [load_all_sources] returns what loading the builtin
    MNIST corpus returns: after a successful download that is the corpus
    of all downloaded samples (training samples, then test samples, with
    their labels), not an empty one, and a failed download is raised.
    Otherwise it returns the concatenation of the accumulated image
    batches and of the accumulated label batches, and the builtin corpus
    is not consulted.  For a fresh loader the list is empty exactly when
    every configured source was skipped. *)
Theorem fallback_iff_nothing_accumulated self st self' st' :
  for_each_M (load_source params) (DATA_SOURCES params) self st = Ok (self', st') →
  (all_images self' = [] →
     load_all_sources params self st =
       (b ← load_builtin_dataset params "mnist"; Ok ((self', b), st')))
  ∧ (all_images self' = [] →
     ∀ x_train y_train x_test y_test,
       mnist_load_data = Ok ((x_train, y_train), (x_test, y_test)) →
       ∃ images labels,
         load_all_sources params self st = Ok ((self', (images, labels)), st')
         ∧ items images
           = (if USE_GRAYSCALE params then items x_train ++ items x_test
              else (λ px, px ≫= λ v, [v; v; v]) <$> (items x_train ++ items x_test))
         ∧ items labels = items y_train ++ items y_test
         ∧ item_shape images = [28; 28; if USE_GRAYSCALE params then 1 else 3]
         ∧ np.len images = np.len x_train + np.len x_test
         ∧ np.len labels = np.len x_train + np.len x_test)
  ∧ (all_images self' = [] →
     ∀ e, mnist_load_data = Raise e → load_all_sources params self st = Raise e)
  ∧ (all_images self' ≠ [] →
     load_all_sources params self st =
       (combined_images ← np.concatenate (all_images self');
        combined_labels ← np.concatenate (all_labels self');
        Ok ((self', (combined_images, combined_labels)), st')))
  ∧ (self = init →
     (all_images self' = [] ↔ Forall (skipped params) (DATA_SOURCES params))).
Proof.
  intros Hloop. rewrite (load_all_sources_run _ _ _ _ Hloop). split_and!.
  - by intros ->.
  - intros -> x_train y_train x_test y_test Hdata.
    destruct (load_mnist_fallback_content _ _ _ _ Hdata)
      as (images & labels & -> & Hi & Hl & Hs).
    destruct (mnist_paired _ _ _ _ Hdata) as [Hp1 Hp2].
    exists images, labels. split_and!; [done..| |].
    + unfold np.len in *. rewrite Hi.
      destruct (USE_GRAYSCALE params); by rewrite ?length_fmap, length_app.
    + unfold np.len in *. rewrite Hl, length_app. lia.
  - intros -> e Hdata. simpl.
    unfold load_mnist_fallback, load_builtin_dataset.
    change (Py.lower "mnist" =? "mnist")%string with true. cbv iota.
    by rewrite Hdata.
  - intros Hne. by destruct (all_images self').
  - intros ->. destruct (sources_loop_contributions _ _ _ _ _ Hloop)
      as (ni & nl & Hi & _ & Hiff).
    simpl in Hi. by rewrite Hi.
Qed.


End aggregator_runs.

(** ** The Splitter *)

Lemma mapM_app {A B} (f : A → option B) l1 l2 r1 r2 :
  mapM f l1 = Some r1 → mapM f l2 = Some r2 → mapM f (l1 ++ l2) = Some (r1 ++ r2).
Proof. intros H1%mapM_Some H2%mapM_Some. apply mapM_Some. by apply Forall2_app. Qed.

Section take_compose.
Context {A : Type}.
Implicit Types (a b c : ndarray A).

(** Selecting from a selection is selecting by the composed indices. *)
Lemma mapM_lookup_compose (l : list A) (idx1 idx2 : list nat) sel1 sel2 :
  mapM (λ i, l !! i) idx1 = Some sel1 →
  mapM (λ j, sel1 !! j) idx2 = Some sel2 →
  ∃ idx, mapM (λ j, idx1 !! j) idx2 = Some idx ∧ mapM (λ i, l !! i) idx = Some sel2.
Proof.
  intros H1%mapM_Some. revert sel2.
  induction idx2 as [|j idx2 IH]; intros sel2 H2.
  - injection H2 as <-. by exists [].
  - apply mapM_Some in H2. destruct sel2 as [|x sel2]; [by inversion H2|].
    apply Forall2_cons in H2 as [Hj H2]. apply mapM_Some in H2.
    destruct (IH _ H2) as (idx & Hidx & Hsel).
    destruct (Forall2_lookup_r _ _ _ _ _ H1 Hj) as (i & Hi & Hx).
    exists (i :: idx). split; apply mapM_Some; (constructor; [done|by apply mapM_Some]).
Qed.

Lemma take_compose a b c idx1 idx2 :
  np.take a idx1 = Ok b → np.take b idx2 = Ok c →
  ∃ idx, mapM (λ j, idx1 !! j) idx2 = Some idx ∧ np.take a idx = Ok c.
Proof.
  intros (H1 & Hs1 & Hd1)%take_Ok_inv (H2 & Hs2 & Hd2)%take_Ok_inv.
  destruct (mapM_lookup_compose _ _ _ _ _ H1 H2) as (idx & Hidx & Hsel).
  exists idx. split; [done|]. unfold np.take. rewrite Hsel. simpl.
  destruct c. simpl in *. by rewrite Hs2, Hs1, Hd2, Hd1.
Qed.

(** Selecting from a prefix is selecting from the whole. *)
Lemma take_slice_to a (k : Z) idx c :
  np.take (np.slice_to a k) idx = Ok c → np.take a idx = Ok c.
Proof.
  intros (Hsel & Hs & Hd)%take_Ok_inv. simpl in *.
  unfold np.take.
  assert (mapM (λ i, items a !! i) idx = Some (items c)) as ->.
  { apply mapM_Some. apply mapM_Some in Hsel.
    eapply Forall2_impl; [exact Hsel|]. intros i x Hx. simpl in Hx.
    by apply lookup_take_Some in Hx as [? _]. }
  simpl. destruct c. simpl in *. by rewrite Hs, Hd.
Qed.

Lemma slice_to_len a (k : Z) :
  (0 ≤ k ≤ Z.of_nat (np.len a))%Z → np.len (np.slice_to a k) = Z.to_nat k.
Proof.
  intros Hk. unfold np.len at 1, np.slice_to, np.slice_stop. simpl.
  destruct (Z.ltb_spec k 0); [lia|]. rewrite length_take. fold (np.len a). lia.
Qed.
End take_compose.

Lemma slice_to_same_len {A B} (a : ndarray A) (b : ndarray B) (k : Z) :
  same_len a b → same_len (np.slice_to a k) (np.slice_to b k).
Proof.
  unfold same_len, np.len. simpl. intros Hlen. rewrite !length_take.
  fold (np.len a) (np.len b). unfold np.len. by rewrite Hlen.
Qed.

Lemma slice_to_zip {A B} (a : ndarray A) (b : ndarray B) (k : Z) :
  same_len a b →
  zip (items (np.slice_to a k)) (items (np.slice_to b k))
  = list.take (np.slice_stop (np.len a) k) (zip (items a) (items b)).
Proof.
  unfold same_len. intros Hlen. simpl. rewrite <- Hlen. by rewrite <- zip_with_take.
Qed.

Section splitter.
Context `{Sklearn}.

Lemma train_test_split_inv {A} (X : ndarray A) (y stratify : ndarray Z) ts rs
    X_train X_test y_train y_test :
  train_test_split X y ts rs stratify = Ok (X_train, X_test, y_train, y_test) →
  same_len X y
  ∧ ∃ train test,
      stratified_shuffle_split (np.len X) (items stratify) ts rs = Ok (train, test)
      ∧ train ++ test ≡ₚ seq 0 (np.len X)
      ∧ paired_selection X y train X_train y_train
      ∧ paired_selection X y test X_test y_test.
Proof.
  unfold train_test_split.
  destruct (Nat.eqb_spec (np.len X) (np.len y)) as [Hlen|]; [|done].
  destruct (np.len X =? np.len stratify); [|done]. simpl.
  intros Hrun. apply bind_Ok_inv in Hrun as ([train test] & Hsplit & Hrun).
  apply bind_Ok_inv in Hrun as (a1 & H1 & Hrun).
  apply bind_Ok_inv in Hrun as (a2 & H2 & Hrun).
  apply bind_Ok_inv in Hrun as (a3 & H3 & Hrun).
  apply bind_Ok_inv in Hrun as (a4 & H4 & [= <- <- <- <-]).
  split; [done|]. exists train, test. split_and!; try done.
  by eapply stratified_partition.
Qed.

Lemma train_test_split_under_populated {A} (X : ndarray A) (y stratify : ndarray Z) ts rs :
  under_populated (items stratify) = true →
  train_test_split X y ts rs stratify = Raise ValueError.
Proof.
  intros Hy. unfold train_test_split. case_match; [done|].
  by rewrite stratified_under_populated.
Qed.
End splitter.

(** ** The whole pipeline *)

Section pipeline.
Context `{NumpyRandom} `{Sklearn} `{World} (params : Params).

Lemma shuffle_dataset_inv {A B} (images : ndarray A) (labels : ndarray B) seed st
    images' labels' st' :
  shuffle_dataset images labels seed st = Ok ((images', labels'), st') →
  ∃ indices, indices ≡ₚ seq 0 (np.len images)
             ∧ paired_selection images labels indices images' labels'.
Proof.
  destruct (seed_state seed) as [s|] eqn:Hs.
  - rewrite (shuffle_dataset_run _ _ _ _ s Hs).
    pose proof (draw_permutation_perm (np.len images) s) as Hperm.
    destruct (draw_permutation _ s) as [indices st1]. simpl in Hperm.
    intros Hrun. apply bind_Ok_inv in Hrun as (i1 & Hi & Hrun).
    apply bind_Ok_inv in Hrun as (l1 & Hl & [= <- <- <-]).
    by exists indices.
  - by rewrite shuffle_dataset_bad_seed.
Qed.

Lemma load_all_sources_paired self st self' images labels st' :
  aligned self →
  load_all_sources params self st = Ok ((self', (images, labels)), st') →
  same_len images labels
  ∧ aligned self'
  ∧ (all_images self' ≠ [] →
     zip (items images) (items labels)
     = mjoin (zip_with (λ x y, zip (items x) (items y))
                       (all_images self') (all_labels self'))).
Proof.
  intros Hal Hrun.
  destruct (for_each_M (load_source params) (DATA_SOURCES params) self st)
    as [[s1 st1]|e] eqn:Hloop;
    [|by rewrite (load_all_sources_loop_Raise _ _ _ _ Hloop) in Hrun].
  rewrite (load_all_sources_run _ _ _ _ _ Hloop) in Hrun.
  pose proof (sources_loop_aligned _ _ _ _ _ _ Hal Hloop) as Hal1.
  destruct (Nat.eqb_spec (length (all_images s1)) 0) as [Hz|Hnz].
  - apply bind_Ok_inv in Hrun as ([i l] & Hb & [= <- <- <- <-]).
    apply nil_length_inv in Hz.
    split_and!; [|done|by rewrite Hz].
    by eapply load_builtin_dataset_paired.
  - apply bind_Ok_inv in Hrun as (ci & Hci & Hrun).
    apply bind_Ok_inv in Hrun as (cl & Hcl & [= <- <- <- <-]).
    destruct (concatenate_same_len _ _ _ _ Hal1 Hci Hcl) as [Hlen Hzip].
    done.
Qed.

Lemma load_combined_dataset_paired st images labels st' :
  load_combined_dataset params st = Ok ((images, labels), st') →
  same_len images labels.
Proof.
  unfold load_combined_dataset. intros Hrun.
  apply M_bind_Ok_inv in Hrun as ([loader [i l]] & st1 & Hload & Hrun).
  apply shuffle_dataset_inv in Hrun as (indices & _ & Hsel).
  by eapply paired_selection_len.
Qed.

Lemma get_data_splits_run st images labels st1 :
  load_combined_dataset params st = Ok ((images, labels), st1) →
  get_data_splits params st =
    (let training_samples :=
       Py.int_of_product (np.len images) (TRAINING_PERCENTAGE params) in
     let images := np.slice_to images training_samples in
     let labels := np.slice_to labels training_samples in
     '(x_train_val, x_test, y_train_val, y_test) ←
       train_test_split images labels (2 # 10)%Q (SHUFFLE_SEED params) labels;
     '(x_train, x_val, y_train, y_val) ←
       train_test_split x_train_val y_train_val (VALIDATION_SPLIT params)
                        (SHUFFLE_SEED params) y_train_val;
     Ok (((x_train, y_train), (x_val, y_val), (x_test, y_test)), st1)).
Proof.
  intros Hload. unfold get_data_splits. rewrite (M_bind_Ok _ _ _ _ _ Hload).
  cbv zeta. unfold mbind at 1, M_bind at 1, lift at 1.
  destruct (train_test_split (np.slice_to images _) _ _ _ _)
    as [[[[x_tv x_te] y_tv] y_te]|e]; [|done].
  simpl. unfold mbind at 1, M_bind at 1, lift.
  by destruct (train_test_split x_tv _ _ _ _) as [[[[x_tr x_v] y_tr] y_v]|e'].
Qed.

Lemma get_data_splits_load_Raise st e :
  load_combined_dataset params st = Raise e → get_data_splits params st = Raise e.
Proof. intros Hload. unfold get_data_splits. by rewrite (M_bind_Raise _ _ _ _ Hload). Qed.

(** What a returning run of [get_data_splits] has done: the corpus was
    loaded and shuffled, truncated, and each partition is a selection of
    the truncated corpus by one index array; the three index arrays
    together are a permutation of the positions of the truncated corpus. *)
Lemma get_data_splits_inv st train val test st' :
  get_data_splits params st = Ok ((train, val, test), st') →
  ∃ images labels I_train I_val I_test,
    load_combined_dataset params st = Ok ((images, labels), st')
    ∧ let k := Py.int_of_product (np.len images) (TRAINING_PERCENTAGE params) in
      let images_t := np.slice_to images k in
      let labels_t := np.slice_to labels k in
      paired_selection images_t labels_t I_train train.1 train.2
      ∧ paired_selection images_t labels_t I_val val.1 val.2
      ∧ paired_selection images_t labels_t I_test test.1 test.2
      ∧ I_train ++ I_val ++ I_test ≡ₚ seq 0 (np.len images_t).
Proof.
  intros Hrun.
  destruct (load_combined_dataset params st) as [[[images labels] st1]|e] eqn:Hload;
    [|by rewrite (get_data_splits_load_Raise _ _ Hload) in Hrun].
  rewrite (get_data_splits_run _ _ _ _ Hload) in Hrun. cbv zeta in Hrun.
  apply bind_Ok_inv in Hrun as ([[[x_tv x_te] y_tv] y_te] & Hone & Hrun).
  apply bind_Ok_inv in Hrun as ([[[x_tr x_v] y_tr] y_v] & Htwo & [= <- <- <- <-]).
  apply train_test_split_inv in Hone
    as (_ & TV & T & _ & Hp1 & [Htvx Htvy] & Hte).
  apply train_test_split_inv in Htwo
    as (_ & tr & va & _ & Hp2 & [Htrx Htry] & [Hvx Hvy]).
  rewrite (take_len _ _ _ Htvx) in Hp2.
  destruct (take_compose _ _ _ _ _ Htvx Htrx) as (I_train & Hmt & Hix).
  destruct (take_compose _ _ _ _ _ Htvy Htry) as (I_train' & Hmt' & Hiy).
  destruct (take_compose _ _ _ _ _ Htvx Hvx) as (I_val & Hmv & Hvx').
  destruct (take_compose _ _ _ _ _ Htvy Hvy) as (I_val' & Hmv' & Hvy').
  simplify_eq.
  exists images, labels, I_train, I_val, T. split; [done|]. cbv zeta. simpl.
  split_and!; try done.
  rewrite app_assoc, <- Hp1. f_equiv.
  eapply mapM_lookup_perm; [exact Hp2|]. by apply mapM_app.
Qed.

(** C6.  When [get_data_splits] returns (both stratified splits
    succeeded), the train, validation and test partitions are selections
    of the truncated corpus by three index lists that are pairwise
    disjoint, hold no position twice and together cover every position of
    the truncated corpus; so the partition sizes sum to the size of the
    truncated corpus, which for a percentage in [[0, 1]] is
    [int(total * TRAINING_PERCENTAGE)], the binary64 product truncated:
    [⌊total · TRAINING_PERCENTAGE⌋], or the integer above when the
    product rounds up to it, and never more than [total]. *)
Theorem splits_partition_truncated_corpus st train val test st' :
  (0 <= TRAINING_PERCENTAGE params)%Q →
  (TRAINING_PERCENTAGE params <= 1)%Q →
  get_data_splits params st = Ok ((train, val, test), st') →
  ∃ images labels I_train I_val I_test,
    load_combined_dataset params st = Ok ((images, labels), st')
    ∧ let k := Py.int_of_product (np.len images) (TRAINING_PERCENTAGE params) in
      let m := Z.to_nat k in
      let images_t := np.slice_to images k in
      let labels_t := np.slice_to labels k in
      np.len images_t = m
      ∧ (Qfloor (inject_Z (Z.of_nat (np.len images)) * TRAINING_PERCENTAGE params)
         ≤ Z.of_nat m
         ≤ Qceiling (inject_Z (Z.of_nat (np.len images)) * TRAINING_PERCENTAGE params))%Z
      ∧ m ≤ np.len images
      ∧ paired_selection images_t labels_t I_train train.1 train.2
      ∧ paired_selection images_t labels_t I_val val.1 val.2
      ∧ paired_selection images_t labels_t I_test test.1 test.2
      ∧ I_train ++ I_val ++ I_test ≡ₚ seq 0 m
      ∧ NoDup (I_train ++ I_val ++ I_test)
      ∧ I_train ## I_val ∧ I_train ## I_test ∧ I_val ## I_test
      ∧ np.len train.1 + np.len val.1 + np.len test.1 = m
      ∧ np.len train.2 + np.len val.2 + np.len test.2 = m.
Proof.
  intros Hp0 Hp1 Hrun.
  destruct (get_data_splits_inv _ _ _ _ _ Hrun)
    as (images & labels & I_train & I_val & I_test & Hload & Htr & Hva & Hte & Hperm).
  exists images, labels, I_train, I_val, I_test. split; [done|]. cbv zeta.
  pose proof (int_of_product_bounds (np.len images) _ Hp0 Hp1) as Hb.
  pose proof (int_of_product_between (np.len images) _ Hp0 Hp1) as Hfc.
  rewrite slice_to_len in Hperm |- * by done.
  set (m := Z.to_nat (Py.int_of_product _ _)) in *.
  assert (NoDup (I_train ++ I_val ++ I_test)) as Hnd.
  { rewrite Hperm. apply NoDup_seq. }
  pose proof Hnd as (_ & Hd1 & (_ & Hd2 & _)%NoDup_app)%NoDup_app.
  assert (length I_train + length I_val + length I_test = m) as Hsum.
  { apply Permutation_length in Hperm.
    rewrite !length_app, length_seq in Hperm. lia. }
  split_and!; try (done || lia).
  - intros i Hi1 Hi2. eapply Hd1; [done|]. apply elem_of_app. by left.
  - intros i Hi1 Hi2. eapply Hd1; [done|]. apply elem_of_app. by right.
  - destruct Htr as [Htr _], Hva as [Hva _], Hte as [Hte _].
    by rewrite (take_len _ _ _ Htr), (take_len _ _ _ Hva), (take_len _ _ _ Hte).
  - destruct Htr as [_ Htr], Hva as [_ Hva], Hte as [_ Hte].
    by rewrite (take_len _ _ _ Htr), (take_len _ _ _ Hva), (take_len _ _ _ Hte).
Qed.

(** The labels of the three partitions together are the labels of the
    truncated corpus. *)
Lemma get_data_splits_labels st train val test st' images labels :
  get_data_splits params st = Ok ((train, val, test), st') →
  load_combined_dataset params st = Ok ((images, labels), st') →
  items train.2 ++ items val.2 ++ items test.2
  ≡ₚ items (np.slice_to labels
              (Py.int_of_product (np.len images) (TRAINING_PERCENTAGE params))).
Proof.
  intros Hrun Hload'.
  destruct (get_data_splits_inv _ _ _ _ _ Hrun)
    as (images0 & labels0 & I_train & I_val & I_test & Hload & Htr & Hva & Hte & Hperm).
  rewrite Hload' in Hload. injection Hload as <- <-. cbv zeta in *.
  pose proof (load_combined_dataset_paired _ _ _ _ Hload') as Hlen.
  pose proof (slice_to_same_len images labels
                (Py.int_of_product (np.len images) (TRAINING_PERCENTAGE params)) Hlen)
    as Hlen'.
  destruct Htr as [_ (Htr & _)%take_Ok_inv], Hva as [_ (Hva & _)%take_Ok_inv],
    Hte as [_ (Hte & _)%take_Ok_inv].
  eapply mapM_lookup_perm; [|by repeat apply mapM_app].
  unfold same_len in Hlen'. rewrite Hperm, Hlen'. done.
Qed.

Lemma elem_of_count (c : Z) (l : list Z) :
  c ∈ l → 0 < length (filter (λ x, x = c) l).
Proof.
  intros Hc. assert (c ∈ filter (λ x, x = c) l) as Hin by by apply list_elem_of_filter.
  destruct (filter _ l); [by apply elem_of_nil in Hin|simpl; lia].
Qed.

(** C7.  Once the corpus is loaded, a class of the truncated corpus with a
    single member makes the first stratified split raise, and a class of
    the train+validation part with a single member makes the second one
    raise; whatever either split raises is what [get_data_splits] raises:
    no partitions are returned.  Nothing else is checked: when the
    partitions are returned, a class with fewer than three members in the
    truncated corpus is missing from one of them. *)
Theorem under_populated_class_is_fatal st images labels st1 :
  load_combined_dataset params st = Ok ((images, labels), st1) →
  let k := Py.int_of_product (np.len images) (TRAINING_PERCENTAGE params) in
  let images_t := np.slice_to images k in
  let labels_t := np.slice_to labels k in
  let first_split :=
    train_test_split images_t labels_t (2 # 10)%Q (SHUFFLE_SEED params) labels_t in
  let second_split x_train_val y_train_val :=
    train_test_split x_train_val y_train_val (VALIDATION_SPLIT params)
                     (SHUFFLE_SEED params) y_train_val in
  (under_populated (items labels_t) = true →
     get_data_splits params st = Raise ValueError)
  ∧ (∀ x_train_val x_test y_train_val y_test,
       first_split = Ok (x_train_val, x_test, y_train_val, y_test) →
       under_populated (items y_train_val) = true →
       get_data_splits params st = Raise ValueError)
  ∧ (∀ e, first_split = Raise e → get_data_splits params st = Raise e)
  ∧ (∀ x_train_val x_test y_train_val y_test e,
       first_split = Ok (x_train_val, x_test, y_train_val, y_test) →
       second_split x_train_val y_train_val = Raise e →
       get_data_splits params st = Raise e)
  ∧ (∀ train val test (c : Z),
       get_data_splits params st = Ok ((train, val, test), st1) →
       length (filter (λ l, l = c) (items labels_t)) < 3 →
       ¬ (c ∈ items train.2 ∧ c ∈ items val.2 ∧ c ∈ items test.2)).
Proof.
  intros Hload. cbv zeta.
  assert (∀ train val test (c : Z),
    get_data_splits params st = Ok ((train, val, test), st1) →
    length (filter (λ l, l = c)
              (items (np.slice_to labels
                 (Py.int_of_product (np.len images) (TRAINING_PERCENTAGE params))))) < 3 →
    ¬ (c ∈ items train.2 ∧ c ∈ items val.2 ∧ c ∈ items test.2)) as Hmissing.
  { intros train val test c Hrun Hfew (Htr & Hva & Hte).
    pose proof (get_data_splits_labels _ _ _ _ _ _ _ Hrun Hload) as Hperm.
    apply (filter_Permutation (λ l, l = c)), Permutation_length in Hperm.
    rewrite !filter_app, !length_app in Hperm.
    apply elem_of_count in Htr, Hva, Hte. lia. }
  split_and!; [| | | |exact Hmissing];
    rewrite (get_data_splits_run _ _ _ _ Hload); cbv zeta.
  - intros Hy. by rewrite train_test_split_under_populated.
  - intros x_tv x_te y_tv y_te -> Hy. unfold mbind, result_bind. cbv beta iota.
    by rewrite train_test_split_under_populated.
  - by intros e ->.
  - intros x_tv x_te y_tv y_te e -> He. unfold mbind, result_bind. cbv beta iota.
    by rewrite He.
Qed.
End pipeline.

(** ** The manifest reader *)

Section label_file.
Context `{World}.

Lemma load_label_line_inv images_dir acc line acc' :
  load_label_line images_dir acc line = Ok acc' →
  acc' = acc
  ∨ ∃ image label, well_formed_line images_dir line image label
                   ∧ acc' = (acc.1 ++ [image], acc.2 ++ [label]).
Proof.
  destruct acc as [images labels]. unfold load_label_line.
  destruct (Py.tokens line) as [|filename [|token rest]] eqn:Htok;
    try (intros [= <-]; by left).
  destruct (Py.int token) as [label|] eqn:Hint; simpl; [|done].
  destruct (os_path_exists _) eqn:Hex; [|intros [= <-]; by left].
  destruct (cv2_imread _) as [image|] eqn:Him; [|intros [= <-]; by left].
  intros [= <-]. right. exists image, label. split; [|done].
  by exists filename, token, rest.
Qed.

Lemma load_label_line_Raise images_dir acc line e :
  load_label_line images_dir acc line = Raise e → e = ValueError.
Proof.
  destruct acc as [images labels]. unfold load_label_line, Py.int.
  destruct (Py.tokens line) as [|filename [|token rest]]; try done.
  destruct (match list_ascii_of_string token with [] => _ | _ => _ end); simpl.
  - by repeat case_match.
  - by intros [= <-].
Qed.

(** Every pair the manifest loop returns comes from a well-formed line of
    the manifest, image and label from the same line. *)
Lemma manifest_loop_pairs images_dir lines images labels :
  for_each (load_label_line images_dir) lines ([], []) = Ok (images, labels) →
  Forall2 (λ image label,
             ∃ line, line ∈ lines ∧ well_formed_line images_dir line image label)
          images labels.
Proof.
  assert (∀ done todo acc acc',
    Forall2 (λ image label,
               ∃ line, line ∈ done ∧ well_formed_line images_dir line image label)
            acc.1 acc.2 →
    for_each (load_label_line images_dir) todo acc = Ok acc' →
    Forall2 (λ image label,
               ∃ line, line ∈ done ++ todo
                       ∧ well_formed_line images_dir line image label)
            acc'.1 acc'.2) as Hgen.
  { intros done todo. revert done.
    induction todo as [|line todo IH]; intros done acc acc' Hacc Hrun.
    - injection Hrun as <-. by rewrite app_nil_r.
    - simpl in Hrun. apply bind_Ok_inv in Hrun as (acc1 & Hline & Hrun).
      replace (done ++ line :: todo) with ((done ++ [line]) ++ todo)
        by by rewrite <- app_assoc.
      apply (IH _ acc1); [|done].
      assert (Forall2 (λ image label,
               ∃ l, l ∈ done ++ [line] ∧ well_formed_line images_dir l image label)
             acc.1 acc.2) as Hacc'.
      { eapply Forall2_impl; [exact Hacc|]. intros im lb (l & Hl & Hwf).
        exists l. split; [|done]. apply elem_of_app. by left. }
      apply load_label_line_inv in Hline as [->|(im & lb & Hwf & ->)]; [done|].
      simpl. apply Forall2_app; [done|]. constructor; [|constructor].
      exists line. split; [|done]. apply elem_of_app. right. by apply list_elem_of_singleton. }
  intros Hrun. apply (Hgen [] lines ([], []) (images, labels)); [constructor|done].
Qed.

(** A line with two tokens whose second token is not an integer literal
    makes the loop raise. *)
Lemma manifest_loop_bad_label images_dir lines acc line filename token rest :
  line ∈ lines →
  Py.tokens line = filename :: token :: rest →
  Py.int token = Raise ValueError →
  for_each (load_label_line images_dir) lines acc = Raise ValueError.
Proof.
  intros Hin Htok Hint. revert acc.
  induction lines as [|l lines IH]; intros acc; [by apply elem_of_nil in Hin|].
  simpl. destruct (load_label_line images_dir acc l) as [acc1|e] eqn:Hl.
  - simpl. apply elem_of_cons in Hin as [<-|Hin]; [|by apply IH].
    destruct acc as [images labels]. unfold load_label_line in Hl.
    rewrite Htok, Hint in Hl. done.
  - simpl. by apply load_label_line_Raise in Hl as ->.
Qed.

Lemma load_label_file_dataset_bad_label dataset_path lines line filename token rest :
  os_path_exists (Py.path_join dataset_path "labels.txt") = true →
  os_path_exists (Py.path_join dataset_path "images") = true →
  readlines (Py.path_join dataset_path "labels.txt") = Ok lines →
  line ∈ lines →
  Py.tokens line = filename :: token :: rest →
  Py.int token = Raise ValueError →
  load_label_file_dataset dataset_path = Raise ValueError.
Proof.
  intros Hf Hd Hlines Hin Htok Hint. unfold load_label_file_dataset.
  rewrite Hf, Hd, Hlines. simpl.
  by erewrite manifest_loop_bad_label.
Qed.
End label_file.

(** ** Image shapes *)

Section shapes.
Context `{World} (params : Params).

Lemma load_class_files_color class_dir class_label filenames acc :
  Forall three_channels acc.1 →
  Forall three_channels (load_class_files class_dir class_label filenames acc).1.
Proof.
  revert acc. induction filenames as [|f fs IH]; intros [images labels] Hacc; [done|].
  simpl. apply IH. case_match; [|done].
  destruct (cv2_imread _) as [im|] eqn:Him; [|done].
  simpl. apply Forall_app. split; [done|]. constructor; [|done].
  by eapply cv2_imread_color.
Qed.

(** Whatever [USE_GRAYSCALE] says, a non-empty batch read from a folder
    tree has three channels. *)
Lemma load_folder_structure_color dataset_path images labels :
  load_folder_structure params dataset_path = Ok (images, labels) →
  0 < np.len images →
  ∃ h w, item_shape images = [h; w; 3].
Proof.
  unfold load_folder_structure.
  case_match; [intros [= <- <-] Hn; cbv in Hn; lia|].
  intros Hrun Hn. apply bind_Ok_inv in Hrun as ([imgs lbls] & Hloop & Hrun).
  apply bind_Ok_inv in Hrun as (a & Harr & [= <- <-]).
  assert (Forall three_channels imgs) as Hc.
  { refine (for_each_invariant (λ acc, Forall three_channels acc.1) _ _ _ _ _ _ Hloop);
      [|by constructor].
    intros acc class_label acc' Hacc. case_match; [by intros [= <-]|].
    intros (filenames & _ & [= <-])%bind_Ok_inv.
    by apply load_class_files_color. }
  destruct imgs as [|im imgs]; simpl in Harr.
  - injection Harr as <-. cbv in Hn. lia.
  - case_match; [|done]. injection Harr as <-. simpl.
    by apply Forall_cons in Hc as [? _].
Qed.

(** With [USE_GRAYSCALE] set, the builtin corpus has one channel. *)
Lemma load_builtin_dataset_grayscale dataset_name images labels :
  USE_GRAYSCALE params = true →
  load_builtin_dataset params dataset_name = Ok (images, labels) →
  0 < np.len images →
  item_shape images = [28; 28; 1].
Proof.
  intros Hg. unfold load_builtin_dataset. rewrite Hg.
  case_match; [|intros [= <- <-] Hn; cbv in Hn; lia].
  intros Hrun _.
  apply bind_Ok_inv in Hrun as ([[x_train y_train] [x_test y_test]] & Hdata & Hrun).
  apply bind_Ok_inv in Hrun as (imgs & Himgs & Hrun).
  apply bind_Ok_inv in Hrun as (lbls & _ & [= <- <-]).
  destruct (mnist_shape _ _ _ _ Hdata) as (Hx & _).
  simpl in Himgs. case_match; [|done]. injection Himgs as <-. simpl. by rewrite Hx.
Qed.
End shapes.

(** ** The pairing invariant *)

Section pairing.
Context `{NumpyRandom} `{Sklearn} `{World} (params : Params).

(** C1.  The image sequence and the label sequence have the same length
    after every stage, and position [i] of one always belongs with
    position [i] of the other:
    - a Source Reader returns as many labels as images;
    - the weighted sampling returns its input or a selection of it by one
      index array;
    - the aggregated corpus has as many labels as images, the
      accumulation lists are aligned, and the pairs of the concatenation
      are the pairs of the accumulated batches in order;
    - the shuffle selects images and labels by one permutation;
    - truncation keeps the same prefix of both, and each of the three
      partitions is a selection of the shuffled corpus by one index
      array. *)
Theorem pairing_invariant :
  (∀ source_config images labels,
     read_source params source_config = Some (Ok (images, labels)) →
     same_len images labels)
  ∧ (∀ (w : Q) images labels st images' labels' st',
       same_len images labels →
       apply_weight w (images, labels) st = Ok ((images', labels'), st') →
       same_len images' labels'
       ∧ ((images' = images ∧ labels' = labels)
          ∨ ∃ indices, paired_selection images labels indices images' labels'))
  ∧ (∀ st self images labels st',
       load_all_sources params init st = Ok ((self, (images, labels)), st') →
       same_len images labels
       ∧ aligned self
       ∧ (all_images self ≠ [] →
          zip (items images) (items labels)
          = mjoin (zip_with (λ x y, zip (items x) (items y))
                            (all_images self) (all_labels self))))
  ∧ (∀ (images : ndarray pixels) (labels : ndarray Z) seed st images' labels' st',
       shuffle_dataset images labels seed st = Ok ((images', labels'), st') →
       same_len images' labels'
       ∧ ∃ indices, indices ≡ₚ seq 0 (np.len images)
                    ∧ paired_selection images labels indices images' labels')
  ∧ (∀ st train val test st',
       get_data_splits params st = Ok ((train, val, test), st') →
       ∃ images labels,
         load_combined_dataset params st = Ok ((images, labels), st')
         ∧ same_len images labels
         ∧ let k := Py.int_of_product (np.len images) (TRAINING_PERCENTAGE params) in
           same_len (np.slice_to images k) (np.slice_to labels k)
           ∧ zip (items (np.slice_to images k)) (items (np.slice_to labels k))
             = take (np.slice_stop (np.len images) k) (zip (items images) (items labels))
           ∧ Forall (λ part : batch,
                       same_len part.1 part.2
                       ∧ ∃ indices,
                           paired_selection images labels indices part.1 part.2)
                    [train; val; test]).
Proof.
  split_and!.
  - apply read_source_paired.
  - intros w images labels st images' labels' st' Hlen Hrun.
    split; [by eapply apply_weight_same_len|].
    apply apply_weight_inv in Hrun as [(-> & -> & _)|(indices & Hsel & _)]; [by left|].
    right. by exists indices.
  - intros st self images labels st' Hrun.
    by eapply (load_all_sources_paired params init); [constructor|].
  - intros images labels seed st images' labels' st' Hrun.
    destruct (shuffle_dataset_inv _ _ _ _ _ _ _ Hrun) as (indices & Hperm & Hsel).
    split; [by eapply paired_selection_len|]. by exists indices.
  - intros st train val test st' Hrun.
    destruct (get_data_splits_inv _ _ _ _ _ _ Hrun)
      as (images & labels & I_train & I_val & I_test & Hload & Htr & Hva & Hte & _).
    pose proof (load_combined_dataset_paired _ _ _ _ _ Hload) as Hlen.
    exists images, labels. split; [done|]. split; [done|]. cbv zeta. split_and!.
    + by apply slice_to_same_len.
    + by apply slice_to_zip.
    + assert (∀ part indices,
        paired_selection
          (np.slice_to images
             (Py.int_of_product (np.len images) (TRAINING_PERCENTAGE params)))
          (np.slice_to labels
             (Py.int_of_product (np.len images) (TRAINING_PERCENTAGE params)))
          indices part.1 part.2 →
        same_len part.1 part.2
        ∧ ∃ indices, paired_selection images labels indices part.1 part.2) as Hpart.
      { intros part indices Hsel. split; [by eapply paired_selection_len|].
        exists indices. destruct Hsel as [Hi Hl].
        split; by eapply take_slice_to. }
      repeat constructor; by eapply Hpart.
Qed.
End pairing.

(** ** Class distributions *)

Section class_distribution.
Context (params : Params).

Lemma class_distribution_fold labels n i :
  foldl (λ distribution i,
           if 0 <? np.count_eq labels i
           then <[i := np.count_eq labels i]> distribution else distribution)
        (∅ : gmap nat nat) (seq 0 n) !! i
  = if decide (i < n ∧ 0 < np.count_eq labels i)
    then Some (np.count_eq labels i) else None.
Proof.
  induction n as [|n IH].
  - cbn [seq foldl]. rewrite lookup_empty. case_decide; [lia|done].
  - rewrite seq_S, foldl_snoc. cbn [Nat.add].
    destruct (Nat.ltb_spec 0 (np.count_eq labels n)) as [Hpos|Hzero].
    + destruct (decide (n = i)) as [->|Hne].
      * rewrite lookup_insert_eq. clear IH. case_decide; [done|lia].
      * rewrite lookup_insert_ne, IH by done. clear IH.
        repeat case_decide; (done || lia).
    + rewrite IH. clear IH. repeat case_decide; try (done || lia).
      destruct (decide (i = n)) as [->|]; lia.
Qed.

(** X1.  The reported mapping holds class [i] exactly when [i] is a class index
    below [NB_CLASSES] that occurs among the labels, and then maps it to
    its number of occurrences: absent classes, and labels outside
    [range(NB_CLASSES)], are left out. *)
Theorem get_class_distribution_lookup labels i :
  get_class_distribution params labels !! i
  = if decide (i < NB_CLASSES params ∧ 0 < np.count_eq labels i)
    then Some (np.count_eq labels i) else None.
Proof. apply class_distribution_fold. Qed.

Lemma count_eq_cons dtype shape l ls i :
  np.count_eq (Ndarray shape dtype (l :: ls)) i
  = (if decide (l = Z.of_nat i) then 1 else 0) + np.count_eq (Ndarray shape dtype ls) i.
Proof.
  unfold np.count_eq. simpl. rewrite filter_cons. by case_decide.
Qed.

Lemma sum_list_append (l k : list nat) : sum_list (l ++ k) = sum_list l + sum_list k.
Proof. induction l as [|x l IH]; simpl; lia. Qed.

Lemma sum_indicator (l : Z) n :
  sum_list ((λ i, if decide (l = Z.of_nat i) then 1 else 0) <$> seq 0 n)
  = if decide (0 ≤ l < Z.of_nat n)%Z then 1 else 0.
Proof.
  induction n as [|n IH].
  - simpl. case_decide; [lia|done].
  - rewrite seq_S, fmap_app, sum_list_append, IH. simpl.
    repeat case_decide; lia.
Qed.

Lemma sum_list_fmap_add {A} (f g : A → nat) (l : list A) :
  sum_list ((λ x, f x + g x) <$> l) = sum_list (f <$> l) + sum_list (g <$> l).
Proof. induction l as [|x l IH]; [done|]. rewrite !fmap_cons. simpl. lia. Qed.

Lemma sum_count_eq shape dtype ls n :
  sum_list (np.count_eq (Ndarray shape dtype ls) <$> seq 0 n)
  = length (filter (λ l, (0 ≤ l < Z.of_nat n)%Z) ls).
Proof.
  induction ls as [|l ls IH].
  - rewrite (sum_list_fmap_same 0); [simpl; lia|]. by apply Forall_forall.
  - erewrite (list_fmap_ext _ (λ i, (if decide (l = Z.of_nat i) then 1 else 0)
                                     + np.count_eq (Ndarray shape dtype ls) i));
      [|intros; apply count_eq_cons].
    rewrite (sum_list_fmap_add (λ i, if decide (l = Z.of_nat i) then 1 else 0)
               (np.count_eq (Ndarray shape dtype ls))).
    rewrite sum_indicator, IH, filter_cons.
    by case_decide.
Qed.

(** X2.  The counts of the reported mapping add up to the number of labels
    that lie in [range(NB_CLASSES)]: labels outside that range are in the
    data but in no class of the mapping, so the total can fall short of
    the number of labels, and equals it when every label is in range. *)
Theorem class_distribution_total labels :
  let total :=
    sum_list ((λ i, default 0 (get_class_distribution params labels !! i))
                <$> seq 0 (NB_CLASSES params)) in
  total = length (filter (λ l, (0 ≤ l < Z.of_nat (NB_CLASSES params))%Z) (items labels))
  ∧ total ≤ np.len labels
  ∧ (Forall (λ l, (0 ≤ l < Z.of_nat (NB_CLASSES params))%Z) (items labels) →
     total = np.len labels).
Proof.
  cbv zeta.
  assert (sum_list ((λ i, default 0 (get_class_distribution params labels !! i))
                      <$> seq 0 (NB_CLASSES params))
          = length (filter (λ l, (0 ≤ l < Z.of_nat (NB_CLASSES params))%Z)
                           (items labels))) as Htotal.
  { destruct labels as [shape dtype ls]. simpl.
    rewrite <- (sum_count_eq shape dtype). f_equal.
    apply list_fmap_ext. intros k i Hi.
    assert (get_class_distribution params (Ndarray shape dtype ls) !! i
            = if decide (i < NB_CLASSES params
                         ∧ 0 < np.count_eq (Ndarray shape dtype ls) i)
              then Some (np.count_eq (Ndarray shape dtype ls) i) else None) as ->
      by apply class_distribution_fold.
    case_decide; [done|]. simpl.
    apply lookup_seq in Hi as [-> Hlt]. lia. }
  rewrite Htotal. split; [done|]. split.
  - apply length_filter.
  - intros Hall. unfold np.len. f_equal. clear Htotal.
    induction Hall as [|l ls Hl _ IH]; [done|].
    rewrite filter_cons. case_decide; [by rewrite IH|contradiction].
Qed.
End class_distribution.


(** ** The folder reader: what it returns *)

Section folder_content.
Context `{World} (params : Params).

Lemma load_class_files_spec class_dir c filenames imgs lbls :
  load_class_files class_dir c filenames (imgs, lbls)
  = (imgs ++ decoded_files class_dir filenames,
     lbls ++ replicate (length (decoded_files class_dir filenames)) (Z.of_nat c)).
Proof.
  revert imgs lbls. induction filenames as [|f fs IH]; intros imgs lbls.
  - by rewrite !app_nil_r.
  - change (load_class_files class_dir c (f :: fs) (imgs, lbls))
      with (load_class_files class_dir c fs
              (if has_image_extension f
               then match cv2_imread (Py.path_join class_dir f) with
                    | None => (imgs, lbls)
                    | Some image => (imgs ++ [image], lbls ++ [Z.of_nat c])
                    end
               else (imgs, lbls))).
    change (decoded_files class_dir (f :: fs))
      with (match (if has_image_extension f
                   then cv2_imread (Py.path_join class_dir f) else None) with
            | Some im => im :: decoded_files class_dir fs
            | None => decoded_files class_dir fs
            end).
    destruct (has_image_extension f); [|apply IH].
    destruct (cv2_imread _) as [im|]; [|apply IH].
    rewrite IH. cbn [length replicate]. by rewrite <- !app_assoc.
Qed.

Lemma class_images_missing dataset_path c :
  os_path_exists (Py.path_join dataset_path (Py.str c)) = false →
  class_images dataset_path c = [].
Proof. unfold class_images. by intros ->. Qed.

Lemma class_images_listed dataset_path c filenames :
  os_path_exists (Py.path_join dataset_path (Py.str c)) = true →
  os_listdir (Py.path_join dataset_path (Py.str c)) = Ok filenames →
  class_images dataset_path c
  = decoded_files (Py.path_join dataset_path (Py.str c)) filenames.
Proof. unfold class_images. by intros -> ->. Qed.

(** The loop over the class indices [a, a+1, …, a+n-1]. *)
Lemma folder_loop_spec dataset_path a n imgs lbls imgs' lbls' :
  for_each (λ acc class_label,
              let class_dir := Py.path_join dataset_path (Py.str class_label) in
              if negb (os_path_exists class_dir) then Ok acc
              else
                filenames ← os_listdir class_dir;
                Ok (load_class_files class_dir class_label filenames acc))
           (seq a n) (imgs, lbls) = Ok (imgs', lbls') →
  imgs' = imgs ++ mjoin (class_images dataset_path <$> seq a n)
  ∧ lbls' = lbls ++ mjoin ((λ c, replicate (length (class_images dataset_path c))
                                            (Z.of_nat c)) <$> seq a n).
Proof.
  revert a imgs lbls. induction n as [|n IH]; intros a imgs lbls Hrun.
  - injection Hrun as <- <-. by rewrite !app_nil_r.
  - cbn [seq for_each] in Hrun.
    apply bind_Ok_inv in Hrun as ([imgs1 lbls1] & Hbody & Hrun).
    apply IH in Hrun as [-> ->]. cbn [seq fmap list_fmap mjoin list_join].
    cbv zeta in Hbody.
    destruct (os_path_exists (Py.path_join dataset_path (Py.str a))) eqn:Hex;
      simpl in Hbody.
    + apply bind_Ok_inv in Hbody as (filenames & Hls & Hbody).
      rewrite load_class_files_spec in Hbody. injection Hbody as <- <-.
      rewrite (class_images_listed _ _ _ Hex Hls). by rewrite <- !app_assoc.
    + injection Hbody as <- <-. by rewrite (class_images_missing _ _ Hex).
Qed.

Lemma array_of_images_items l a :
  np.array_of_images l = Ok a → items a = im_data <$> l.
Proof.
  destruct l as [|im l]; simpl; [by intros [= <-]|].
  case_match; [|done]. by intros [= <-].
Qed.

Lemma array_of_ints_items l : items (np.array_of_ints l) = l.
Proof. by destruct l. Qed.

Lemma load_folder_structure_items dataset_path images labels :
  load_folder_structure params dataset_path = Ok (images, labels) →
  os_path_exists dataset_path = true →
  items images
  = im_data <$> mjoin (class_images dataset_path <$> seq 0 (NB_CLASSES params))
  ∧ items labels
    = mjoin ((λ c, replicate (length (class_images dataset_path c)) (Z.of_nat c))
               <$> seq 0 (NB_CLASSES params)).
Proof.
  unfold load_folder_structure. intros Hrun Hroot. rewrite Hroot in Hrun.
  simpl in Hrun.
  apply bind_Ok_inv in Hrun as ([imgs lbls] & Hloop & Hrun).
  apply bind_Ok_inv in Hrun as (a & Harr & [= <- <-]).
  apply folder_loop_spec in Hloop as [-> ->].
  by rewrite (array_of_images_items _ _ Harr), array_of_ints_items.
Qed.

Lemma class_images_from_file dataset_path c im :
  im ∈ class_images dataset_path c ↔ from_class_file dataset_path c im.
Proof.
  unfold class_images, from_class_file. cbv zeta.
  destruct (os_path_exists _) eqn:Hex.
  - destruct (os_listdir _) as [filenames|e] eqn:Hls.
    + unfold decoded_files. rewrite list_elem_of_omap. split.
      * intros (f & Hf & Him). exists filenames, f.
        destruct (has_image_extension f) eqn:Hext; [done|discriminate].
      * intros (fs & f & _ & [= <-] & Hf & Hext & Him). exists f.
        by rewrite Hext.
    + split; [by intros ?%elem_of_nil|]. by intros (fs & f & _ & ? & _).
  - split; [by intros ?%elem_of_nil|]. by intros (fs & f & ? & _).
Qed.

(** X3.  Soundness: every (image, label) pair the folder reader returns is a
    decoded file of a class directory paired with the index of that
    class, and the class index is below [NB_CLASSES].  Files without an
    image extension, undecodable files and missing class directories
    contribute nothing. *)
Theorem load_folder_structure_sound dataset_path images labels :
  load_folder_structure params dataset_path = Ok (images, labels) →
  Forall2 (λ px label,
             ∃ c im, c < NB_CLASSES params ∧ label = Z.of_nat c
                     ∧ px = im_data im ∧ from_class_file dataset_path c im)
          (items images) (items labels).
Proof.
  intros Hrun. destruct (os_path_exists dataset_path) eqn:Hroot.
  - destruct (load_folder_structure_items _ _ _ Hrun Hroot) as [-> ->].
    assert (∀ cs, Forall (λ c, c < NB_CLASSES params) cs →
      Forall2 (λ px label,
                 ∃ c im, c < NB_CLASSES params ∧ label = Z.of_nat c
                         ∧ px = im_data im ∧ from_class_file dataset_path c im)
        (im_data <$> mjoin (class_images dataset_path <$> cs))
        (mjoin ((λ c, replicate (length (class_images dataset_path c)) (Z.of_nat c))
                  <$> cs))) as Hgen.
    { induction 1 as [|c cs Hc _ IH]; [constructor|].
      cbn [fmap list_fmap mjoin list_join]. rewrite fmap_app.
      apply Forall2_app; [|exact IH].
      assert (∀ l, (∀ im, im ∈ l → im ∈ class_images dataset_path c) →
                   Forall2 (λ px label,
                     ∃ c im, c < NB_CLASSES params ∧ label = Z.of_nat c
                             ∧ px = im_data im ∧ from_class_file dataset_path c im)
                     (im_data <$> l) (replicate (length l) (Z.of_nat c))) as Hl.
      { induction l as [|im l IHl]; intros Hsub; [constructor|].
        cbn. constructor.
        - exists c, im. split_and!; try done.
          apply class_images_from_file, Hsub. by left.
        - apply IHl. intros im' Him'. apply Hsub. by right. }
      by apply Hl. }
    apply Hgen, Forall_forall. intros c Hc%elem_of_seq. lia.
  - unfold load_folder_structure in Hrun. rewrite Hroot in Hrun.
    injection Hrun as <- <-. constructor.
Qed.

(** X4.  Completeness: when the root exists and the reader returns, every
    decodable image file of every class directory [0 … NB_CLASSES-1] is in
    the result, paired with its class index. *)
Theorem load_folder_structure_complete dataset_path images labels c im :
  load_folder_structure params dataset_path = Ok (images, labels) →
  os_path_exists dataset_path = true →
  c < NB_CLASSES params →
  from_class_file dataset_path c im →
  (im_data im, Z.of_nat c) ∈ zip (items images) (items labels).
Proof.
  intros Hrun Hroot Hc Hfile%class_images_from_file.
  destruct (load_folder_structure_items _ _ _ Hrun Hroot) as [-> ->].
  assert (∀ cs, c ∈ cs →
    (im_data im, Z.of_nat c)
    ∈ zip (im_data <$> mjoin (class_images dataset_path <$> cs))
          (mjoin ((λ c, replicate (length (class_images dataset_path c)) (Z.of_nat c))
                    <$> cs))) as Hgen.
  { induction cs as [|c' cs IH]; [by intros ?%elem_of_nil|].
    intros Hin. cbn [fmap list_fmap mjoin list_join]. rewrite fmap_app.
    rewrite zip_with_app by by rewrite length_fmap, length_replicate.
    apply elem_of_app. apply elem_of_cons in Hin as [<-|Hin]; [left|right; by apply IH].
    clear IH. induction (class_images dataset_path c) as [|im' l IHl];
      [by apply elem_of_nil in Hfile|].
    cbn. apply elem_of_cons in Hfile as [<-|Hfile]; [by left|].
    right. by apply IHl. }
  apply Hgen, elem_of_seq. lia.
Qed.

Lemma blocks_sorted (k : nat → nat) a n i j li lj :
  let L := mjoin ((λ c, replicate (k c) (Z.of_nat c)) <$> seq a n) in
  i ≤ j → L !! i = Some li → L !! j = Some lj →
  (Z.of_nat a ≤ li ≤ lj)%Z ∧ (lj < Z.of_nat (a + n))%Z.
Proof.
  cbv zeta. revert a i j li lj.
  induction n as [|n IH]; intros a i j li lj Hij Hi Hj; [done|].
  cbn [seq fmap list_fmap mjoin list_join] in Hi, Hj.
  apply lookup_app_Some in Hi as [Hi|[Hi1 Hi]], Hj as [Hj|[Hj1 Hj]].
  - apply lookup_replicate in Hi as [-> _], Hj as [-> _]. lia.
  - apply lookup_replicate in Hi as [-> _].
    destruct (IH (S a) _ _ _ _ (Nat.le_refl _) Hj Hj) as [? ?]. lia.
  - apply lookup_replicate in Hj as [_ Hj]. rewrite length_replicate in Hi1. lia.
  - assert (i - length (replicate (k a) (Z.of_nat a))
            ≤ j - length (replicate (k a) (Z.of_nat a))) as Hle by lia.
    destruct (IH (S a) _ _ _ _ Hle Hi Hj) as [? ?]. lia.
Qed.

(** X5.  The labels the folder reader returns are class indices in
    [range(NB_CLASSES)] and come class by class in non-decreasing order:
    all images of class 0 first, then class 1, and so on. *)
Theorem load_folder_structure_labels_sorted dataset_path images labels i j li lj :
  load_folder_structure params dataset_path = Ok (images, labels) →
  i ≤ j →
  items labels !! i = Some li →
  items labels !! j = Some lj →
  (0 ≤ li ≤ lj)%Z ∧ (lj < Z.of_nat (NB_CLASSES params))%Z.
Proof.
  intros Hrun Hij Hi Hj. destruct (os_path_exists dataset_path) eqn:Hroot.
  - destruct (load_folder_structure_items _ _ _ Hrun Hroot) as [_ Hl].
    rewrite Hl in Hi, Hj.
    destruct (blocks_sorted _ 0 _ _ _ _ _ Hij Hi Hj) as [? ?]. lia.
  - unfold load_folder_structure in Hrun. rewrite Hroot in Hrun.
    injection Hrun as <- <-. done.
Qed.
End folder_content.


(** ** The manifest reader: what it returns *)

Section label_file_content.
Context `{World}.

Lemma line_pair_well_formed images_dir line im label :
  line_pair images_dir line = Some (im, label)
  ↔ well_formed_line images_dir line im label.
Proof.
  unfold line_pair, well_formed_line. split.
  - destruct (Py.tokens line) as [|filename [|token rest]];
      [intros; discriminate..|].
    destruct (Py.int token) as [lb|] eqn:Hint; [|intros; discriminate].
    destruct (os_path_exists _) eqn:Hex; [|intros; discriminate].
    destruct (cv2_imread _) as [im'|] eqn:Him; [|intros; discriminate].
    intros [= <- <-]. by exists filename, token, rest.
  - intros (filename & token & rest & -> & -> & -> & ->). done.
Qed.

Lemma load_label_line_spec images_dir imgs lbls line acc' :
  load_label_line images_dir (imgs, lbls) line = Ok acc' →
  acc' = (imgs ++ (omap (line_pair images_dir) [line]).*1,
          lbls ++ (omap (line_pair images_dir) [line]).*2).
Proof.
  unfold load_label_line, line_pair. simpl.
  destruct (Py.tokens line) as [|filename [|token rest]];
    [intros [= <-]; simpl; by rewrite !app_nil_r..|].
  destruct (Py.int token) as [lb|]; [|done]. simpl.
  destruct (os_path_exists _); [|intros [= <-]; simpl; by rewrite !app_nil_r].
  destruct (cv2_imread _); intros [= <-]; simpl; [done|by rewrite !app_nil_r].
Qed.

Lemma manifest_loop_spec images_dir lines imgs lbls imgs' lbls' :
  for_each (load_label_line images_dir) lines (imgs, lbls) = Ok (imgs', lbls') →
  imgs' = imgs ++ (omap (line_pair images_dir) lines).*1
  ∧ lbls' = lbls ++ (omap (line_pair images_dir) lines).*2.
Proof.
  revert imgs lbls. induction lines as [|line lines IH]; intros imgs lbls Hrun.
  - injection Hrun as <- <-. by rewrite !app_nil_r.
  - cbn [for_each] in Hrun. apply bind_Ok_inv in Hrun as (acc1 & Hline & Hrun).
    apply load_label_line_spec in Hline as ->.
    apply IH in Hrun as [-> ->].
    change (line :: lines) with ([line] ++ lines).
    by rewrite omap_app, !fmap_app, <- !app_assoc.
Qed.

(** X6.  For an ASCII manifest whose lines have at most 4300 characters
    and whose labels fit 64 bits (where the model reads a line as Python
    does): when the manifest reader returns on an existing manifest and
    images directory, it returns exactly the pairs of the well-formed
    lines, in manifest order and as often as the manifest names them: a
    pair is yielded by a line exactly when the line has at least two
    tokens, an integer second token and an existing, decodable file;
    tokens after the second are ignored. *)
Theorem load_label_file_dataset_content dataset_path lines images labels :
  os_path_exists (Py.path_join dataset_path "labels.txt") = true →
  os_path_exists (Py.path_join dataset_path "images") = true →
  readlines (Py.path_join dataset_path "labels.txt") = Ok lines →
  Forall (λ line, Py.is_ascii line = true ∧ String.length line ≤ 4300) lines →
  load_label_file_dataset dataset_path = Ok (images, labels) →
  Forall np.int64 (items labels) →
  let pairs := omap (line_pair (Py.path_join dataset_path "images")) lines in
  items images = im_data <$> pairs.*1
  ∧ items labels = pairs.*2
  ∧ ∀ line im label,
      line_pair (Py.path_join dataset_path "images") line = Some (im, label)
      ↔ well_formed_line (Py.path_join dataset_path "images") line im label.
Proof.
  intros Hf Hd Hlines _ Hrun _. cbv zeta. unfold load_label_file_dataset in Hrun.
  rewrite Hf, Hd, Hlines in Hrun. simpl in Hrun.
  apply bind_Ok_inv in Hrun as ([imgs lbls] & Hloop & Hrun).
  apply bind_Ok_inv in Hrun as (a & Harr & [= <- <-]).
  apply manifest_loop_spec in Hloop as [-> ->]. simpl.
  split_and!.
  - by rewrite (array_of_images_items _ _ Harr).
  - by rewrite array_of_ints_items.
  - intros. apply line_pair_well_formed.
Qed.

End label_file_content.

(** ** The builtin reader: what it returns *)

Section builtin_content.
Context `{World} (params : Params).

(** X7.  For any spelling of the name [mnist] (the comparison is on the
    lower-cased name) and a successful download, the builtin reader
    returns: the training samples followed by the test samples, labels
    likewise; 8-bit images of shape 28×28×1 when [USE_GRAYSCALE] is set
    and 28×28×3 otherwise, each grey value repeated for the three
    channels. *)
Theorem load_builtin_dataset_content dataset_name x_train y_train x_test y_test :
  String.eqb (Py.lower dataset_name) "mnist" = true →
  mnist_load_data = Ok ((x_train, y_train), (x_test, y_test)) →
  ∃ images labels,
    load_builtin_dataset params dataset_name = Ok (images, labels)
    ∧ np.len images = np.len x_train + np.len x_test
    ∧ items labels = items y_train ++ items y_test
    ∧ item_shape images = [28; 28; if USE_GRAYSCALE params then 1 else 3]
    ∧ dtype_of images = UInt8
    ∧ items images
      = if USE_GRAYSCALE params then items x_train ++ items x_test
        else (λ px, px ≫= λ v, [v; v; v]) <$> (items x_train ++ items x_test).
Proof.
  intros Hname Hdata.
  destruct (mnist_shape _ _ _ _ Hdata) as (Hx1 & Hx2 & Hd1 & Hd2 & Hy1 & Hy2).
  unfold load_builtin_dataset. rewrite Hname, Hdata. simpl.
  rewrite Hx1, Hx2, Hy1, Hy2, Hd1, Hd2. simpl.
  eexists _, _. split; [done|].
  destruct (USE_GRAYSCALE params); simpl; unfold np.len; simpl;
    rewrite ?length_fmap, ?length_app, ?app_nil_r; simpl; split_and!; (done || lia).
Qed.
End builtin_content.


(** ** The aggregator without subsampling *)

Section unweighted_sources.
Context `{NumpyRandom} `{Sklearn} `{World} (params : Params).

Lemma unweighted_default source_config :
  unweighted source_config → (1 <= default 1%Q (weight source_config))%Q.
Proof.
  intros Hu. destruct (weight source_config) as [w|] eqn:Hw; simpl; [by apply Hu|].
  apply Qle_refl.
Qed.

(** X8.  A source without a weight, or with a weight of one or more, is
    appended exactly as its reader returned it and recorded with its full
    count: weights above one do not oversample, and the generator is not
    touched. *)
Theorem load_source_unweighted self source_config images labels st :
  read_source params source_config = Some (Ok (images, labels)) →
  0 < np.len images →
  unweighted source_config →
  load_source params self source_config st
  = Ok (Loader (all_images self ++ [images]) (all_labels self ++ [labels])
               (<[name source_config :=
                    MkStats (np.len images) (get_class_distribution params labels)]>
                  (source_stats self)),
        st).
Proof.
  intros Hread Hn Hu%unweighted_default.
  rewrite (load_source_run _ _ _ images labels) by done.
  by rewrite apply_weight_unchanged.
Qed.

Lemma reader_batch_skipped source_config :
  skipped params source_config → reader_batch params source_config = None.
Proof.
  unfold reader_batch. intros [->|(images & labels & -> & ->)]; done.
Qed.

Lemma reader_batch_contributes source_config images labels :
  read_source params source_config = Some (Ok (images, labels)) →
  0 < np.len images →
  reader_batch params source_config = Some (images, labels).
Proof.
  unfold reader_batch. intros -> Hn.
  destruct (Nat.eqb_spec (np.len images) 0); [lia|done].
Qed.

Lemma sources_loop_unweighted sources self st self' st' :
  Forall unweighted sources →
  for_each_M (load_source params) sources self st = Ok (self', st') →
  st' = st
  ∧ all_images self' = all_images self ++ (omap (reader_batch params) sources).*1
  ∧ all_labels self' = all_labels self ++ (omap (reader_batch params) sources).*2.
Proof.
  intros Hu. revert self st.
  induction Hu as [|cfg sources Hcfg _ IH]; intros self st Hrun.
  - injection Hrun as <- <-. by rewrite !app_nil_r.
  - cbn [for_each_M] in Hrun.
    apply M_bind_Ok_inv in Hrun as (s1 & st1 & Hx & Hrun).
    apply IH in Hrun as (-> & -> & ->).
    change (cfg :: sources) with ([cfg] ++ sources). rewrite omap_app, !fmap_app.
    apply load_source_inv in Hx
      as [(Hskip & -> & ->)|(images & labels & i' & l' & Hread & Hn & Hw & ->)].
    + simpl. by rewrite (reader_batch_skipped _ Hskip).
    + rewrite apply_weight_unchanged in Hw by by apply unweighted_default.
      injection Hw as <- <- <-. simpl.
      rewrite (reader_batch_contributes _ _ _ Hread Hn). simpl.
      by rewrite <- !app_assoc.
Qed.

Lemma load_all_sources_unweighted_batches st self images labels st' :
  Forall unweighted (DATA_SOURCES params) →
  load_all_sources params init st = Ok ((self, (images, labels)), st') →
  st' = st
  ∧ all_images self = (omap (reader_batch params) (DATA_SOURCES params)).*1
  ∧ all_labels self = (omap (reader_batch params) (DATA_SOURCES params)).*2.
Proof.
  intros Hu Hrun.
  destruct (for_each_M (load_source params) (DATA_SOURCES params) init st)
    as [[s1 st1]|e] eqn:Hloop;
    [|by rewrite (load_all_sources_loop_Raise _ _ _ _ Hloop) in Hrun].
  rewrite (load_all_sources_run _ _ _ _ _ Hloop) in Hrun.
  apply sources_loop_unweighted in Hloop as (-> & Hi & Hl); [|done].
  simpl in Hi, Hl.
  destruct (length (all_images s1) =? 0).
  - by apply bind_Ok_inv in Hrun as (b & _ & [= <- _ <-]).
  - apply bind_Ok_inv in Hrun as (ci & Hci & Hrun).
    by apply bind_Ok_inv in Hrun as (cl & Hcl & [= <- <- <- <-]).
Qed.

(** X9.  When no configured source is subsampled, the combined corpus is the
    concatenation, in declaration order, of what the readers of the
    non-skipped sources returned (all samples of the first source precede
    those of the second, and so on), and loading leaves the generator
    state as it found it. *)
Theorem load_all_sources_declaration_order st self images labels st' :
  Forall unweighted (DATA_SOURCES params) →
  load_all_sources params init st = Ok ((self, (images, labels)), st') →
  let batches := omap (reader_batch params) (DATA_SOURCES params) in
  st' = st
  ∧ all_images self = batches.*1
  ∧ all_labels self = batches.*2
  ∧ (batches ≠ [] →
     items images = mjoin (items <$> batches.*1)
     ∧ items labels = mjoin (items <$> batches.*2)).
Proof.
  intros Hu Hrun. cbv zeta.
  destruct (for_each_M (load_source params) (DATA_SOURCES params) init st)
    as [[s1 st1]|e] eqn:Hloop;
    [|by rewrite (load_all_sources_loop_Raise _ _ _ _ Hloop) in Hrun].
  rewrite (load_all_sources_run _ _ _ _ _ Hloop) in Hrun.
  apply sources_loop_unweighted in Hloop as (-> & Hi & Hl); [|done].
  simpl in Hi, Hl.
  destruct (Nat.eqb_spec (length (all_images s1)) 0) as [Hz|Hnz].
  - apply bind_Ok_inv in Hrun as (b & _ & [= <- _ <-]).
    split_and!; [done..|]. intros Hne. exfalso. apply Hne.
    apply nil_length_inv in Hz. rewrite Hi in Hz.
    by apply fmap_nil_inv in Hz.
  - apply bind_Ok_inv in Hrun as (ci & Hci & Hrun).
    apply bind_Ok_inv in Hrun as (cl & Hcl & [= <- <- <- <-]).
    split_and!; [done..|]. intros _.
    by rewrite (concatenate_items _ _ Hci), (concatenate_items _ _ Hcl), Hi, Hl.
Qed.

Lemma load_source_state_free self source_config :
  unweighted source_config →
  ∃ r : result MultiSourceDataLoader,
    ∀ st, load_source params self source_config st = lift r st.
Proof.
  intros Hu.
  destruct (read_source params source_config) as [[[images labels]|e]|] eqn:Hread.
  - destruct (Nat.eq_dec (np.len images) 0) as [Hn|Hn].
    + exists (Ok self). intros st. apply load_source_skipped. right. eauto.
    + eexists (Ok _). intros st. simpl.
      rewrite (load_source_run _ _ _ images labels) by (done || lia).
      by rewrite apply_weight_unchanged by by apply unweighted_default.
  - exists (Raise e). intros st. unfold load_source. by rewrite Hread.
  - exists (Ok self). intros st. apply load_source_skipped. by left.
Qed.

Lemma sources_loop_state_free sources self :
  Forall unweighted sources →
  ∃ r : result MultiSourceDataLoader,
    ∀ st, for_each_M (load_source params) sources self st = lift r st.
Proof.
  intros Hu. revert self. induction Hu as [|cfg sources Hcfg _ IH]; intros self.
  - by exists (Ok self).
  - destruct (load_source_state_free self cfg Hcfg) as [[s1|e] Hr1].
    + destruct (IH s1) as [r Hr]. exists r. intros st. cbn [for_each_M].
      unfold mbind, M_bind. rewrite Hr1. simpl. apply Hr.
    + exists (Raise e). intros st. cbn [for_each_M].
      unfold mbind, M_bind. by rewrite Hr1.
Qed.

Lemma shuffle_dataset_state_free {A B} (images : ndarray A) (labels : ndarray B)
    seed st0 st1 :
  shuffle_dataset images labels seed st0 = shuffle_dataset images labels seed st1.
Proof.
  destruct (seed_state seed) as [s|] eqn:Hs.
  - by rewrite !(shuffle_dataset_run _ _ _ _ s Hs).
  - by rewrite !shuffle_dataset_bad_seed.
Qed.

(** X10.  Reproducibility: when no configured source is subsampled, the whole
    pipeline does not depend on the state the generator is in when it
    starts: two runs return the same partitions (or raise the same
    exception) and leave the same generator state. *)
Theorem get_data_splits_reproducible st0 st1 :
  Forall unweighted (DATA_SOURCES params) →
  load_combined_dataset params st0 = load_combined_dataset params st1
  ∧ get_data_splits params st0 = get_data_splits params st1.
Proof.
  intros Hu.
  assert (load_combined_dataset params st0 = load_combined_dataset params st1) as Heq.
  { destruct (sources_loop_state_free _ init Hu) as [r Hr].
    unfold load_combined_dataset, load_all_sources, mbind, M_bind.
    rewrite !Hr. destruct r as [s|e]; simpl; [|done].
    destruct (length (all_images s) =? 0).
    - destruct (load_mnist_fallback params) as [[i l]|e]; simpl; [|done].
      apply shuffle_dataset_state_free.
    - destruct (np.concatenate (all_images s)) as [ci|e]; simpl; [|done].
      destruct (np.concatenate (all_labels s)) as [cl|e]; simpl; [|done].
      apply shuffle_dataset_state_free. }
  split; [done|]. unfold get_data_splits, mbind, M_bind. by rewrite Heq.
Qed.
End unweighted_sources.


(** ** The aggregator: failures *)

Section aggregator_failures.
Context `{NumpyRandom} `{Sklearn} `{World} (params : Params).

Lemma for_each_M_app {A S G} (body : S → A → M G S) l1 l2 s st :
  for_each_M body (l1 ++ l2) s st
  = (for_each_M body l1 s ≫= for_each_M body l2) st.
Proof.
  revert s st. induction l1 as [|x l1 IH]; intros s st; [done|].
  cbn [app for_each_M]. unfold mbind, M_bind in *.
  destruct (body s x st) as [[s1 st1]|e]; [apply IH|done].
Qed.

(** X11.  The loop has no handler around the readers: when the reader of a
    source raises (the manifest holds a non-integer label, a class
    directory cannot be listed, images of one source differ in shape, the
    download fails), the sources before it having loaded, the exception
    leaves [load_all_sources] and [get_data_splits]; the sources after it
    are never read and nothing falls back to the builtin corpus. *)
Theorem reader_exception_aborts before source_config after self1 st st1 e :
  DATA_SOURCES params = before ++ source_config :: after →
  for_each_M (load_source params) before init st = Ok (self1, st1) →
  read_source params source_config = Some (Raise e) →
  load_all_sources params init st = Raise e
  ∧ get_data_splits params st = Raise e.
Proof.
  intros Hsrc Hbefore Hread.
  assert (load_all_sources params init st = Raise e) as Hload.
  { apply load_all_sources_loop_Raise. rewrite Hsrc, for_each_M_app.
    rewrite (M_bind_Ok _ _ _ _ _ Hbefore). cbn [for_each_M].
    apply M_bind_Raise. unfold load_source. by rewrite Hread. }
  split; [done|]. apply get_data_splits_load_Raise.
  unfold load_combined_dataset. by apply M_bind_Raise.
Qed.

Lemma sources_loop_all_skipped sources self st :
  Forall (skipped params) sources →
  for_each_M (load_source params) sources self st = Ok (self, st).
Proof.
  induction 1 as [|cfg sources Hcfg _ IH]; [done|].
  cbn [for_each_M]. by rewrite (M_bind_Ok _ _ _ _ _ (load_source_skipped _ _ _ _ Hcfg)).
Qed.

(** X12.  When every configured source is skipped and the builtin corpus cannot
    be downloaded either, [load_all_sources] raises what the download
    raised: there is no second fallback and no empty corpus. *)
Theorem fallback_unavailable_raises st e :
  Forall (skipped params) (DATA_SOURCES params) →
  mnist_load_data = Raise e →
  load_all_sources params init st = Raise e.
Proof.
  intros Hskip Hdata.
  rewrite (load_all_sources_run _ _ _ _ _ (sources_loop_all_skipped _ init st Hskip)).
  simpl. unfold load_mnist_fallback, load_builtin_dataset. simpl. by rewrite Hdata.
Qed.

(** X13.  A source whose path is missing is a soft failure: a folder source
    whose root does not exist, and a manifest source without its
    [labels.txt] or its [images] directory, are skipped; the loader and
    the generator stay as they were and nothing is listed, opened or
    decoded. *)
Theorem missing_path_is_skipped self source_config st :
  (type source_config = "folder_structure"
   ∧ os_path_exists (path source_config) = false)
  ∨ (type source_config = "label_file"
     ∧ (os_path_exists (Py.path_join (path source_config) "labels.txt") = false
        ∨ os_path_exists (Py.path_join (path source_config) "images") = false)) →
  load_source params self source_config st = Ok (self, st).
Proof.
  intros Hmissing. apply load_source_skipped. right. exists np.empty, np.empty.
  split; [|done]. unfold read_source.
  destruct Hmissing as [[-> Hroot]|[-> Hm]]; simpl.
  - unfold load_folder_structure. by rewrite Hroot.
  - unfold load_label_file_dataset.
    destruct Hm as [-> | ->]; [done|]. by rewrite orb_true_r.
Qed.

End aggregator_failures.


(** ** The aggregator: statistics and shapes *)

Section aggregator_state.
Context `{NumpyRandom} `{World} (params : Params).

Lemma aligned_init : aligned init.
Proof. constructor. Qed.

Lemma load_source_stats self source_config st self' st' :
  aligned self →
  stats_describe_batches params self →
  size (source_stats self) ≤ length (all_images self) →
  load_source params self source_config st = Ok (self', st') →
  stats_describe_batches params self'
  ∧ size (source_stats self') ≤ length (all_images self')
  ∧ ∀ nm, is_Some (source_stats self' !! nm)
          ↔ is_Some (source_stats self !! nm)
            ∨ (¬ skipped params source_config ∧ name source_config = nm).
Proof.
  intros Hal Hdesc Hsize
    [(Hskip & -> & _)|(images & labels & i' & l' & Hread & Hn & Hw & ->)]%load_source_inv.
  - split; [done|]. split; [done|]. intros nm. split; [by left|].
    by intros [?|[? _]].
  - assert (¬ skipped params source_config) as Hns.
    { intros [Hnone|(i0 & l0 & Hsome & Hz)]; simplify_eq. lia. }
    pose proof (Forall2_length _ _ _ Hal) as Hlen.
    split_and!.
    + intros nm s. cbn [source_stats all_images all_labels].
      destruct (decide (name source_config = nm)) as [<-|Hne].
      * rewrite lookup_insert_eq. intros [= <-].
        exists (length (all_images self)), i', l'. split_and!; [| |done..].
        -- by rewrite list_lookup_middle.
        -- by rewrite list_lookup_middle.
      * rewrite lookup_insert_ne by done. intros Hs.
        destruct (Hdesc _ _ Hs) as (k & im & lb & Hi & Hl & Hc & Hd).
        exists k, im, lb. split_and!; [| |done..]; by apply lookup_app_l_Some.
    + cbn [source_stats all_images]. rewrite length_app. simpl.
      destruct (source_stats self !! name source_config) as [s|] eqn:Hs.
      * rewrite map_size_insert_Some by done. lia.
      * rewrite map_size_insert_None by done. lia.
    + intros nm. cbn [source_stats].
      destruct (decide (name source_config = nm)) as [<-|Hne].
      * rewrite lookup_insert_eq. split; [by right|by eexists].
      * rewrite lookup_insert_ne by done. split; [by left|].
        by intros [?|[_ ?]].
Qed.

Lemma sources_loop_stats sources self st self' st' :
  aligned self →
  stats_describe_batches params self →
  size (source_stats self) ≤ length (all_images self) →
  for_each_M (load_source params) sources self st = Ok (self', st') →
  stats_describe_batches params self'
  ∧ size (source_stats self') ≤ length (all_images self')
  ∧ ∀ nm, is_Some (source_stats self' !! nm)
          ↔ is_Some (source_stats self !! nm)
            ∨ ∃ cfg, cfg ∈ sources ∧ ¬ skipped params cfg ∧ name cfg = nm.
Proof.
  revert self st. induction sources as [|cfg sources IH]; intros self st Hal Hd Hs Hrun.
  - injection Hrun as <- _. split; [done|]. split; [done|].
    intros nm. split; [by left|]. intros [?|(cfg & ?%elem_of_nil & _)]; done.
  - cbn [for_each_M] in Hrun.
    apply M_bind_Ok_inv in Hrun as (s1 & st1 & Hx & Hrun).
    pose proof (load_source_aligned _ _ _ _ _ _ Hal Hx) as Hal1.
    destruct (load_source_stats _ _ _ _ _ Hal Hd Hs Hx) as (Hd1 & Hs1 & Hdom1).
    destruct (IH _ _ Hal1 Hd1 Hs1 Hrun) as (Hd' & Hs' & Hdom').
    split; [done|]. split; [done|]. intros nm. rewrite Hdom', Hdom1. split.
    + intros [[?|[Hns Hnm]]|(c & Hc & Hns & Hnm)].
      * by left.
      * right. exists cfg. split; [by left|done].
      * right. exists c. split; [by right|done].
    + intros [?|(c & [->|Hc]%elem_of_cons & Hns & Hnm)].
      * left. by left.
      * left. by right.
      * right. by exists c.
Qed.

(** X15.  After the loop over the sources of a fresh loader, the statistics
    hold an entry exactly for the names of the sources that were not
    skipped; every entry gives the length and the class distribution of
    one accumulated batch; and, as a later source overwrites the entry of
    an earlier one with the same name, there are at most as many entries
    as accumulated batches. *)
Theorem source_stats_describe_batches st self' st' :
  for_each_M (load_source params) (DATA_SOURCES params) init st = Ok (self', st') →
  (∀ nm, is_Some (source_stats self' !! nm)
         ↔ ∃ cfg, cfg ∈ DATA_SOURCES params ∧ ¬ skipped params cfg ∧ name cfg = nm)
  ∧ (∀ nm s, source_stats self' !! nm = Some s →
       ∃ k images labels,
         all_images self' !! k = Some images
         ∧ all_labels self' !! k = Some labels
         ∧ count s = np.len images
         ∧ class_distribution s = get_class_distribution params labels)
  ∧ size (source_stats self') ≤ length (all_images self').
Proof.
  intros Hrun.
  destruct (sources_loop_stats _ init st _ _ aligned_init
              ltac:(by intros ?? ?) ltac:(done) Hrun) as (Hd & Hs & Hdom).
  split_and!; [|done..]. intros nm. rewrite Hdom. simpl.
  rewrite lookup_empty. split; [|by right].
  by intros [[? [=]]|?].
Qed.

Lemma concatenate_Ok_iff {A} (arrays : list (ndarray A)) :
  (∃ c, np.concatenate arrays = Ok c)
  ↔ arrays ≠ [] ∧ ∀ a b, a ∈ arrays → b ∈ arrays → item_shape a = item_shape b.
Proof.
  destruct arrays as [|x rest]; simpl.
  - split; [by intros [? ?]|by intros [? _]].
  - destruct (forallb _ rest) eqn:Hall.
    + split; [|by eexists]. intros _. split; [done|].
      assert (∀ a, a ∈ x :: rest → item_shape a = item_shape x) as Hx.
      { intros a [->|Ha]%elem_of_cons; [done|].
        eapply forallb_forall in Hall; [|by apply list_elem_of_In].
        by apply bool_decide_eq_true in Hall. }
      intros a b Ha Hb. by rewrite (Hx a Ha), (Hx b Hb).
    + split; [by intros [? ?]|]. intros [_ Hsame]. exfalso.
      apply not_true_iff_false in Hall. apply Hall, forallb_forall.
      intros b Hb%list_elem_of_In. apply bool_decide_eq_true.
      apply Hsame; [by right|by left].
Qed.

Lemma concatenate_Raise {A} (arrays : list (ndarray A)) e :
  np.concatenate arrays = Raise e → e = ValueError.
Proof. destruct arrays; simpl; [|case_match]; by intros [= <-]. Qed.

(** X16.  There is no conversion to a common shape before merging: when two
    accumulated image batches differ in item shape (two folder sources
    with images of different sizes, or a folder source beside the builtin
    corpus), [load_all_sources] raises [ValueError] instead of returning a
    corpus. *)
Theorem mismatched_shapes_raise self st self' st' a b :
  for_each_M (load_source params) (DATA_SOURCES params) self st = Ok (self', st') →
  a ∈ all_images self' → b ∈ all_images self' →
  item_shape a ≠ item_shape b →
  load_all_sources params self st = Raise ValueError.
Proof.
  intros Hloop Ha Hb Hne. rewrite (load_all_sources_run _ _ _ _ _ Hloop).
  destruct (all_images self') as [|x rest] eqn:Himgs; [by apply elem_of_nil in Ha|].
  cbn [length Nat.eqb]. rewrite <- Himgs in *.
  destruct (np.concatenate (all_images self')) as [c|e] eqn:Hc.
  - exfalso. apply Hne.
    assert (∃ c, np.concatenate (all_images self') = Ok c) as Hex by by exists c.
    apply concatenate_Ok_iff in Hex as [_ Hsame]. by apply Hsame.
  - simpl. by apply concatenate_Raise in Hc as ->.
Qed.

Lemma apply_weight_shapes (w : Q) images labels st images' labels' st' :
  apply_weight w (images, labels) st = Ok ((images', labels'), st') →
  item_shape images' = item_shape images ∧ dtype_of images' = dtype_of images
  ∧ item_shape labels' = item_shape labels.
Proof.
  intros [(-> & -> & _)|(indices & [Hi Hl] & _)]%apply_weight_inv; [done|].
  apply take_Ok_inv in Hi as (_ & ? & ?), Hl as (_ & ? & _). done.
Qed.

Lemma sources_loop_label_shapes sources self st self' st' :
  Forall (λ l, item_shape l = []) (all_labels self) →
  for_each_M (load_source params) sources self st = Ok (self', st') →
  Forall (λ l, item_shape l = []) (all_labels self').
Proof.
  intros Hl Hrun.
  refine (for_each_M_invariant
            (λ s, Forall (λ l, item_shape l = []) (all_labels s)) _ _ _ _ _ _ _ Hl Hrun).
  intros s cfg st0 s' st0' Hs
    [(_ & -> & _)|(images & labels & i' & l' & Hread & _ & Hw & ->)]%load_source_inv;
    [done|].
  cbn [all_labels]. apply Forall_app. split; [done|]. constructor; [|done].
  apply apply_weight_shapes in Hw as (_ & _ & ->).
  by eapply read_source_label_shape.
Qed.

(** X17.  Conversely, for a fresh loader: when at least one source has
    contributed and all accumulated image batches agree on the item shape,
    [load_all_sources] returns; the corpus has that item shape and as many
    images, and as many labels, as the accumulated batches hold
    together. *)
Theorem matching_shapes_concatenate st self' st' :
  for_each_M (load_source params) (DATA_SOURCES params) init st = Ok (self', st') →
  all_images self' ≠ [] →
  (∀ a b, a ∈ all_images self' → b ∈ all_images self' →
          item_shape a = item_shape b) →
  ∃ images labels,
    load_all_sources params init st = Ok ((self', (images, labels)), st')
    ∧ Forall (λ a, item_shape a = item_shape images) (all_images self')
    ∧ np.len images = sum_list (np.len <$> all_images self')
    ∧ np.len labels = sum_list (np.len <$> all_images self').
Proof.
  intros Hloop Hne Hsame.
  pose proof (sources_loop_aligned params _ _ _ _ _ aligned_init Hloop) as Hal.
  pose proof (sources_loop_label_shapes _ init _ _ _ (Forall_nil_2 _) Hloop) as Hls.
  assert (all_labels self' ≠ []) as Hnel.
  { intros Hnil. apply Hne. unfold aligned in Hal. rewrite Hnil in Hal.
    by apply Forall2_nil_inv_r in Hal. }
  destruct (proj2 (concatenate_Ok_iff (all_images self')) (conj Hne Hsame)) as [ci Hci].
  destruct (concatenate_same_shape (all_labels self') [] Hnel Hls) as (cl & Hcl & _ & Hli).
  exists ci, cl. rewrite (load_all_sources_run _ _ _ _ _ Hloop).
  destruct (all_images self') as [|x rest] eqn:Himgs; [done|].
  cbn [length Nat.eqb]. rewrite <- Himgs in *. rewrite Hci. simpl. rewrite Hcl. simpl.
  destruct (concatenate_same_len _ _ _ _ Hal Hci Hcl) as [Hlen _].
  assert (np.len ci = sum_list (np.len <$> all_images self')) as Hsum.
  { unfold np.len at 1. rewrite (concatenate_items _ _ Hci), length_join.
    by rewrite <- list_fmap_compose. }
  split_and!; [done| |done|by rewrite <- Hlen].
  apply Forall_forall. intros a Ha. rewrite Himgs in Hci. simpl in Hci.
  case_match; [|done]. injection Hci as <-. simpl.
  apply Hsame; [done|]. rewrite Himgs. by left.
Qed.
End aggregator_state.


(** ** The Shuffler: sequences of unequal length *)

Section shuffle_lengths.
Context `{NumpyRandom}.

Lemma mapM_lookup_out_of_range {A} (l : list A) idx i :
  i ∈ idx → length l ≤ i → mapM (λ i, l !! i) idx = None.
Proof.
  intros Hi Hge. apply eq_None_not_Some. intros Hsome%mapM_is_Some.
  eapply Forall_forall in Hsome; [|exact Hi]. simpl in Hsome.
  apply lookup_lt_is_Some in Hsome. lia.
Qed.

Lemma Forall2_with_l {A B} (P : A → B → Prop) (Q : A → Prop) l k :
  Forall2 P l k → Forall Q l → Forall2 (λ x y, P x y ∧ Q x) l k.
Proof.
  induction 1 as [|x y l k Hxy _ IH]; [constructor|].
  intros [Hx Hl]%Forall_cons. constructor; [done|by apply IH].
Qed.

(** X18.  With fewer labels than images, the shuffle does not pad or truncate:
    indexing the labels by the permutation raises [IndexError]. *)
Theorem shuffle_dataset_short_labels {A B} (images : ndarray A) (labels : ndarray B)
    (seed : Z) (st : RandomState) :
  np.len labels < np.len images →
  is_Some (seed_state seed) →
  shuffle_dataset images labels seed st = Raise IndexError.
Proof.
  intros Hlt [s Hs]. rewrite (shuffle_dataset_run _ _ _ _ s Hs).
  pose proof (draw_permutation_perm (np.len images) s) as Hperm.
  pose proof (draw_permutation_range (np.len images) s) as Hrange.
  destruct (draw_permutation _ s) as [indices st']. simpl in *.
  destruct (take_in_range images indices Hrange) as [images' ->]. simpl.
  unfold np.take. rewrite (mapM_lookup_out_of_range _ _ (np.len labels)); [done| |done].
  rewrite Hperm. apply elem_of_seq. lia.
Qed.

(** X19.  With more labels than images, nothing is raised: the permutation only
    ranges over the positions of the images, so the result holds as many
    labels as images, its pairs are a permutation of the first
    [len(images)] input pairs, and the labels beyond are dropped. *)
Theorem shuffle_dataset_long_labels {A B} (images : ndarray A) (labels : ndarray B)
    (seed : Z) (st : RandomState) :
  np.len images < np.len labels →
  is_Some (seed_state seed) →
  ∃ images' labels' st',
    shuffle_dataset images labels seed st = Ok ((images', labels'), st')
    ∧ np.len labels' = np.len images
    ∧ pairs_of (images', labels') ≡ₚ pairs_of (images, labels)
    ∧ items labels' ≡ₚ take (np.len images) (items labels).
Proof.
  intros Hlt [s Hs]. rewrite (shuffle_dataset_run _ _ _ _ s Hs).
  pose proof (draw_permutation_perm (np.len images) s) as Hperm.
  pose proof (draw_permutation_range (np.len images) s) as Hrange.
  destruct (draw_permutation _ s) as [indices st']. simpl in *.
  destruct (take_in_range images indices Hrange) as [images' Hi].
  destruct (take_in_range labels indices) as [labels' Hl].
  { eapply Forall_impl; [exact Hrange|]. simpl. lia. }
  exists images', labels', st'. rewrite Hi. simpl. rewrite Hl. simpl.
  split_and!; [done| | |].
  - rewrite (take_len _ _ _ Hl). apply Permutation_length in Hperm.
    by rewrite Hperm, length_seq.
  - unfold pairs_of. simpl.
    eapply mapM_lookup_perm; [|apply paired_selection_zip; by split].
    rewrite length_zip_with. unfold np.len in *.
    by rewrite Nat.min_l by lia.
  - apply take_Ok_inv in Hl as (Hl & _).
    eapply (mapM_lookup_perm (take (np.len images) (items labels))).
    { rewrite length_take. unfold np.len in *. by rewrite Nat.min_l by lia. }
    apply mapM_Some. apply mapM_Some in Hl.
    eapply Forall2_impl; [exact (Forall2_with_l _ _ _ _ Hl Hrange)|].
    simpl. intros i y [Hy Hi']. by apply lookup_take_Some.
Qed.
End shuffle_lengths.


(** ** The Splitter: what the partitions hold *)

Section splitter_content.
Context `{NumpyRandom} `{Sklearn} `{World} (params : Params).

Lemma shuffle_dataset_pairs {A B} (images : ndarray A) (labels : ndarray B) seed st
    images' labels' st' :
  same_len images labels →
  shuffle_dataset images labels seed st = Ok ((images', labels'), st') →
  pairs_of (images', labels') ≡ₚ pairs_of (images, labels)
  ∧ item_shape images' = item_shape images ∧ dtype_of images' = dtype_of images
  ∧ item_shape labels' = item_shape labels ∧ dtype_of labels' = dtype_of labels.
Proof.
  intros Hlen (indices & Hperm & Hsel)%shuffle_dataset_inv. split.
  - unfold pairs_of. simpl. eapply mapM_lookup_perm; [|by apply paired_selection_zip].
    rewrite length_zip_with. unfold same_len, np.len in *.
    by rewrite <- Hlen, Nat.min_id.
  - destruct Hsel as [(_ & ? & ?)%take_Ok_inv (_ & ? & ?)%take_Ok_inv]. done.
Qed.

Lemma get_data_splits_pairs st train val test st' images labels :
  get_data_splits params st = Ok ((train, val, test), st') →
  load_combined_dataset params st = Ok ((images, labels), st') →
  pairs_of train ++ pairs_of val ++ pairs_of test
  ≡ₚ pairs_of
       (np.slice_to images
          (Py.int_of_product (np.len images) (TRAINING_PERCENTAGE params)),
        np.slice_to labels
          (Py.int_of_product (np.len images) (TRAINING_PERCENTAGE params))).
Proof.
  intros Hrun Hload'.
  destruct (get_data_splits_inv _ _ _ _ _ _ Hrun)
    as (images0 & labels0 & I_train & I_val & I_test & Hload & Htr & Hva & Hte & Hperm).
  rewrite Hload' in Hload. injection Hload as <- <-.
  pose proof (load_combined_dataset_paired _ _ _ _ _ Hload') as Hlen.
  cbv zeta in *.
  apply paired_selection_zip in Htr, Hva, Hte.
  unfold pairs_of. cbn [fst snd].
  eapply mapM_lookup_perm; [|by repeat apply mapM_app].
  rewrite Hperm. f_equal. rewrite length_zip_with.
  pose proof (slice_to_same_len images labels
                (Py.int_of_product (np.len images) (TRAINING_PERCENTAGE params)) Hlen)
    as Hlen'.
  unfold same_len, np.len in *. by rewrite <- Hlen', Nat.min_id.
Qed.

(** X20.  The three partitions together hold every (image, label) pair of the
    truncated corpus exactly once: nothing is lost and nothing is
    duplicated by the two stratified splits. *)
Theorem partitions_hold_truncated_corpus st train val test st' :
  get_data_splits params st = Ok ((train, val, test), st') →
  ∃ images labels,
    load_combined_dataset params st = Ok ((images, labels), st')
    ∧ let k := Py.int_of_product (np.len images) (TRAINING_PERCENTAGE params) in
      pairs_of train ++ pairs_of val ++ pairs_of test
      ≡ₚ pairs_of (np.slice_to images k, np.slice_to labels k).
Proof.
  intros Hrun.
  destruct (get_data_splits_inv _ _ _ _ _ _ Hrun)
    as (images & labels & _ & _ & _ & Hload & _).
  exists images, labels. split; [done|]. cbv zeta.
  by apply (get_data_splits_pairs st _ _ _ st').
Qed.

(** X21.  Shuffling, truncating and splitting never change the item shape or
    the dtype: each partition has those of the corpus [load_all_sources]
    returned. *)
Theorem partitions_keep_shape st train val test st' :
  get_data_splits params st = Ok ((train, val, test), st') →
  ∃ self images labels st1,
    load_all_sources params init st = Ok ((self, (images, labels)), st1)
    ∧ Forall (λ part : batch,
                item_shape part.1 = item_shape images
                ∧ dtype_of part.1 = dtype_of images
                ∧ item_shape part.2 = item_shape labels
                ∧ dtype_of part.2 = dtype_of labels)
             [train; val; test].
Proof.
  intros Hrun.
  destruct (get_data_splits_inv _ _ _ _ _ _ Hrun)
    as (images & labels & I_train & I_val & I_test & Hload & Htr & Hva & Hte & _).
  unfold load_combined_dataset in Hload.
  apply M_bind_Ok_inv in Hload as ([self [ci cl]] & st1 & Hall & Hsh).
  destruct (load_all_sources_paired _ _ _ _ _ _ _ aligned_init Hall) as (Hlen & _).
  apply shuffle_dataset_pairs in Hsh as (_ & Hs1 & Hd1 & Hs2 & Hd2); [|done].
  exists self, ci, cl, st1. split; [done|].
  assert (∀ (part : batch) indices k,
    paired_selection (np.slice_to images k) (np.slice_to labels k)
                     indices part.1 part.2 →
    item_shape part.1 = item_shape ci ∧ dtype_of part.1 = dtype_of ci
    ∧ item_shape part.2 = item_shape cl ∧ dtype_of part.2 = dtype_of cl) as Hpart.
  { intros part indices k [(_ & ? & ?)%take_Ok_inv (_ & ? & ?)%take_Ok_inv].
    simpl in *. split_and!; congruence. }
  repeat constructor; by eapply Hpart.
Qed.

Lemma slice_to_all {A} (a : ndarray A) (k : Z) :
  (Z.of_nat (np.len a) ≤ k)%Z → np.slice_to a k = a.
Proof.
  intros Hk. destruct a as [shape dtype l].
  unfold np.slice_to, np.slice_stop, np.len in *. simpl in *. f_equal.
  destruct (Z.ltb_spec k 0); [lia|]. apply take_ge. lia.
Qed.



(** X23.  End to end, with no subsampled source and a percentage of one or
    more: when at least one source contributes and [get_data_splits]
    returns, the three partitions together hold exactly the pairs the
    readers returned, each once. *)
Theorem partitions_hold_all_samples st train val test st' :
  Forall unweighted (DATA_SOURCES params) →
  (1 <= TRAINING_PERCENTAGE params)%Q →
  omap (reader_batch params) (DATA_SOURCES params) ≠ [] →
  get_data_splits params st = Ok ((train, val, test), st') →
  pairs_of train ++ pairs_of val ++ pairs_of test
  ≡ₚ mjoin (pairs_of <$> omap (reader_batch params) (DATA_SOURCES params)).
Proof.
  intros Hu Hp Hne Hrun.
  destruct (get_data_splits_inv _ _ _ _ _ _ Hrun)
    as (images & labels & _ & _ & _ & Hload & _).
  rewrite (get_data_splits_pairs _ _ _ _ _ _ _ Hrun Hload).
  pose proof (load_combined_dataset_paired _ _ _ _ _ Hload) as Hlen.
  pose proof (int_of_product_at_least (np.len images) _ Hp) as Hk.
  rewrite (slice_to_all images), (slice_to_all labels);
    [|unfold same_len in Hlen; by rewrite <- Hlen|done].
  unfold load_combined_dataset in Hload.
  apply M_bind_Ok_inv in Hload as ([self [ci cl]] & st1 & Hall & Hsh).
  destruct (load_all_sources_paired _ _ _ _ _ _ _ aligned_init Hall)
    as (Hclen & _ & Hzip).
  destruct (load_all_sources_unweighted_batches _ _ _ _ _ _ Hu Hall)
    as (_ & Hi & Hl).
  apply shuffle_dataset_pairs in Hsh as (-> & _); [|done].
  unfold pairs_of at 1. cbn [fst snd]. rewrite Hzip.
  - rewrite Hi, Hl.
    assert (∀ bs : list batch,
      zip_with (λ (x : ndarray pixels) (y : ndarray Z), zip (items x) (items y))
               bs.*1 bs.*2 = pairs_of <$> bs) as ->; [|done].
    induction bs as [|b bs IH]; [done|]. cbn. by rewrite IH.
  - rewrite Hi. by intros ?%fmap_nil_inv.
Qed.
End splitter_content.

(** ** The calibration set of the converter *)

Section representative.
Context {A B L T : Type}.
Context (load_digit_dataset : result ((ndarray A * L) * T)).
Context (preprocess_images : ndarray A → result (ndarray B)).

Lemma np_slice_one (x : ndarray B) i v :
  items x !! i = Some v → items (np_slice x i (i + 1)) = [v].
Proof.
  intros Hv. pose proof (lookup_lt_Some _ _ _ Hv) as Hlt. unfold np_slice, np.len.
  cbn [items]. replace ((i + 1) `min` length (items x) - i) with 1 by lia.
  rewrite <- (take_drop_middle _ _ _ Hv), drop_app_length'; [done|].
  rewrite length_take. lia.
Qed.

(** X24.  The calibration generator yields at most 100 batches; each batch is a
    one-element list holding a single sample, with the item shape and
    dtype of the preprocessed images; and the samples, in the order
    yielded, are the first 100 preprocessed training images (all of them
    when there are fewer). *)
Theorem representative_dataset_first_samples batches :
  representative_dataset load_digit_dataset preprocess_images = Ok batches →
  ∃ raw labels rest x_train,
    load_digit_dataset = Ok ((raw, labels), rest)
    ∧ preprocess_images raw = Ok x_train
    ∧ length batches = 100 `min` np.len x_train
    ∧ Forall (λ batch, ∃ b, batch = [b] ∧ np.len b = 1
                            ∧ item_shape b = item_shape x_train
                            ∧ dtype_of b = dtype_of x_train) batches
    ∧ (batches ≫= λ batch, batch ≫= items) = take 100 (items x_train).
Proof.
  unfold representative_dataset. intros Hrun.
  destruct load_digit_dataset as [[[raw labels] rest]|e] eqn:Hload; [|done].
  unfold mbind at 1, result_bind at 1 in Hrun. cbv beta iota in Hrun.
  destruct (preprocess_images raw) as [x|e] eqn:Hpre; [|done].
  unfold mbind, result_bind in Hrun.
  assert (batches = (λ i, [np_slice x i (i + 1)]) <$> seq 0 (100 `min` np.len x))
    as -> by congruence.
  clear Hrun.
  exists raw, labels, rest, x. split; [done|]. split; [done|].
  assert (∀ n, n ≤ np.len x →
    Forall (λ batch, ∃ b, batch = [b] ∧ np.len b = 1
                          ∧ item_shape b = item_shape x ∧ dtype_of b = dtype_of x)
           ((λ i, [np_slice x i (i + 1)]) <$> seq 0 n)
    ∧ (((λ i, [np_slice x i (i + 1)]) <$> seq 0 n) ≫= λ batch, batch ≫= items)
      = take n (items x)) as Hgen.
  { induction n as [|n IH]; intros Hn; [by split; [constructor|]|].
    destruct IH as [IH1 IH2]; [lia|].
    destruct (lookup_lt_is_Some_2 (items x) n) as [v Hv]; [unfold np.len in Hn; lia|].
    rewrite seq_S, fmap_app. cbn [Nat.add fmap list_fmap]. split.
    - apply Forall_app. split; [done|]. constructor; [|done].
      eexists. split; [done|]. split; [|done].
      unfold np.len. by rewrite (np_slice_one _ _ _ Hv).
    - rewrite bind_app, IH2, (take_S_r _ _ _ Hv). f_equal.
      assert (([[np_slice x n (n + 1)]] ≫= λ batch, batch ≫= items)
              = items (np_slice x n (n + 1))) as ->.
      { cbn [mbind list_bind app]. by rewrite !app_nil_r. }
      by apply np_slice_one. }
  destruct (Hgen (100 `min` np.len x)) as [H1 H2]; [lia|].
  split; [by rewrite length_fmap, length_seq|]. split; [done|].
  rewrite H2. unfold np.len.
  destruct (Nat.min_spec 100 (length (items x))) as [[? ->]|[? ->]]; [done|].
  by rewrite !take_ge by lia.
Qed.
End representative.


(** ** Runs on the concrete instance *)

#[global] Existing Instance sample_random.
#[global] Existing Instance sample_sklearn.
#[global] Existing Instance sample_world.

Example tokens_run : Py.tokens "  a.png   7 " = ["a.png"; "7"].
Proof. reflexivity. Qed.

Example int_run :
  Py.int "-1_0" = Ok (-10)%Z ∧ Py.int "007" = Ok 7%Z ∧ Py.int "x" = Raise ValueError
  ∧ Py.int "1__0" = Raise ValueError ∧ Py.int "+" = Raise ValueError.
Proof. repeat split. Qed.

Example path_join_run :
  Py.path_join "data" (Py.str 10) = "data/10"
  ∧ Py.endswith (Py.lower "A.PNG") ".png" = true.
Proof. split; reflexivity. Qed.

(** The sample size is computed in binary64: [100 * 0.29] is just below 29
    and [int] gives 28; [10 * 0.7] and [3 * 0.3333333333333333] round up to
    [7.0] and [1.0], above the exact products. *)
Example int_of_product_run :
  Py.int_of_product 100 (5224175567749775 # 18014398509481984) = 28%Z
  ∧ Py.int_of_product 10 (3152519739159347 # 4503599627370496) = 7%Z
  ∧ Qfloor (inject_Z 10 * (3152519739159347 # 4503599627370496)) = 6%Z
  ∧ Py.int_of_product 3 Sample.third = 1%Z
  ∧ Qfloor (inject_Z 3 * Sample.third) = 0%Z
  ∧ Py.int_of_product 8 (3 # 4) = 6%Z
  ∧ Py.int_of_product 7 (- (1 # 2)) = (-3)%Z.
Proof. repeat split. Qed.

(** On these products [Binary64.round] is the product of the Standard
    Library's specification of IEEE 754 multiplication. *)
Example round_agrees_with_SpecFloat :
  Forall (λ '(n, m, e),
            from_option (Qeq_bool (Binary64.round (inject_Z n * Binary64.scale m e)))
                        false (Binary64.spec_product n (Z.to_pos m) e) = true)
         [ (100, 5224175567749775, -54); (10, 6305039478318694, -53);
           (3, 6004799503160661, -54); (12, 6004799503160661, -54);
           (7, 7205759403792794, -56); (1000003, 4503599627370497, -52);
           (9007199254740991, 9007199254740991, -53); (5, 1, -1074);
           (3, 4503599627370495, -1074) ]%Z.
Proof. repeat constructor. Qed.

(** The manifest under [data/b]: of its six lines, the empty line, the
    one-token line, the line naming a missing file and the line naming an
    undecodable file are skipped. *)
Example label_file_run :
  load_label_file_dataset "data/b"
  = Ok (Ndarray [1; 1; 3] UInt8 [[20; 20; 20]; [21; 21; 21]]%Z,
        Ndarray [] Int64 [0; 1]%Z).
Proof. reflexivity. Qed.

(** C3.  On the sample file tree, the manifest under [data/c] holds the line [p.png x]: two tokens,
    the second not an integer literal, and [p.png] exists and decodes.  The
    reader does not skip the line: [int] raises [ValueError] and the reader
    raises it to its caller, which does not catch it either. *)
Theorem label_file_non_integer_label_raises :
  readlines "data/c/labels.txt" = Ok ["p.png 0"; "p.png x"]
  ∧ Py.tokens "p.png x" = ["p.png"; "x"]
  ∧ Py.int "x" = Raise ValueError
  ∧ load_label_file_dataset "data/c" = Raise ValueError
  ∧ ∀ st, load_all_sources (Sample.config [Sample.src_a; Sample.src_c] false) init st
          = Raise ValueError.
Proof. split_and!; reflexivity. Qed.

(** C4.  On the sample file tree, with [USE_GRAYSCALE] set, a corpus
    assembled from a folder source has three channels, where the builtin corpus under the same
    configuration has one; and the two do not combine: concatenating them
    raises. *)
Theorem grayscale_folder_corpus_has_three_channels :
  USE_GRAYSCALE (Sample.config [Sample.src_a] true) = true
  ∧ (∃ self images labels st',
       load_all_sources (Sample.config [Sample.src_a] true) init 0
       = Ok ((self, (images, labels)), st')
       ∧ item_shape images = [1; 1; 3])
  ∧ (∃ self images labels st',
       load_all_sources (Sample.config [] true) init 0
       = Ok ((self, (images, labels)), st')
       ∧ item_shape images = [28; 28; 1])
  ∧ load_all_sources (Sample.config [Sample.src_mnist; Sample.src_a] true) init 0
    = Raise ValueError.
Proof.
  split_and!.
  - reflexivity.
  - eexists _, _, _, _. split; reflexivity.
  - eexists _, _, _, _. split; vm_compute; reflexivity.
  - vm_compute. reflexivity.
Qed.

(** C10.  A call of [shuffle_dataset] that returns has reseeded the global
    generator: the state it leaves is the one reached from the freshly
    seeded state by drawing the permutation, whatever the state was before,
    so whatever runs after the call gives the same result from any two
    prior states.  The weighted subsampling runs before the call: its
    indices are drawn from the state the loader was entered with, in which
    the seed has no part; and on the concrete instance two runs with the
    same seed, entered with different generator states, load different
    corpora. *)
Theorem shuffle_dataset_reseeds :
  (∀ (R : NumpyRandom) (A B : Type) (images : ndarray A) (labels : ndarray B)
     (seed : Z) (st0 : RandomState) r st',
     shuffle_dataset images labels seed st0 = Ok (r, st') →
     ∃ s, seed_state seed = Some s
          ∧ st' = (draw_permutation (np.len images) s).2
          ∧ ∀ st1 (C : Type) (later : M RandomState C),
              (shuffle_dataset images labels seed ≫= λ _, later) st1
              = (shuffle_dataset images labels seed ≫= λ _, later) st0)
  ∧ (∀ (R : NumpyRandom) (W : World) params self source_config images labels
       (w : Q) (st : RandomState),
       read_source params source_config = Some (Ok (images, labels)) →
       0 < np.len images →
       weight source_config = Some w →
       (0 <= w)%Q → (w < 1)%Q →
       let draw := draw_choice (np.len images)
                     (Z.to_nat (Py.int_of_product (np.len images) w)) st in
       ∃ images' labels' self',
         load_source params self source_config st = Ok (self', draw.2)
         ∧ paired_selection images labels draw.1 images' labels'
         ∧ all_images self' = all_images self ++ [images']
         ∧ all_labels self' = all_labels self ++ [labels'])
  ∧ (∃ (params : Params) (c0 c1 : batch) (s : nat),
       @load_combined_dataset sample_random sample_world params 0 = Ok (c0, s)
       ∧ @load_combined_dataset sample_random sample_world params 1 = Ok (c1, s)
       ∧ ¬ items c0.1 ≡ₚ items c1.1).
Proof.
  split_and!.
  - intros R A B images labels seed st0 r st'. apply shuffle_dataset_post_state.
  - intros R W params self cfg images labels w st Hread Hn Hw Hw0 Hw1 draw.
    pose proof (read_source_paired _ _ _ _ Hread) as Hlen.
    destruct (apply_weight_below_one w images labels st Hlen Hn Hw0 Hw1)
      as (images' & labels' & Hrun & Hsel & _).
    fold draw in Hrun, Hsel.
    exists images', labels'. eexists. split_and!; [|done| |].
    + rewrite (load_source_run _ _ _ images labels) by done.
      rewrite Hw. change (default 1%Q (Some w)) with w. by rewrite Hrun.
    + done.
    + done.
  - exists (Sample.config [Sample.src_a; Sample.src_b (Some (1 # 2)%Q)] true).
    eexists _, _, _. split; [reflexivity|]. split; [reflexivity|].
    simpl. intros Hp.
    assert ([20; 20; 20]%Z ∈ [[16; 16; 16]; [17; 17; 17]; [21; 21; 21]; [10; 10; 10];
       [11; 11; 11]; [12; 12; 12]; [13; 13; 13]; [14; 14; 14]; [15; 15; 15]]%Z) as Hin.
    { rewrite <- Hp. do 2 apply list_elem_of_further. apply list_elem_of_here. }
    repeat (apply elem_of_cons in Hin as [[=]|Hin]). by apply elem_of_nil in Hin.
Qed.

(** ** The theorems applied to concrete runs *)

Lemma pairing_invariant_witness :
  ∃ train val test st',
    get_data_splits
      (Sample.config [Sample.src_a; Sample.src_b (Some (1 # 2)%Q)] true) 0
    = Ok ((train, val, test), st')
    ∧ Forall (λ part : batch, same_len part.1 part.2) [train; val; test].
Proof.
  eexists _, _, _, _. split; [vm_compute; reflexivity|].
  destruct (@pairing_invariant sample_random sample_sklearn sample_world
              (Sample.config [Sample.src_a; Sample.src_b (Some (1 # 2)%Q)] true))
    as (_ & _ & _ & _ & Hsplit).
  destruct (Hsplit 0 _ _ _ _ eq_refl) as (images & labels & _ & _ & _ & _ & Hparts).
  eapply Forall_impl; [exact Hparts|]. by intros part [? _].
Defined.

Lemma shuffle_dataset_bijection_witness :
  np.len Sample.three_images = np.len Sample.three_labels
  ∧ is_Some (seed_state 42)
  ∧ ∃ indices images' labels' st',
      shuffle_dataset Sample.three_images Sample.three_labels 42 0
      = Ok ((images', labels'), st')
      ∧ indices ≡ₚ seq 0 (np.len Sample.three_images)
      ∧ paired_selection Sample.three_images Sample.three_labels indices images' labels'
      ∧ zip (items images') (items labels')
        ≡ₚ zip (items Sample.three_images) (items Sample.three_labels)
      ∧ ∀ st1, shuffle_dataset Sample.three_images Sample.three_labels 42 st1
               = shuffle_dataset Sample.three_images Sample.three_labels 42 0.
Proof.
  split; [reflexivity|]. split; [by eexists|].
  apply shuffle_dataset_bijection; [reflexivity|by eexists].
Defined.

Lemma weighted_subsampling_witness :
  ∃ images labels,
    read_source (Sample.config [] true) (Sample.src_b (Some (1 # 2)%Q))
    = Some (Ok (images, labels))
    ∧ 0 < np.len images
    ∧ weight (Sample.src_b (Some (1 # 2)%Q)) = Some (1 # 2)%Q
    ∧ Binary64.representable (1 # 2) = true
    ∧ (0 <= 1 # 2)%Q ∧ (1 # 2 < 1)%Q
    ∧ ∃ indices images' labels' self' st',
        load_source (Sample.config [] true) init (Sample.src_b (Some (1 # 2)%Q)) 0
        = Ok (self', st')
        ∧ all_images self' = all_images init ++ [images']
        ∧ all_labels self' = all_labels init ++ [labels']
        ∧ paired_selection images labels indices images' labels'
        ∧ NoDup indices
        ∧ np.len images' = 1 ∧ np.len labels' = 1.
Proof.
  eexists _, _. split; [reflexivity|]. split; [vm_compute; lia|]. split; [reflexivity|].
  split; [reflexivity|]. split; [done|]. split; [done|].
  destruct (proj1 (@weighted_subsampling sample_random sample_world (Sample.config [] true)
                     init (Sample.src_b (Some (1 # 2)%Q)) _ _ (1 # 2)%Q 0
                     eq_refl ltac:(vm_compute; lia) eq_refl ltac:(done)) ltac:(done))
    as (indices & images' & labels' & self' & st' & Hrun & Hi & Hl & Hsel & Hnd
        & Hki & Hkl & _).
  exists indices, images', labels', self', st'.
  split; [exact Hrun|]. split; [exact Hi|]. split; [exact Hl|]. split; [exact Hsel|].
  split; [exact Hnd|]. split; [exact Hki|exact Hkl].
Defined.

(** C5, as the claim states it: three images at weight [0.3333333333333333].
    The exact product is below one, so its floor is zero; the binary64
    product is [1.0], and the source keeps one image. *)
Lemma weighted_subsampling_not_floor :
  Binary64.representable Sample.third = true
  ∧ (0 <= Sample.third)%Q ∧ (Sample.third < 1)%Q
  ∧ ∃ images labels self' st' images',
      read_source (Sample.config [] true) (Sample.src_mnist_weighted Sample.third)
      = Some (Ok (images, labels))
      ∧ np.len images = 3
      ∧ Qfloor (inject_Z (Z.of_nat (np.len images)) * Sample.third) = 0%Z
      ∧ load_source (Sample.config [] true) init
                    (Sample.src_mnist_weighted Sample.third) 0
        = Ok (self', st')
      ∧ all_images self' = [images']
      ∧ np.len images' = 1
      ∧ np.len images'
        ≠ Z.to_nat (Qfloor (inject_Z (Z.of_nat (np.len images)) * Sample.third)).
Proof.
  split; [reflexivity|]. split; [done|]. split; [done|].
  eexists _, _, _, _, _. split; [vm_compute; reflexivity|]. split; [reflexivity|].
  split; [reflexivity|]. split; [vm_compute; reflexivity|]. split; [reflexivity|].
  split; [reflexivity|]. vm_compute. discriminate.
Qed.

Lemma splits_partition_truncated_corpus_witness :
  (0 <= TRAINING_PERCENTAGE (Sample.config [Sample.src_a] true))%Q
  ∧ (TRAINING_PERCENTAGE (Sample.config [Sample.src_a] true) <= 1)%Q
  ∧ ∃ train val test st',
      get_data_splits (Sample.config [Sample.src_a] true) 0
      = Ok ((train, val, test), st')
      ∧ ∃ I_train I_val I_test,
          I_train ++ I_val ++ I_test ≡ₚ seq 0 8
          ∧ I_train ## I_val ∧ I_train ## I_test ∧ I_val ## I_test
          ∧ np.len train.1 + np.len val.1 + np.len test.1 = 8.
Proof.
  split; [done|]. split; [done|]. eexists _, _, _, _. split; [vm_compute; reflexivity|].
  destruct (@splits_partition_truncated_corpus sample_random sample_sklearn sample_world
              (Sample.config [Sample.src_a] true) 0
              _ _ _ _ ltac:(done) ltac:(done) eq_refl)
    as (images & labels & I_train & I_val & I_test & Hload & Hrest).
  vm_compute in Hload. injection Hload as <- <-.
  destruct Hrest as (_ & _ & _ & _ & _ & _ & Hperm & _ & Hd1 & Hd2 & Hd3 & Hsum & _).
  by exists I_train, I_val, I_test.
Defined.

(** C6, as the claim states it: twelve samples of one class at a percentage
    of [0.3333333333333333].  The exact product is below four, so its floor is
    three; the binary64 product is [4.0], four samples are kept, both
    splits succeed, and the partition sizes sum to four. *)
Lemma partition_sizes_not_floor :
  Binary64.representable Sample.third = true
  ∧ ∃ images labels st1 train val test st',
      load_combined_dataset
        (Sample.config_with [Sample.src_a; Sample.src_a; Sample.src_a] 1 Sample.third) 0
      = Ok ((images, labels), st1)
      ∧ np.len images = 12
      ∧ Qfloor (inject_Z (Z.of_nat (np.len images)) * Sample.third) = 3%Z
      ∧ get_data_splits
          (Sample.config_with [Sample.src_a; Sample.src_a; Sample.src_a] 1 Sample.third) 0
        = Ok ((train, val, test), st')
      ∧ np.len train.1 + np.len val.1 + np.len test.1 = 4
      ∧ np.len train.1 + np.len val.1 + np.len test.1
        ≠ Z.to_nat (Qfloor (inject_Z (Z.of_nat (np.len images)) * Sample.third)).
Proof.
  split; [reflexivity|].
  eexists _, _, _, _, _, _, _. split; [vm_compute; reflexivity|]. split; [reflexivity|].
  split; [reflexivity|]. split; [vm_compute; reflexivity|]. split; [reflexivity|].
  vm_compute. discriminate.
Qed.

Lemma under_populated_class_is_fatal_witness :
  ∃ images labels st1,
    load_combined_dataset (Sample.config [Sample.src_b None] true) 0
    = Ok ((images, labels), st1)
    ∧ under_populated
        (items (np.slice_to labels
                  (Py.int_of_product (np.len images)
                     (TRAINING_PERCENTAGE (Sample.config [Sample.src_b None] true)))))
      = true
    ∧ get_data_splits (Sample.config [Sample.src_b None] true) 0 = Raise ValueError.
Proof.
  eexists _, _, _. split; [reflexivity|]. split; [reflexivity|].
  exact (proj1 (@under_populated_class_is_fatal sample_random sample_sklearn sample_world
                  (Sample.config [Sample.src_b None] true) 0 _ _ _ eq_refl) eq_refl).
Defined.

(** C7, as the claim states it: class 1 has two members in the truncated
    corpus of ten samples, fewer than the three partitions, and class 0
    has eight.  No class has a single member, neither in the corpus nor in
    its train+validation part, so nothing is raised: the partitions are
    returned, and class 1 is in neither the validation nor the test
    partition. *)
Lemma two_member_class_is_not_refused :
  ∃ images labels st1 train val test st',
    @load_combined_dataset sample_random sample_world_d
      (Sample.config_with [Sample.src_d] 2 1) 0
    = Ok ((images, labels), st1)
    ∧ Py.int_of_product (np.len images) 1 = 10%Z
    ∧ length (filter (λ l, l = 0%Z) (items labels)) = 8
    ∧ length (filter (λ l, l = 1%Z) (items labels)) = 2
    ∧ under_populated (items labels) = false
    ∧ @get_data_splits sample_random sample_sklearn sample_world_d
        (Sample.config_with [Sample.src_d] 2 1) 0
      = Ok ((train, val, test), st')
    ∧ items train.2 = [0; 0; 1; 1; 0; 0]%Z
    ∧ items val.2 = [0; 0]%Z
    ∧ items test.2 = [0; 0]%Z.
Proof.
  eexists _, _, _, _, _, _, _. split; [vm_compute; reflexivity|].
  split; [reflexivity|]. split; [reflexivity|]. split; [reflexivity|].
  split; [reflexivity|].
  split; [vm_compute; reflexivity|]. split; [reflexivity|]. split; reflexivity.
Qed.

Lemma fallback_iff_nothing_accumulated_witness :
  for_each_M (load_source (Sample.config [Sample.src_unknown; Sample.src_missing] true))
             (DATA_SOURCES (Sample.config [Sample.src_unknown; Sample.src_missing] true))
             init 0
  = Ok (init, 0)
  ∧ all_images init = []
  ∧ ∃ images labels,
      load_all_sources (Sample.config [Sample.src_unknown; Sample.src_missing] true) init 0
      = Ok ((init, (images, labels)), 0)
      ∧ items images = [Sample.digit 1; Sample.digit 2; Sample.digit 3]
      ∧ items labels = [5; 0; 4]%Z
      ∧ np.len images = 3.
Proof.
  split; [reflexivity|]. split; [reflexivity|].
  destruct (proj1 (proj2 (@fallback_iff_nothing_accumulated sample_random sample_world
                     (Sample.config [Sample.src_unknown; Sample.src_missing] true)
                     init 0 init 0 eq_refl)) eq_refl _ _ _ _ eq_refl)
    as (images & labels & Hrun & Hi & Hl & _ & Hn & _).
  exists images, labels. split; [exact Hrun|]. split; [exact Hi|]. split; [exact Hl|exact Hn].
Defined.



Lemma shuffle_dataset_reseeds_witness :
  ∃ r st',
    shuffle_dataset Sample.three_images Sample.three_labels 42 0 = Ok (r, st')
    ∧ ∃ s, seed_state 42 = Some s
           ∧ st' = (draw_permutation (np.len Sample.three_images) s).2
           ∧ ∀ st1 (C : Type) (later : M RandomState C),
               (shuffle_dataset Sample.three_images Sample.three_labels 42 ≫= λ _, later) st1
               = (shuffle_dataset Sample.three_images Sample.three_labels 42
                  ≫= λ _, later) 0.
Proof.
  eexists _, _. split; [reflexivity|].
  exact (proj1 shuffle_dataset_reseeds sample_random _ _ Sample.three_images
           Sample.three_labels 42%Z 0 _ _ eq_refl).
Defined.

(** ** The further properties applied to concrete runs *)

Lemma class_distribution_total_witness :
  Forall (λ l, (0 ≤ l < Z.of_nat (NB_CLASSES (Sample.config [] true)))%Z)
         (items (Ndarray [] Int64 [0; 1; 1; 2]%Z))
  ∧ sum_list ((λ i, default 0 (get_class_distribution (Sample.config [] true)
                                 (Ndarray [] Int64 [0; 1; 1; 2]%Z) !! i))
                <$> seq 0 (NB_CLASSES (Sample.config [] true)))
    = np.len (Ndarray [] Int64 [0; 1; 1; 2]%Z).
Proof.
  assert (Forall (λ l, (0 ≤ l < Z.of_nat (NB_CLASSES (Sample.config [] true)))%Z)
                 (items (Ndarray [] Int64 [0; 1; 1; 2]%Z))) as Hrange.
  { simpl. repeat constructor; lia. }
  split; [exact Hrange|].
  exact (proj2 (proj2 (class_distribution_total (Sample.config [] true)
                         (Ndarray [] Int64 [0; 1; 1; 2]%Z))) Hrange).
Defined.

Lemma load_folder_structure_sound_witness :
  ∃ images labels,
    load_folder_structure (Sample.config [] true) "data/a" = Ok (images, labels)
    ∧ Forall2 (λ px label,
                 ∃ c im, c < NB_CLASSES (Sample.config [] true) ∧ label = Z.of_nat c
                         ∧ px = im_data im ∧ from_class_file "data/a" c im)
              (items images) (items labels).
Proof.
  eexists _, _. split; [vm_compute; reflexivity|].
  apply (@load_folder_structure_sound sample_world (Sample.config [] true) "data/a").
  vm_compute. reflexivity.
Defined.

Lemma load_folder_structure_complete_witness :
  ∃ images labels,
    load_folder_structure (Sample.config [] true) "data/a" = Ok (images, labels)
    ∧ os_path_exists "data/a" = true
    ∧ 1 < NB_CLASSES (Sample.config [] true)
    ∧ from_class_file "data/a" 1 (Sample.one_pixel 14)
    ∧ (im_data (Sample.one_pixel 14), 1%Z) ∈ zip (items images) (items labels).
Proof.
  assert (from_class_file "data/a" 1 (Sample.one_pixel 14)) as Hfile.
  { eexists _, "y.PNG". split; [reflexivity|]. split; [vm_compute; reflexivity|].
    split; [apply list_elem_of_here|]. split; reflexivity. }
  eexists _, _. split; [vm_compute; reflexivity|]. split; [reflexivity|].
  split; [simpl; lia|]. split; [exact Hfile|].
  eapply (@load_folder_structure_complete sample_world (Sample.config [] true)
           "data/a" _ _ 1 (Sample.one_pixel 14));
    [vm_compute; reflexivity|reflexivity|simpl; lia|exact Hfile].
Defined.

Lemma load_folder_structure_labels_sorted_witness :
  ∃ images labels,
    load_folder_structure (Sample.config [] true) "data/a" = Ok (images, labels)
    ∧ 3 ≤ 4
    ∧ items labels !! 3 = Some 0%Z
    ∧ items labels !! 4 = Some 1%Z
    ∧ (0 ≤ 0 ≤ 1)%Z ∧ (1 < Z.of_nat (NB_CLASSES (Sample.config [] true)))%Z.
Proof.
  eexists _, _. split; [vm_compute; reflexivity|]. split; [lia|].
  split; [reflexivity|]. split; [reflexivity|].
  eapply (@load_folder_structure_labels_sorted sample_world (Sample.config [] true)
           "data/a" _ _ 3 4 0%Z 1%Z);
    [vm_compute; reflexivity|lia|reflexivity|reflexivity].
Defined.

Lemma load_label_file_dataset_content_witness :
  ∃ lines images labels,
    os_path_exists (Py.path_join "data/b" "labels.txt") = true
    ∧ os_path_exists (Py.path_join "data/b" "images") = true
    ∧ readlines (Py.path_join "data/b" "labels.txt") = Ok lines
    ∧ Forall (λ line, Py.is_ascii line = true ∧ String.length line ≤ 4300) lines
    ∧ load_label_file_dataset "data/b" = Ok (images, labels)
    ∧ Forall np.int64 (items labels)
    ∧ items images
      = im_data <$> (omap (line_pair (Py.path_join "data/b" "images")) lines).*1
    ∧ items labels = (omap (line_pair (Py.path_join "data/b" "images")) lines).*2.
Proof.
  assert (Forall (λ line, Py.is_ascii line = true ∧ String.length line ≤ 4300)
            ["p.png 0"; "q.png 1"; ""; "lonely"; "missing.png 1"; "broken.png 0"])
    as Hascii.
  { repeat constructor; simpl; lia. }
  assert (Forall np.int64 [0; 1]%Z) as Hint by (repeat constructor; lia).
  eexists _, _, _. split; [reflexivity|]. split; [reflexivity|].
  split; [vm_compute; reflexivity|]. split; [exact Hascii|].
  split; [vm_compute; reflexivity|]. split; [exact Hint|].
  destruct (@load_label_file_dataset_content sample_world "data/b" _ _ _
              eq_refl eq_refl eq_refl Hascii eq_refl Hint) as (Himages & Hlabels & _).
  split; [exact Himages|exact Hlabels].
Defined.

Lemma load_builtin_dataset_content_witness :
  String.eqb (Py.lower "MNIST") "mnist" = true
  ∧ ∃ images labels,
      load_builtin_dataset (Sample.config [] false) "MNIST" = Ok (images, labels)
      ∧ np.len images = 3
      ∧ items labels = [5; 0; 4]%Z
      ∧ item_shape images = [28; 28; 3]
      ∧ dtype_of images = UInt8.
Proof.
  split; [reflexivity|].
  destruct (@load_builtin_dataset_content sample_world (Sample.config [] false)
              "MNIST" _ _ _ _ eq_refl eq_refl)
    as (images & labels & Hrun & Hlen & Hlabels & Hshape & Hdtype & _).
  exists images, labels. split; [exact Hrun|]. split; [exact Hlen|].
  split; [exact Hlabels|]. split; [exact Hshape|exact Hdtype].
Defined.


Lemma load_source_unweighted_witness :
  ∃ images labels,
    read_source (Sample.config [] true) (Sample.src_b (Some 2%Q))
    = Some (Ok (images, labels))
    ∧ 0 < np.len images
    ∧ unweighted (Sample.src_b (Some 2%Q))
    ∧ load_source (Sample.config [] true) init (Sample.src_b (Some 2%Q)) 7
      = Ok (Loader [images] [labels]
                   (<["b" := MkStats 2 (get_class_distribution (Sample.config [] true)
                                          labels)]> ∅),
            7).
Proof.
  assert (unweighted (Sample.src_b (Some 2%Q))) as Hw.
  { intros w [= <-]. vm_compute. discriminate. }
  eexists _, _. split; [vm_compute; reflexivity|]. split; [vm_compute; lia|].
  split; [exact Hw|].
  refine (@load_source_unweighted sample_random sample_world (Sample.config [] true)
            init (Sample.src_b (Some 2%Q)) _ _ 7 eq_refl _ Hw).
  vm_compute. lia.
Defined.

Lemma load_all_sources_declaration_order_witness :
  Forall unweighted
    (DATA_SOURCES (Sample.config [Sample.src_a; Sample.src_unknown; Sample.src_b None]
                     true))
  ∧ ∃ self images labels,
      load_all_sources
        (Sample.config [Sample.src_a; Sample.src_unknown; Sample.src_b None] true)
        init 7
      = Ok ((self, (images, labels)), 7)
      ∧ items labels = [0; 0; 0; 0; 1; 1; 1; 1; 0; 1]%Z.
Proof.
  assert (Forall unweighted
            (DATA_SOURCES (Sample.config [Sample.src_a; Sample.src_unknown;
                                          Sample.src_b None] true))) as Hw.
  { repeat constructor; intros w [=]. }
  split; [exact Hw|]. eexists _, _, _. split; [vm_compute; reflexivity|].
  destruct (@load_all_sources_declaration_order sample_random sample_world
              (Sample.config [Sample.src_a; Sample.src_unknown; Sample.src_b None] true)
              7 _ _ _ _ Hw eq_refl) as (_ & _ & _ & Hitems).
  destruct Hitems as [_ Hlabels]; [by vm_compute|]. exact Hlabels.
Defined.

Lemma get_data_splits_reproducible_witness :
  Forall unweighted
    (DATA_SOURCES (Sample.config [Sample.src_a; Sample.src_b (Some 1%Q)] true))
  ∧ get_data_splits (Sample.config [Sample.src_a; Sample.src_b (Some 1%Q)] true) 0
    = get_data_splits (Sample.config [Sample.src_a; Sample.src_b (Some 1%Q)] true) 5.
Proof.
  assert (Forall unweighted
            (DATA_SOURCES (Sample.config [Sample.src_a; Sample.src_b (Some 1%Q)] true)))
    as Hw.
  { repeat constructor; intros w [=]. subst w. vm_compute. discriminate. }
  split; [exact Hw|].
  exact (proj2 (@get_data_splits_reproducible sample_random sample_sklearn sample_world
                  (Sample.config [Sample.src_a; Sample.src_b (Some 1%Q)] true) 0 5 Hw)).
Defined.

Lemma reader_exception_aborts_witness :
  ∃ self1 st1,
    for_each_M (load_source (Sample.config [Sample.src_a; Sample.src_c] false))
               [Sample.src_a] init 0
    = Ok (self1, st1)
    ∧ read_source (Sample.config [Sample.src_a; Sample.src_c] false) Sample.src_c
      = Some (Raise ValueError)
    ∧ load_all_sources (Sample.config [Sample.src_a; Sample.src_c] false) init 0
      = Raise ValueError
    ∧ get_data_splits (Sample.config [Sample.src_a; Sample.src_c] false) 0
      = Raise ValueError.
Proof.
  eexists _, _. split; [vm_compute; reflexivity|]. split; [reflexivity|].
  eapply (@reader_exception_aborts sample_random sample_sklearn sample_world
            (Sample.config [Sample.src_a; Sample.src_c] false)
            [Sample.src_a] Sample.src_c []);
    [reflexivity|vm_compute; reflexivity|reflexivity].
Defined.

Lemma fallback_unavailable_raises_witness :
  Forall (@skipped sample_world_offline
            (Sample.config [Sample.src_unknown; Sample.src_missing] true))
         (DATA_SOURCES (Sample.config [Sample.src_unknown; Sample.src_missing] true))
  ∧ @mnist_load_data sample_world_offline = Raise OSError
  ∧ @load_all_sources sample_random sample_world_offline
      (Sample.config [Sample.src_unknown; Sample.src_missing] true) init 0
    = Raise OSError.
Proof.
  assert (Forall (@skipped sample_world_offline
                    (Sample.config [Sample.src_unknown; Sample.src_missing] true))
                 (DATA_SOURCES (Sample.config [Sample.src_unknown; Sample.src_missing]
                                  true))) as Hskip.
  { constructor; [by left|]. constructor; [|constructor].
    right. eexists _, _. split; reflexivity. }
  split; [exact Hskip|]. split; [reflexivity|].
  exact (@fallback_unavailable_raises sample_random sample_world_offline
           (Sample.config [Sample.src_unknown; Sample.src_missing] true) 0 OSError
           Hskip eq_refl).
Defined.

Lemma missing_path_is_skipped_witness :
  type Sample.src_missing = "folder_structure"
  ∧ os_path_exists (path Sample.src_missing) = false
  ∧ load_source (Sample.config [] true) init Sample.src_missing 3 = Ok (init, 3).
Proof.
  split; [reflexivity|]. split; [reflexivity|].
  apply (@missing_path_is_skipped sample_random sample_world (Sample.config [] true)
           init Sample.src_missing 3).
  left. split; reflexivity.
Defined.


Lemma source_stats_describe_batches_witness :
  ∃ self' st',
    for_each_M (load_source (Sample.config [Sample.src_a; Sample.src_b None] true))
               (DATA_SOURCES (Sample.config [Sample.src_a; Sample.src_b None] true))
               init 0
    = Ok (self', st')
    ∧ stats_describe_batches (Sample.config [Sample.src_a; Sample.src_b None] true) self'
    ∧ size (source_stats self') ≤ length (all_images self').
Proof.
  eexists _, _. split; [vm_compute; reflexivity|].
  destruct (@source_stats_describe_batches sample_random sample_world
              (Sample.config [Sample.src_a; Sample.src_b None] true) 0 _ _ eq_refl)
    as (_ & Hstats & Hsize).
  split; [exact Hstats|exact Hsize].
Defined.

Lemma mismatched_shapes_raise_witness :
  load_all_sources (Sample.config [Sample.src_mnist; Sample.src_a] true) init 0
  = Raise ValueError.
Proof.
  eapply (@mismatched_shapes_raise sample_random sample_world
            (Sample.config [Sample.src_mnist; Sample.src_a] true) init 0).
  - vm_compute. reflexivity.
  - apply list_elem_of_here.
  - apply list_elem_of_further, list_elem_of_here.
  - vm_compute. discriminate.
Defined.

Lemma matching_shapes_concatenate_witness :
  ∃ self' st',
    for_each_M (load_source (Sample.config [Sample.src_a; Sample.src_b None] true))
               (DATA_SOURCES (Sample.config [Sample.src_a; Sample.src_b None] true))
               init 0
    = Ok (self', st')
    ∧ all_images self' ≠ []
    ∧ ∃ images labels,
        load_all_sources (Sample.config [Sample.src_a; Sample.src_b None] true) init 0
        = Ok ((self', (images, labels)), st')
        ∧ np.len images = 10
        ∧ np.len labels = 10.
Proof.
  eexists _, _. split; [vm_compute; reflexivity|]. split; [done|].
  destruct (@matching_shapes_concatenate sample_random sample_world
              (Sample.config [Sample.src_a; Sample.src_b None] true) 0 _ _ eq_refl)
    as (images & labels & Hrun & _ & Hlen & Hlen').
  - done.
  - intros a b Ha Hb.
    assert (Forall (λ a : ndarray pixels, item_shape a = [1; 1; 3])
              [Ndarray [1; 1; 3] UInt8
                 [[10; 10; 10]; [11; 11; 11]; [12; 12; 12]; [13; 13; 13];
                  [14; 14; 14]; [15; 15; 15]; [16; 16; 16]; [17; 17; 17]]%Z;
               Ndarray [1; 1; 3] UInt8 [[20; 20; 20]; [21; 21; 21]]%Z]) as Hall.
    { repeat constructor. }
    rewrite Forall_forall in Hall. by rewrite (Hall a Ha), (Hall b Hb).
  - exists images, labels. split; [exact Hrun|]. split; [exact Hlen|exact Hlen'].
Defined.


Lemma shuffle_dataset_short_labels_witness :
  np.len (Ndarray [] Int64 [7; 8]%Z) < np.len Sample.three_images
  ∧ is_Some (seed_state 42)
  ∧ shuffle_dataset Sample.three_images (Ndarray [] Int64 [7; 8]%Z) 42 0
    = Raise IndexError.
Proof.
  split; [vm_compute; lia|]. split; [by eexists|].
  apply (@shuffle_dataset_short_labels sample_random); [vm_compute; lia|by eexists].
Defined.

Lemma shuffle_dataset_long_labels_witness :
  np.len Sample.three_images < np.len (Ndarray [] Int64 [7; 8; 9; 10]%Z)
  ∧ is_Some (seed_state 42)
  ∧ ∃ images' labels' st',
      shuffle_dataset Sample.three_images (Ndarray [] Int64 [7; 8; 9; 10]%Z) 42 0
      = Ok ((images', labels'), st')
      ∧ np.len labels' = np.len Sample.three_images
      ∧ pairs_of (images', labels')
        ≡ₚ pairs_of (Sample.three_images, Ndarray [] Int64 [7; 8; 9; 10]%Z)
      ∧ items labels'
        ≡ₚ take (np.len Sample.three_images) (items (Ndarray [] Int64 [7; 8; 9; 10]%Z)).
Proof.
  split; [vm_compute; lia|]. split; [by eexists|].
  apply (@shuffle_dataset_long_labels sample_random); [vm_compute; lia|by eexists].
Defined.

Lemma partitions_hold_truncated_corpus_witness :
  ∃ train val test st' images labels,
    get_data_splits (Sample.config [Sample.src_a] true) 0 = Ok ((train, val, test), st')
    ∧ load_combined_dataset (Sample.config [Sample.src_a] true) 0
      = Ok ((images, labels), st')
    ∧ pairs_of train ++ pairs_of val ++ pairs_of test
      ≡ₚ pairs_of (np.slice_to images 8, np.slice_to labels 8).
Proof.
  eexists _, _, _, _.
  destruct (@partitions_hold_truncated_corpus sample_random sample_sklearn sample_world
              (Sample.config [Sample.src_a] true) 0 _ _ _ _ eq_refl)
    as (images & labels & Hload & Hperm).
  exists images, labels. split; [vm_compute; reflexivity|]. split; [exact Hload|].
  pose proof Hload as Hrun. vm_compute in Hrun. injection Hrun as <- <-.
  exact Hperm.
Defined.

Lemma partitions_keep_shape_witness :
  ∃ train val test st',
    get_data_splits (Sample.config [Sample.src_a] true) 0 = Ok ((train, val, test), st')
    ∧ Forall (λ part : batch, item_shape part.1 = [1; 1; 3] ∧ dtype_of part.1 = UInt8)
             [train; val; test].
Proof.
  eexists _, _, _, _. split; [vm_compute; reflexivity|].
  destruct (@partitions_keep_shape sample_random sample_sklearn sample_world
              (Sample.config [Sample.src_a] true) 0 _ _ _ _ eq_refl)
    as (self & images & labels & st1 & Hload & Hparts).
  vm_compute in Hload. injection Hload as <- <- <- <-.
  eapply Forall_impl; [exact Hparts|]. intros part (Hshape & Hdtype & _). by split.
Defined.


Lemma partitions_hold_all_samples_witness :
  Forall unweighted (DATA_SOURCES (Sample.config [Sample.src_a] true))
  ∧ (1 <= TRAINING_PERCENTAGE (Sample.config [Sample.src_a] true))%Q
  ∧ ∃ train val test st',
      get_data_splits (Sample.config [Sample.src_a] true) 0 = Ok ((train, val, test), st')
      ∧ pairs_of train ++ pairs_of val ++ pairs_of test
        ≡ₚ mjoin (pairs_of <$> omap (reader_batch (Sample.config [Sample.src_a] true))
                                 (DATA_SOURCES (Sample.config [Sample.src_a] true))).
Proof.
  assert (Forall unweighted (DATA_SOURCES (Sample.config [Sample.src_a] true))) as Hw.
  { repeat constructor; intros w [=]. }
  split; [exact Hw|]. split; [vm_compute; discriminate|].
  eexists _, _, _, _. split; [vm_compute; reflexivity|].
  eapply (@partitions_hold_all_samples sample_random sample_sklearn sample_world
            (Sample.config [Sample.src_a] true) 0);
    [exact Hw|vm_compute; discriminate|by vm_compute|vm_compute; reflexivity].
Defined.

Lemma representative_dataset_first_samples_witness :
  ∃ batches,
    representative_dataset (Ok ((Sample.three_images, Sample.three_labels), tt))
                           (λ x, Ok x)
    = Ok batches
    ∧ length batches = 3
    ∧ (batches ≫= λ batch, batch ≫= items) = items Sample.three_images.
Proof.
  eexists. split; [vm_compute; reflexivity|].
  destruct (representative_dataset_first_samples
              (Ok ((Sample.three_images, Sample.three_labels), tt)) (λ x, Ok x) _ eq_refl)
    as (raw & labels & rest & x_train & Hload & Hpre & Hlen & _ & Hitems).
  injection Hload as <- <- <-. injection Hpre as <-.
  split; [exact Hlen|exact Hitems].
Defined.
